(** * Link power-state controller of the 5G backhaul energy manager

    A shallow embedding of [energy_manager.py] (class [EnergyManager]) and of
    the topology map served by [ryu_controller.py]
    ([EnergyAwareController._build_topology] and the [/topology] route),
    followed by the properties of the sleep/wake logic.

    Conventions of the embedding:
    - Python [dict] / [OrderedDict] values are association lists in insertion
      order ([PyDict]); assigning to an existing key keeps its position.
    - Python [int] is [Z]; a utilization ([float]) is a rational [Q]: the code
      only stores and compares utilizations, and every finite float is a
      rational with the same order.  [sleep_threshold] is a field of the
      manager, [1#10] by default.
    - A [str] is a [string] whose characters are the code points below 256;
      no decimal digit other than 0..9 lies in that range.
    - An uncaught Python exception is the [Raise] outcome of [result]; the
      mutating loop returns the manager as it stands when the exception
      leaves it.
    - Logging has no effect on the state and is left out.
    - The replies of the two services are modelled as they are sent, with
      typed bodies ([Ryu.json_body], [prediction]), and as the manager may
      receive them, as parsed JSON of any shape ([Wire]). *)

From Stdlib Require Import ZArith QArith List String Ascii Bool Lia.
From Stdlib Require DecimalString HexadecimalString DecimalPos Sorted.
Import ListNotations.

Open Scope string_scope.
Open Scope Z_scope.

(** ** Python values used by the code *)

Module PyDict.
Section Dict.
Context {V : Type}.

Definition dict := list (string * V).

(** [d.get(k)]; [k in d] and [d[k]] are read off its result. *)
Fixpoint dict_get (k : string) (d : dict) : option V :=
  match d with
  | [] => None
  | (k', v) :: d' => if String.eqb k k' then Some v else dict_get k d'
  end.

(** [d[k] = v]: an existing key keeps its place, a new key goes last. *)
Fixpoint dict_set (k : string) (v : V) (d : dict) : dict :=
  match d with
  | [] => [(k, v)]
  | (k', v') :: d' =>
      if String.eqb k k' then (k, v) :: d' else (k', v') :: dict_set k v d'
  end.

(** [list(d.keys())] *)
Definition dict_keys (d : dict) : list string := map fst d.
End Dict.
Arguments dict V : clear implicits.
End PyDict.
Import PyDict.

Module PyStr.
(** [s.split('_')] *)
Fixpoint split_underscore (s : string) : list string :=
  match s with
  | EmptyString => [EmptyString]
  | String c s' =>
      if Ascii.eqb c "_" then EmptyString :: split_underscore s'
      else match split_underscore s' with
           | [] => [String c EmptyString]
           | p :: ps => String c p :: ps
           end
  end.

(** [x in xs] for a list of strings *)
Definition str_in (x : string) (xs : list string) : bool :=
  existsb (String.eqb x) xs.

(** Whitespace that [int()] strips: TAB..CR and the space, and the two spaces
    above 127, NEL and the no-break space, which [int()] first turns into
    spaces.  The separators FS..US (28..31), for which [str.isspace] holds,
    are not stripped. *)
Definition is_space (c : ascii) : bool :=
  let n := N_of_ascii c in
  ((9 <=? n) && (n <=? 13) || (n =? 32) || (n =? 133) || (n =? 160))%N.

Definition digit_val (c : ascii) : option Z :=
  let n := N_of_ascii c in
  if ((48 <=? n) && (n <=? 57))%N then Some (Z.of_N n - 48) else None.

Fixpoint drop_spaces (cs : list ascii) : list ascii :=
  match cs with
  | c :: cs' => if is_space c then drop_spaces cs' else cs
  | [] => []
  end.

Definition strip (cs : list ascii) : list ascii :=
  rev (drop_spaces (rev (drop_spaces cs))).

Fixpoint digits_val (acc : Z) (cs : list ascii) : option Z :=
  match cs with
  | [] => Some acc
  | c :: cs' =>
      match digit_val c with
      | Some d => digits_val (10 * acc + d) cs'
      | None => None
      end
  end.

Definition unsigned_val (cs : list ascii) : option Z :=
  match cs with
  | [] => None
  | _ :: _ => digits_val 0 cs
  end.

(** [int(s)] for a string without underscores: surrounding whitespace, an
    optional sign, then at least one decimal digit.  [None] stands for
    [ValueError]. *)
Definition py_int (s : string) : option Z :=
  match strip (list_ascii_of_string s) with
  | "+"%char :: cs => unsigned_val cs
  | "-"%char :: cs => option_map Z.opp (unsigned_val cs)
  | cs => unsigned_val cs
  end.

(** [str(n)] / [f'{n}'] for an integer *)
Definition py_str (n : Z) : string :=
  DecimalString.NilZero.string_of_int (Z.to_int n).

(** [f'{n:02x}'] for a non-negative integer *)
Definition hex02 (n : Z) : string :=
  let h := HexadecimalString.NilZero.string_of_uint (N.to_hex_uint (Z.to_N n)) in
  if (String.length h <? 2)%nat then "0" ++ h else h.
End PyStr.
Import PyStr.

(** ** Exceptions *)

Inductive exn : Type :=
| KeyError (key : string)
| IndexError
| ValueError
| TypeError
| AttributeError
| OverflowError.

Inductive result (A : Type) : Type :=
| Ok (a : A)
| Raise (e : exn).
Arguments Ok {A} a.
Arguments Raise {A} e.

Definition bind {A B : Type} (m : result A) (k : A -> result B) : result B :=
  match m with
  | Ok a => k a
  | Raise e => Raise e
  end.

Notation "x <- m ;; k" := (bind m (fun x => k))
  (at level 61, m at next level, right associativity).

(** [d[k]] raising [KeyError] *)
Definition subscript {V : Type} (d : dict V) (k : string) : result V :=
  match dict_get k d with
  | Some v => Ok v
  | None => Raise (KeyError k)
  end.

(** ** Data model *)

(** A link tuple [(dpid_a, port_a, hw_a, dpid_b, port_b, hw_b)]. *)
Record edge : Type := mkEdge {
  dpid_a : Z; port_a : Z; hw_a : string;
  dpid_b : Z; port_b : Z; hw_b : string
}.

(** [{'active': ..., 'utilization': ...}] *)
Record link_state : Type := mkLinkState {
  active : bool;
  utilization : Q
}.

(** [self.metrics]: three parallel lists. *)
Record metrics_t : Type := mkMetrics {
  hourly_energy : list Z;
  active_links_history : list Z;
  timestamp : list Z
}.

(** The fields of [EnergyManager] that the control logic reads or writes.
    [switch_graph] is the edge list of the [nx.Graph]: endpoints and the
    [link_id] attribute. *)
Record EnergyManager : Type := mkManager {
  switch_graph : list (Z * Z * string);
  link_states : dict link_state;
  link_index_to_edge : dict edge;
  sleep_threshold : Q;
  metrics : metrics_t
}.

(** [EnergyManager.__init__] *)
Definition init_manager : EnergyManager :=
  {| switch_graph := [];
     link_states := [];
     link_index_to_edge := [];
     sleep_threshold := 1 # 10;
     metrics := mkMetrics [] [] [] |}.

Definition set_link_states (self : EnergyManager) (ls : dict link_state) : EnergyManager :=
  {| switch_graph := switch_graph self;
     link_states := ls;
     link_index_to_edge := link_index_to_edge self;
     sleep_threshold := sleep_threshold self;
     metrics := metrics self |}.

(** ** The controller's topology map ([ryu_controller.py]) *)

Module Ryu.
Definition host_links : list (Z * Z * Z * Z) :=
  [ (1, 4, 1, 1); (2, 5, 1, 1); (3, 4, 2, 2); (4, 6, 1, 2);
    (5, 5, 2, 3); (6, 7, 1, 3); (7, 6, 2, 4); (8, 8, 1, 4);
    (9, 7, 2, 5); (10, 9, 1, 5); (11, 6, 3, 6); (12, 8, 2, 6);
    (13, 9, 2, 7); (14, 5, 3, 7); (15, 4, 3, 8); (16, 6, 4, 8);
    (17, 5, 4, 9); (18, 7, 3, 9); (19, 6, 5, 10); (20, 8, 3, 10);
    (21, 7, 4, 11); (22, 9, 3, 11); (23, 8, 4, 12); (24, 9, 4, 12) ].

Definition core_links : list (Z * Z * Z * Z * Z) :=
  [ (25, 1, 1, 2, 1); (26, 1, 2, 3, 1); (27, 2, 2, 3, 2) ].

Definition core_agg_links : list (Z * Z * Z * Z * Z) :=
  [ (28, 1, 3, 4, 3); (29, 2, 3, 4, 4); (30, 1, 4, 5, 3); (31, 3, 3, 5, 4);
    (32, 2, 4, 6, 5); (33, 3, 4, 6, 6); (34, 1, 5, 7, 4); (35, 2, 5, 7, 5);
    (36, 1, 6, 8, 5); (37, 3, 5, 8, 6); (38, 2, 6, 9, 6); (39, 3, 6, 9, 7) ].

Definition link_name (n : Z) : string := "link_" ++ py_str n.

Definition switch_hw (dpid port : Z) : string :=
  "00:00:00:00:" ++ hex02 dpid ++ ":" ++ hex02 port.

Definition host_hw (host_id : Z) : string :=
  "00:00:00:00:00:" ++ hex02 host_id.

(** [_build_topology]: the host links first, then core and core-aggregation
    links, each stored under ['link_<id>']. *)
Definition _build_topology : dict edge :=
  let m1 :=
    fold_left
      (fun m '(link_id, switch_dpid, switch_port, host_id) =>
         dict_set (link_name link_id)
           (mkEdge switch_dpid switch_port (switch_hw switch_dpid switch_port)
                   (- host_id) 1 (host_hw host_id)) m)
      host_links [] in
  fold_left
    (fun m '(link_id, da, pa, db, pb) =>
       dict_set (link_name link_id)
         (mkEdge da pa (switch_hw da pa) db pb (switch_hw db pb)) m)
    (core_links ++ core_agg_links) m1.

(** What [GET /topology] answers: the JSON body of a 200 reply carries the
    map; any other reply carries no JSON the manager reads.  These are the
    bodies of the shape that the controller sends; what the manager does with
    any other body is modelled in [Wire] below. *)
Record json_body : Type := mkBody { topology_field : option (dict edge) }.

Inductive reply : Type :=
| Response (status_code : Z) (body : json_body).

(** [EnergyAwareControllerAPI.get_topology]: an empty map is answered with
    status 500 ("Topology map not ready."). *)
Definition get_topology (link_index_to_edge : dict edge) : reply :=
  match link_index_to_edge with
  | _ :: _ => Response 200 (mkBody (Some link_index_to_edge))
  | [] => Response 500 (mkBody None)
  end.
End Ryu.

(** ** Topology acquisition ([EnergyManager.get_topology_from_ryu]) *)

(** One pass through the body of [while True]: the request either raises a
    [RequestException] or yields a reply, here one of the controller's. *)
Inductive attempt : Type :=
| RequestException
| Replied (r : Ryu.reply).

(** [nx.Graph.add_edge(u, v, link_id=...)]: an undirected simple graph, so
    an edge that is already there only gets its attribute overwritten. *)
Fixpoint add_edge (g : list (Z * Z * string)) (u v : Z) (link_id : string)
  : list (Z * Z * string) :=
  match g with
  | [] => [(u, v, link_id)]
  | (a, b, l) :: g' =>
      if ((a =? u) && (b =? v)) || ((a =? v) && (b =? u))
      then (a, b, link_id) :: g'
      else (a, b, l) :: add_edge g' u v link_id
  end.

(** The part of [get_topology_from_ryu] run on a 200 reply. *)
Definition load_topology (self : EnergyManager) (data : Ryu.json_body) : EnergyManager :=
  let topology_data :=
    match Ryu.topology_field data with Some t => t | None => [] end in
  let index :=
    fold_left (fun m '(link_id, link_tuple) => dict_set link_id link_tuple m)
              topology_data (link_index_to_edge self) in
  fold_left
    (fun (s : EnergyManager) '(link_id, e) =>
       {| switch_graph :=
            if (0 <? dpid_a e) && (0 <? dpid_b e)
            then add_edge (switch_graph s) (dpid_a e) (dpid_b e) link_id
            else switch_graph s;
          link_states := dict_set link_id (mkLinkState true 0) (link_states s);
          link_index_to_edge := link_index_to_edge s;
          sleep_threshold := sleep_threshold s;
          metrics := metrics s |})
    index
    {| switch_graph := switch_graph self;
       link_states := link_states self;
       link_index_to_edge := index;
       sleep_threshold := sleep_threshold self;
       metrics := metrics self |}.

(** [get_topology_from_ryu] over the outcomes of its successive requests, the
    replies being of the shape that the controller sends
    ([Wire.get_topology_from_ryu] takes them as received).
    [None]: the listed attempts are used up and the loop is still polling.
    [Some (self', true)]: the method returned [True]. *)
Fixpoint get_topology_from_ryu (self : EnergyManager) (attempts : list attempt)
  : option (EnergyManager * bool) :=
  match attempts with
  | [] => None
  | RequestException :: rest => get_topology_from_ryu self rest
  | Replied (Ryu.Response status_code data) :: rest =>
      if status_code =? 200 then Some (load_topology self data, true)
      else get_topology_from_ryu self rest
  end.

(** ** Prediction ingestion ([_update_predictions]) *)

(** One element of the ['predictions'] list: [pred.get('link_id')] and
    [pred.get('bandwidth_utilization (ratio)')], [None] for a missing key. *)
Record prediction : Type := mkPrediction {
  pred_link_id : option string;
  pred_ratio : option Q
}.

(** The body of the [for pred in predictions] loop. *)
Definition apply_prediction (self : EnergyManager) (pred : prediction) : EnergyManager :=
  match pred_link_id pred with
  | None => self
  | Some link_id =>
      match dict_get link_id (link_states self) with
      | None => self
      | Some s =>
          let raw_util := match pred_ratio pred with Some r => r | None => 0%Q end in
          set_link_states self
            (dict_set link_id (mkLinkState (active s) raw_util) (link_states self))
      end
  end.

Definition _update_predictions (self : EnergyManager) (predictions : list prediction)
  : EnergyManager :=
  fold_left apply_prediction predictions self.

(** ** Safety evaluator ([_is_safe_to_sleep] and its two helpers) *)

Definition host_to_links : dict (list string) :=
  [ ("h1", ["link_1"; "link_2"]); ("h2", ["link_3"; "link_4"]);
    ("h3", ["link_5"; "link_6"]); ("h4", ["link_7"; "link_8"]);
    ("h5", ["link_9"; "link_10"]); ("h6", ["link_11"; "link_12"]);
    ("h7", ["link_13"; "link_14"]); ("h8", ["link_15"; "link_16"]);
    ("h9", ["link_17"; "link_18"]); ("h10", ["link_19"; "link_20"]);
    ("h11", ["link_21"; "link_22"]); ("h12", ["link_23"; "link_24"]) ].

Definition agg_switch_to_core_links : list (Z * list string) :=
  [ (4, ["link_25"; "link_26"]); (5, ["link_27"; "link_28"]);
    (6, ["link_29"; "link_30"]); (7, ["link_31"; "link_32"]);
    (8, ["link_33"; "link_34"]); (9, ["link_35"; "link_36"]) ].

Definition core_core_ids : list string := ["link_37"; "link_38"; "link_39"].

(** The loop shared by both helpers:
    [for other_link in links:
       if other_link != link_id and self.link_states[other_link]['active']: return True
     return False] *)
Fixpoint any_other_active (self : EnergyManager) (link_id : string) (links : list string)
  : result bool :=
  match links with
  | [] => Ok false
  | other_link :: rest =>
      if String.eqb other_link link_id then any_other_active self link_id rest
      else
        s <- subscript (link_states self) other_link ;;
        if active s then Ok true else any_other_active self link_id rest
  end.

Definition host_name (host_id : Z) : string := "h" ++ py_str host_id.

Definition _is_safe_to_sleep_host_link (self : EnergyManager) (link_id : string) (host_id : Z)
  : result bool :=
  match dict_get (host_name host_id) host_to_links with
  | None => Ok false
  | Some host_links =>
      if negb (str_in link_id host_links) then Ok false
      else any_other_active self link_id host_links
  end.

(** [for agg_switch, links in agg_switch_to_core_links.items()] *)
Fixpoint agg_search (self : EnergyManager) (link_id : string) (items : list (Z * list string))
  : result bool :=
  match items with
  | [] => Ok true
  | (_, links) :: rest =>
      if str_in link_id links then any_other_active self link_id links
      else agg_search self link_id rest
  end.

Definition _is_safe_to_sleep_aggregation_core_link (self : EnergyManager) (link_id : string)
  : result bool :=
  agg_search self link_id agg_switch_to_core_links.

(** [int(link_id.split('_')[1])] *)
Definition link_number (link_id : string) : result Z :=
  match split_underscore link_id with
  | _ :: field :: _ =>
      match py_int field with
      | Some n => Ok n
      | None => Raise ValueError
      end
  | _ => Raise IndexError
  end.

(** The three categories are tested in this order; the statement that follows
    the last [return False] in the source ([return nx.is_connected(temp_graph)])
    is never reached. *)
Definition _is_safe_to_sleep (self : EnergyManager) (link_id : string) : result bool :=
  match dict_get link_id (link_index_to_edge self) with
  | None => Ok false
  | Some e =>
      if dpid_b e <? 0 then _is_safe_to_sleep_host_link self link_id (- dpid_b e)
      else if str_in link_id core_core_ids then Ok true
      else
        n <- link_number link_id ;;
        if (25 <=? n) && (n <=? 36)
        then _is_safe_to_sleep_aggregation_core_link self link_id
        else Ok false
  end.

(** ** State controller ([_set_link_state], [_link_management]) *)

Definition _set_link_state (self : EnergyManager) (link_id : string) (up : bool)
  : EnergyManager * bool :=
  match dict_get link_id (link_states self) with
  | None => (self, false)
  | Some s =>
      (set_link_states self
         (dict_set link_id (mkLinkState up (utilization s)) (link_states self)),
       true)
  end.

(** [a >= b] on utilizations *)
Definition util_ge (a b : Q) : bool := Qle_bool b a.

(** [a < b] on utilizations *)
Definition util_lt (a b : Q) : bool := negb (Qle_bool b a).

(** The body of [for link_id in all_link_ids]: a missing state is skipped
    ([continue]).  The second component is the exception that left the body,
    if any.  The two summary lists built at the end of the body are only
    logged. *)
Definition manage_link (self : EnergyManager) (link_id : string)
  : EnergyManager * option exn :=
  match dict_get link_id (link_states self) with
  | None => (self, None)
  | Some state =>
      let util := utilization state in
      if negb (active state) && util_ge util (sleep_threshold self)
      then (fst (_set_link_state self link_id true), None)
      else if active state && util_lt util (sleep_threshold self)
      then match _is_safe_to_sleep self link_id with
           | Ok true => (fst (_set_link_state self link_id false), None)
           | Ok false => (self, None)
           | Raise e => (self, Some e)
           end
      else (self, None)
  end.

Fixpoint manage_links (self : EnergyManager) (all_link_ids : list string)
  : EnergyManager * option exn :=
  match all_link_ids with
  | [] => (self, None)
  | link_id :: rest =>
      match manage_link self link_id with
      | (self', None) => manage_links self' rest
      | stopped => stopped
      end
  end.

Definition _link_management (self : EnergyManager) : EnergyManager * option exn :=
  manage_links self (dict_keys (link_states self)).

(** ** Metrics ([calculate_energy_consumption], [_metrics_collector]) *)

Definition calculate_energy_consumption (self : EnergyManager) : Z * Z * Z :=
  fold_left
    (fun '(total_energy, active_links, sleeping_links) '(_, state) =>
       if active state
       then (total_energy + 100, active_links + 1, sleeping_links)
       else (total_energy + 10, active_links, sleeping_links + 1))
    (link_states self) (0, 0, 0).

Definition _metrics_collector (self : EnergyManager) (hour : Z) : EnergyManager :=
  let '(energy, active_links, _) := calculate_energy_consumption self in
  {| switch_graph := switch_graph self;
     link_states := link_states self;
     link_index_to_edge := link_index_to_edge self;
     sleep_threshold := sleep_threshold self;
     metrics :=
       {| hourly_energy := hourly_energy (metrics self) ++ [energy];
          active_links_history := active_links_history (metrics self) ++ [active_links];
          timestamp := timestamp (metrics self) ++ [hour] |} |}.

(** ** Control loop ([run_simulation]) *)

(** One pass through the body of the simulation loop for the forecast that
    [_get_predictions] returned ([[]] when the fetch failed). *)
Definition simulated_hour (self : EnergyManager) (hour : Z) (predictions : list prediction)
  : EnergyManager * option exn :=
  let self1 :=
    match predictions with
    | [] => self
    | _ :: _ => _update_predictions self predictions
    end in
  match _link_management self1 with
  | (self2, None) => (_metrics_collector self2 hour, None)
  | stopped => stopped
  end.

(** The [while True] loop of [run_simulation], from hour [hour] on, over the
    forecasts fetched in the successive hours.  The periodic export and the
    10 s pause leave the manager as it is. *)
Fixpoint simulation_loop (self : EnergyManager) (hour : Z)
    (fetched : list (list prediction)) : EnergyManager * option exn :=
  match fetched with
  | [] => (self, None)
  | predictions :: rest =>
      match simulated_hour self hour predictions with
      | (self', None) => simulation_loop self' (hour + 1) rest
      | stopped => stopped
      end
  end.

(** The operations that change a manager after topology acquisition, and their
    sequencing.  A run ends at the first exception. *)
Inductive event : Type :=
| Forecast (predictions : list prediction)
| Manage
| Collect (hour : Z).

Definition step (self : EnergyManager) (ev : event) : EnergyManager * option exn :=
  match ev with
  | Forecast predictions => (_update_predictions self predictions, None)
  | Manage => _link_management self
  | Collect hour => (_metrics_collector self hour, None)
  end.

Fixpoint run (self : EnergyManager) (evs : list event) : EnergyManager * option exn :=
  match evs with
  | [] => (self, None)
  | ev :: rest =>
      match step self ev with
      | (self', None) => run self' rest
      | stopped => stopped
      end
  end.

(** The manager right after a 200 reply carrying [snapshot]. *)
Definition started (snapshot : dict edge) : EnergyManager :=
  load_topology init_manager (Ryu.mkBody (Some snapshot)).

(** ** The graph of ACTIVE links *)

Definition is_active (self : EnergyManager) (link_id : string) : bool :=
  match dict_get link_id (link_states self) with
  | Some s => active s
  | None => false
  end.

Definition active_edges (self : EnergyManager) : list (Z * Z) :=
  flat_map
    (fun '(link_id, e) => if is_active self link_id then [(dpid_a e, dpid_b e)] else [])
    (link_index_to_edge self).

Inductive connected (es : list (Z * Z)) (u : Z) : Z -> Prop :=
| connected_refl : connected es u u
| connected_step v w :
    connected es u v -> In (v, w) es \/ In (w, v) es -> connected es u w.

(** A set of nodes that no edge leaves. *)
Definition closed_under (es : list (Z * Z)) (nodes : list Z) : bool :=
  forallb
    (fun '(a, b) => Bool.eqb (existsb (Z.eqb a) nodes) (existsb (Z.eqb b) nodes))
    es.

(** ** Notions used to state and prove the properties *)

(** The manager right after the controller's own map was loaded. *)
Definition default_state : EnergyManager := started Ryu._build_topology.

(** The three categories, as the evaluator tests them. *)
Definition is_host_access (index : dict edge) (link_id : string) : bool :=
  match dict_get link_id index with
  | Some e => dpid_b e <? 0
  | None => false
  end.

Definition is_core_mesh (link_id : string) : bool := str_in link_id core_core_ids.

Definition is_agg_core (link_id : string) : bool :=
  match link_number link_id with
  | Ok n => (25 <=? n) && (n <=? 36)
  | Raise _ => false
  end.

Definition unclassified (index : dict edge) (link_id : string) : bool :=
  negb (is_host_access index link_id) && negb (is_core_mesh link_id)
  && negb (is_agg_core link_id).

(** The evaluator's host table agrees with the topology: for every host
    [-dpid_b] that the map attaches a link to, the links the table lists for
    that host are, where the map has them, links to that same host. *)
Definition hosts_match_table (index : dict edge) : bool :=
  forallb
    (fun '(_, e) =>
       match dict_get (host_name (- dpid_b e)) host_to_links with
       | None => true
       | Some links =>
           forallb
             (fun l =>
                match dict_get l index with
                | None => true
                | Some e' => dpid_b e' =? dpid_b e
                end)
             links
       end)
    index.

(** [pred] is an entry for [link_id]. *)
Definition names (link_id : string) (pred : prediction) : bool :=
  match pred_link_id pred with
  | Some l => String.eqb l link_id
  | None => false
  end.

(** [pred.get('bandwidth_utilization (ratio)', 0.0)] *)
Definition ratio_of (pred : prediction) : Q :=
  match pred_ratio pred with Some r => r | None => 0%Q end.

(** The ratio that the last entry for [link_id] in a forecast carries. *)
Fixpoint last_ratio (link_id : string) (predictions : list prediction) : option Q :=
  match predictions with
  | [] => None
  | pred :: rest =>
      match last_ratio link_id rest with
      | Some u => Some u
      | None => if names link_id pred then Some (ratio_of pred) else None
      end
  end.


(** All forecast entries of a run, in the order they are applied. *)
Definition forecast_entries (evs : list event) : list prediction :=
  flat_map (fun ev => match ev with Forecast ps => ps | _ => [] end) evs.

(** The ratio of an entry lies within [0, 1]. *)
Definition ratio_in_range (pred : prediction) : bool :=
  Qle_bool 0 (ratio_of pred) && Qle_bool (ratio_of pred) 1.

(** The links of a link-state map that are ACTIVE, and those that are
    SLEEPING. *)
Definition count_active (ls : dict link_state) : Z :=
  Z.of_nat (List.length (filter (fun '(_, s) => active s) ls)).

Definition count_sleeping (ls : dict link_state) : Z :=
  Z.of_nat (List.length (filter (fun '(_, s) => negb (active s)) ls)).

(** An attempt after which [get_topology_from_ryu] polls again. *)
Definition retrying (a : attempt) : bool :=
  match a with
  | RequestException => true
  | Replied (Ryu.Response status_code _) => negb (status_code =? 200)
  end.

(** [self.link_states[link_id]['active'] = up] *)
Definition with_active (self : EnergyManager) (link_id : string) (up : bool) (s : link_state)
  : EnergyManager :=
  set_link_states self
    (dict_set link_id (mkLinkState up (utilization s)) (link_states self)).

(** What one pass of the loop body can do to the manager. *)
Inductive link_outcome (self : EnergyManager) (link_id : string)
  : EnergyManager * option exn -> Prop :=
| lo_absent :
    dict_get link_id (link_states self) = None ->
    link_outcome self link_id (self, None)
| lo_wake s :
    dict_get link_id (link_states self) = Some s ->
    active s = false ->
    util_ge (utilization s) (sleep_threshold self) = true ->
    link_outcome self link_id (with_active self link_id true s, None)
| lo_idle_asleep s :
    dict_get link_id (link_states self) = Some s ->
    active s = false ->
    util_ge (utilization s) (sleep_threshold self) = false ->
    link_outcome self link_id (self, None)
| lo_busy s :
    dict_get link_id (link_states self) = Some s ->
    active s = true ->
    util_lt (utilization s) (sleep_threshold self) = false ->
    link_outcome self link_id (self, None)
| lo_sleep s :
    dict_get link_id (link_states self) = Some s ->
    active s = true ->
    util_lt (utilization s) (sleep_threshold self) = true ->
    _is_safe_to_sleep self link_id = Ok true ->
    link_outcome self link_id (with_active self link_id false s, None)
| lo_unsafe s :
    dict_get link_id (link_states self) = Some s ->
    active s = true ->
    util_lt (utilization s) (sleep_threshold self) = true ->
    _is_safe_to_sleep self link_id = Ok false ->
    link_outcome self link_id (self, None)
| lo_raise s e :
    dict_get link_id (link_states self) = Some s ->
    active s = true ->
    util_lt (utilization s) (sleep_threshold self) = true ->
    _is_safe_to_sleep self link_id = Raise e ->
    link_outcome self link_id (self, Some e).

(** A link that is ACTIVE with a utilization at or above the threshold. *)
Definition busy (link_id : string) (u : Q) (self : EnergyManager) : Prop :=
  dict_get link_id (link_states self) = Some (mkLinkState true u)
  /\ util_ge u (sleep_threshold self) = true.

(** An entry is unknown to a manager when it carries no identifier or one
    that is not a key of [link_states]. *)
Definition unknown_entry (self : EnergyManager) (pred : prediction) : Prop :=
  forall l, pred_link_id pred = Some l -> dict_get l (link_states self) = None.

(** Whichever of [x] and [y] comes first in a list of identifiers. *)
Fixpoint first_of (x y : string) (ids : list string) : option string :=
  match ids with
  | [] => None
  | j :: rest =>
      if String.eqb j x then Some x
      else if String.eqb j y then Some y
      else first_of x y rest
  end.

(** [x] and [y] are the two links the evaluator's table lists for host [k],
    and the topology map attaches both of them to host [k]. *)
Definition access_pair (index : dict edge) (k : Z) (x y : string) : Prop :=
  x <> y
  /\ (dict_get (host_name k) host_to_links = Some [x; y]
      \/ dict_get (host_name k) host_to_links = Some [y; x])
  /\ (exists e, dict_get x index = Some e /\ dpid_b e = - k)
  /\ (exists e, dict_get y index = Some e /\ dpid_b e = - k)
  /\ 0 < k.

(** Both links ACTIVE with utilizations [ux], [uy] below the threshold. *)
Definition both_idle (x y : string) (ux uy : Q) (self : EnergyManager) : Prop :=
  dict_get x (link_states self) = Some (mkLinkState true ux)
  /\ dict_get y (link_states self) = Some (mkLinkState true uy)
  /\ util_lt ux (sleep_threshold self) = true
  /\ util_lt uy (sleep_threshold self) = true.

(** [x] SLEEPING and [y] ACTIVE, utilizations as before. *)
Definition one_asleep (x y : string) (ux uy : Q) (self : EnergyManager) : Prop :=
  dict_get x (link_states self) = Some (mkLinkState false ux)
  /\ dict_get y (link_states self) = Some (mkLinkState true uy)
  /\ util_lt ux (sleep_threshold self) = true
  /\ util_lt uy (sleep_threshold self) = true.

(** Every key of [link_states] is a key of the topology map. *)
Definition keys_in_map (self : EnergyManager) : Prop :=
  forall l, In l (dict_keys (link_states self)) ->
            In l (dict_keys (link_index_to_edge self)).

(** Every host the topology map attaches a link to has an ACTIVE link
    attached to it. *)
Definition hosts_attached (self : EnergyManager) : Prop :=
  forall l e,
    dict_get l (link_index_to_edge self) = Some e -> dpid_b e < 0 ->
    exists l' e',
      dict_get l' (link_index_to_edge self) = Some e'
      /\ dpid_b e' = dpid_b e
      /\ is_active self l' = true.

(** Two managers that agree on everything the controller reads. *)
Definition same_control (a b : EnergyManager) : Prop :=
  link_states a = link_states b
  /\ link_index_to_edge a = link_index_to_edge b
  /\ sleep_threshold a = sleep_threshold b.

(** The switches that the controller's [core_links] connect. *)
Definition core_switches : list Z :=
  nodup Z.eq_dec (flat_map (fun '(_, a, _, b, _) => [a; b]) Ryu.core_links).

(** A state in which link_1 sleeps (after the first pass) and a forecast sets
    its utilization to 1/2. *)
Definition woken_input : EnergyManager :=
  _update_predictions (fst (_link_management default_state))
    [mkPrediction (Some "link_1") (Some (1 # 2))].

(** The states that the evaluator's loop over [links] may read are there. *)
Definition reads_ok (keys : list string) (j : string) (links : list string) : bool :=
  forallb (fun l => String.eqb l j || str_in l keys) links.

(** A sufficient condition for [_is_safe_to_sleep] to return on [j]. *)
Definition evaluable (index : dict edge) (keys : list string) (j : string) : bool :=
  match dict_get j index with
  | None => true
  | Some e =>
      if dpid_b e <? 0 then
        match dict_get (host_name (- dpid_b e)) host_to_links with
        | None => true
        | Some links => reads_ok keys j links
        end
      else if str_in j core_core_ids then true
      else
        match link_number j with
        | Raise _ => false
        | Ok n =>
            if (25 <=? n) && (n <=? 36)
            then forallb (fun '(_, links) => reads_ok keys j links) agg_switch_to_core_links
            else true
        end
  end.

(** Every identifier of the map can be evaluated. *)
Definition all_evaluable (self : EnergyManager) : Prop :=
  forallb (evaluable (link_index_to_edge self) (dict_keys (link_states self)))
          (dict_keys (link_states self)) = true.

(** ** The rest of the manager: forecast fetch, logging, export *)

(** What the forecast request of one hour comes to: a [RequestException], or
    a reply with its status and the ['predictions'] member of its JSON body
    ([None] when the member is missing). *)
Inductive fetch : Type :=
| FetchException
| Fetched (status_code : Z) (predictions_field : option (list prediction)).

(** [_get_predictions] *)
Definition _get_predictions (f : fetch) : list prediction :=
  match f with
  | FetchException => []
  | Fetched status_code predictions_field =>
      if status_code =? 200
      then match predictions_field with Some ps => ps | None => [] end
      else []
  end.

(** [l[-1]] *)
Definition last_item (l : list Z) : result Z :=
  match rev l with
  | x :: _ => Ok x
  | [] => Raise IndexError
  end.

(** [log_metrics]: the three numbers it puts in the message (energy, active
    links, sleeping links). *)
Definition log_metrics (self : EnergyManager) : result (Z * Z * Z) :=
  energy <- last_item (hourly_energy (metrics self)) ;;
  active_links <- last_item (active_links_history (metrics self)) ;;
  Ok (energy, active_links, 39 - active_links).

(** A row handed to [csv.writer.writerow]; integers are written as [str]
    writes them. *)
Definition csv_row : Type := list string.

(** The [for i in range(len(self.metrics['timestamp']))] loop of
    [export_metrics]: the rows written, and whether the loop ended without an
    [IndexError]. *)
Fixpoint write_rows (m : metrics_t) (indices : list nat) : list csv_row * bool :=
  match indices with
  | [] => ([], true)
  | i :: rest =>
      match nth_error (timestamp m) i,
            nth_error (hourly_energy m) i,
            nth_error (active_links_history m) i with
      | Some t, Some e, Some a =>
          let '(rows, ok) := write_rows m rest in
          ([py_str t; py_str e; py_str a] :: rows, ok)
      | _, _, _ => ([], false)
      end
  end.

(** [export_metrics], the file being writable: the rows the file holds when
    the method returns, and whether it logged success ([true]) or caught an
    exception and logged the failure ([false]). *)
Definition export_metrics (self : EnergyManager) : list csv_row * bool :=
  let '(rows, ok) :=
    write_rows (metrics self) (seq 0 (List.length (timestamp (metrics self)))) in
  (["Hour"; "Energy_W"; "Active_Links"] :: rows, ok).

(** The files that the simulation loop writes, with the hour at which each is
    written: [if hour > 0 and hour % 6 == 0: self.export_metrics()] after the
    metrics of the hour are collected. *)
Fixpoint simulation_exports (self : EnergyManager) (hour : Z)
    (fetched : list (list prediction)) : list (Z * (list csv_row * bool)) :=
  match fetched with
  | [] => []
  | predictions :: rest =>
      match simulated_hour self hour predictions with
      | (self', None) =>
          ((if (0 <? hour) && (hour mod 6 =? 0) then [(hour, export_metrics self')] else [])
           ++ simulation_exports self' (hour + 1) rest)%list
      | (_, Some _) => []
      end
  end.

(** The three metric lists have one element per recorded cycle. *)
Definition metrics_parallel (self : EnergyManager) : Prop :=
  List.length (hourly_energy (metrics self)) = List.length (timestamp (metrics self))
  /\ List.length (active_links_history (metrics self))
     = List.length (timestamp (metrics self)).

(** The rows of the recorded cycles. *)
Definition metric_rows (m : metrics_t) : list csv_row :=
  map (fun '(t, (e, a)) => [py_str t; py_str e; py_str a])
      (combine (timestamp m) (combine (hourly_energy m) (active_links_history m))).

(** How a link's power state may differ after a pass from what it was
    before. *)
Definition legitimate_change (threshold : Q) (s s' : link_state) : Prop :=
  utilization s' = utilization s
  /\ (active s' = active s
      \/ (active s = false /\ active s' = true /\ util_ge (utilization s) threshold = true)
      \/ (active s = true /\ active s' = false /\ util_lt (utilization s) threshold = true)).

(** [x] and [y] are a pair of the evaluator's aggregation table that the
    topology map holds as switch-to-switch links. *)
Definition aggregation_pair (index : dict edge) (x y : string) : Prop :=
  x <> y
  /\ (exists sw, In (sw, [x; y]) agg_switch_to_core_links
                 \/ In (sw, [y; x]) agg_switch_to_core_links)
  /\ (exists e, dict_get x index = Some e /\ 0 <= dpid_b e)
  /\ (exists e, dict_get y index = Some e /\ 0 <= dpid_b e).

(** A host link that the evaluator's host table does not list for its
    host. *)
Definition unlisted_host_link (index : dict edge) (link_id : string) : bool :=
  match dict_get link_id index with
  | Some e =>
      (dpid_b e <? 0)
      && match dict_get (host_name (- dpid_b e)) host_to_links with
         | None => true
         | Some links => negb (str_in link_id links)
         end
  | None => false
  end.

(** A switch-to-switch link whose number lies in the aggregation range but
    which no entry of the aggregation table lists. *)
Definition unlisted_aggregation_link (index : dict edge) (link_id : string) : bool :=
  match dict_get link_id index with
  | Some e =>
      negb (dpid_b e <? 0) && negb (is_core_mesh link_id) && is_agg_core link_id
      && forallb (fun '(_, links) => negb (str_in link_id links)) agg_switch_to_core_links
  | None => false
  end.

(** [x] is a host link that the evaluator's table lists for host [k] together
    with [y], and the topology map attaches [x] to host [k]. *)
Definition host_table_link (index : dict edge) (k : Z) (x y : string) : Prop :=
  x <> y
  /\ (dict_get (host_name k) host_to_links = Some [x; y]
      \/ dict_get (host_name k) host_to_links = Some [y; x])
  /\ (exists e, dict_get x index = Some e /\ dpid_b e = - k)
  /\ 0 < k.

(** [x] is a switch-to-switch link of the topology map that the evaluator's
    aggregation table lists together with [y]. *)
Definition aggregation_table_link (index : dict edge) (x y : string) : Prop :=
  x <> y
  /\ (exists sw, In (sw, [x; y]) agg_switch_to_core_links
                 \/ In (sw, [y; x]) agg_switch_to_core_links)
  /\ (exists e, dict_get x index = Some e /\ 0 <= dpid_b e).

(** The evaluator's answer for a link whose only test is the state of its
    table sibling [y]: [self.link_states[y]['active']], a [KeyError] when [y]
    has no state. *)
Definition sibling_answer (self : EnergyManager) (y : string) : result bool :=
  s <- subscript (link_states self) y ;; Ok (active s).

(** A link that the evaluator lets sleep whatever else is ACTIVE: a
    switch-to-switch link that is one of the core-mesh identifiers, or whose
    number is in the aggregation range without the table listing it. *)
Definition unconditional_link (index : dict edge) (link_id : string) : bool :=
  match dict_get link_id index with
  | Some e => negb (dpid_b e <? 0) && is_core_mesh link_id
  | None => false
  end
  || unlisted_aggregation_link index link_id.

(** ** The forecast service ([ml_predictor_service.py]) *)

Module Predictor.
(** A row of the dataset: the columns the two services read.  A timestamp is
    an integer (its position in time); the order of timestamps is the order of
    these integers. *)
Record row : Type := mkRow {
  row_timestamp : Z;
  row_link_id : string;
  row_ratio : Q
}.

Record MockLSTMPredictor : Type := mkPredictor {
  df : list row;
  current_hour_index : nat;
  hourly_timestamps : list Z;
  total_hours : nat
}.

(** [Series.unique()]: the values in order of first appearance. *)
Fixpoint unique (l : list Z) : list Z :=
  match l with
  | [] => []
  | x :: l' => x :: filter (fun y => negb (y =? x)) (unique l')
  end.

Fixpoint insert_sorted (t : Z) (l : list Z) : list Z :=
  match l with
  | [] => [t]
  | x :: l' => if t <=? x then t :: l else x :: insert_sorted t l'
  end.

(** [sorted(...)] *)
Definition sorted (l : list Z) : list Z := fold_right insert_sorted [] l.

(** [MockLSTMPredictor.__init__] on the rows read from the dataset: the
    start-up message reads [self.hourly_timestamps[0]], which raises
    [IndexError] when there is no timestamp. *)
Definition init (dataset : list row) : result MockLSTMPredictor :=
  let hourly := sorted (unique (map row_timestamp dataset)) in
  match hourly with
  | [] => Raise IndexError
  | _ :: _ => Ok (mkPredictor dataset 0 hourly (List.length hourly))
  end.

(** [get_next_hour_predictions]: the predictor after the call and the records
    it returns. *)
Definition get_next_hour_predictions (self : MockLSTMPredictor)
  : result (MockLSTMPredictor * list row) :=
  if (total_hours self =? 0)%nat then Ok (self, [])
  else
    match nth_error (hourly_timestamps self) (current_hour_index self) with
    | None => Raise IndexError
    | Some current_timestamp =>
        let hour_data :=
          filter (fun r => row_timestamp r =? current_timestamp) (df self) in
        Ok (mkPredictor (df self)
              ((current_hour_index self + 1) mod total_hours self)%nat
              (hourly_timestamps self) (total_hours self),
            hour_data)
    end.

(** What the [/predictions/next_hour] route answers: the JSON object with its
    two members, or the status-500 error object. *)
Inductive response : Type :=
| Json (timestamp_member : option Z) (predictions_member : list row)
| ServerError.

(** [get_predictions] (the route), on the module's predictor. *)
Definition get_predictions (predictor : MockLSTMPredictor) : MockLSTMPredictor * response :=
  match get_next_hour_predictions predictor with
  | Raise _ => (predictor, ServerError)
  | Ok (predictor', predictions) =>
      match predictions with
      | [] => (predictor', Json None [])
      | _ :: _ =>
          match nth_error (hourly_timestamps predictor') (current_hour_index predictor') with
          | Some t => (predictor', Json (Some t) predictions)
          | None => (predictor', ServerError)
          end
      end
  end.

(** [n] successive requests. *)
Fixpoint requests (n : nat) (predictor : MockLSTMPredictor)
  : MockLSTMPredictor * list response :=
  match n with
  | O => (predictor, [])
  | S n' =>
      let '(p1, r) := get_predictions predictor in
      let '(p2, rs) := requests n' p1 in
      (p2, r :: rs)
  end.

(** The invariant of a constructed predictor. *)
Definition well_formed (self : MockLSTMPredictor) : Prop :=
  total_hours self = List.length (hourly_timestamps self)
  /\ (current_hour_index self < total_hours self)%nat
  /\ (forall t, In t (hourly_timestamps self) ->
                exists r, In r (df self) /\ row_timestamp r = t).

(** The rows of the dataset at timestamp [t], in dataset order. *)
Definition rows_at (self : MockLSTMPredictor) (t : Z) : list row :=
  filter (fun r => row_timestamp r =? t) (df self).

(** The record as the manager reads it: ['link_id'] and
    ['bandwidth_utilization (ratio)']. *)
Definition as_prediction (r : row) : prediction :=
  mkPrediction (Some (row_link_id r)) (Some (row_ratio r)).
End Predictor.

(** The answer of the forecast service as the manager's request sees it: the
    JSON object with status 200, the error object with status 500. *)
Definition forecast_of (r : Predictor.response) : fetch :=
  match r with
  | Predictor.Json _ predictions => Fetched 200 (Some (map Predictor.as_prediction predictions))
  | Predictor.ServerError => Fetched 500 None
  end.

(** The edges of the switch graph join two switches and carry the identifier
    of a link of [index] between these two switches. *)
Definition graph_of_switch_links (index : dict edge) (g : list (Z * Z * string)) : Prop :=
  forall a b l,
    In (a, b, l) g ->
    0 < a /\ 0 < b
    /\ exists e, In (l, e) index
                 /\ ((dpid_a e = a /\ dpid_b e = b) \/ (dpid_a e = b /\ dpid_b e = a)).

(** Two nodes are joined by an edge of the switch graph. *)
Definition adjacent (g : list (Z * Z * string)) (u v : Z) : Prop :=
  exists l, In (u, v, l) g \/ In (v, u, l) g.

(** ** Replies as received ([response.json()], the ['predictions'] list)

    [Ryu.json_body] and [prediction] hold bodies of the shape that the two
    services send.  The manager reads whatever the reply carries; [Wire]
    models its code on the parsed JSON as it stands. *)

Module Wire.
(** A number of a JSON text as Python reads it: an [int], a finite [float],
    or one of the constants [NaN], [Infinity], [-Infinity] that Python's parser
    accepts. *)
Inductive number : Type :=
| NInt (n : Z)
| NFloat (q : Q)
| NNaN
| NInfinity (negative : bool).

(** What [response.json()] returns: [None], a [bool], a number, a [str], a
    [list], or a [dict] (its items in order, the keys distinct). *)
#[local] Unset Elimination Schemes.
Inductive json : Type :=
| JNull
| JBool (b : bool)
| JNumber (x : number)
| JString (s : string)
| JArray (items : list json)
| JObject (members : list (string * json)).
#[local] Set Elimination Schemes.

(** The values that Python compares with an [int] and converts with [int()]:
    the numbers, and the [bool]s, which are the [int]s 1 and 0. *)
Definition as_number (v : json) : option number :=
  match v with
  | JBool b => Some (NInt (if b then 1 else 0))
  | JNumber x => Some x
  | _ => None
  end.

(** [x > 0] *)
Definition positive (x : number) : bool :=
  match x with
  | NInt n => 0 <? n
  | NFloat q => negb (Qle_bool q 0)
  | NNaN => false
  | NInfinity negative => negb negative
  end.

(** [int(x)]: a [float] is truncated towards zero. *)
Definition truncate (x : number) : result Z :=
  match x with
  | NInt n => Ok n
  | NFloat q => Ok (Z.quot (Qnum q) (Z.pos (Qden q)))
  | NNaN => Raise ValueError
  | NInfinity _ => Raise OverflowError
  end.

(** [tuple(v)]: the items of a [list], the characters of a [str], the keys
    of a [dict]; the other values are not iterable. *)
Definition py_tuple (v : json) : result (list json) :=
  match v with
  | JArray items => Ok items
  | JString s => Ok (map (fun c => JString (String c EmptyString)) (list_ascii_of_string s))
  | JObject members => Ok (map (fun '(k, _) => JString k) members)
  | _ => Raise TypeError
  end.

(** A link tuple of the data model, as a tuple of JSON values, and back. *)
Definition tuple_of_edge (e : edge) : list json :=
  [ JNumber (NInt (dpid_a e)); JNumber (NInt (port_a e)); JString (hw_a e);
    JNumber (NInt (dpid_b e)); JNumber (NInt (port_b e)); JString (hw_b e) ].

Definition edge_of_json (v : json) : option edge :=
  match v with
  | JArray [ JNumber (NInt a); JNumber (NInt pa); JString ha;
             JNumber (NInt b); JNumber (NInt pb); JString hb ] =>
      Some (mkEdge a pa ha b pb hb)
  | _ => None
  end.

(** The items of a topology mapping as link tuples of the data model, when
    every one of them is one. *)
Fixpoint edges_of_items (items : dict json) : option (dict edge) :=
  match items with
  | [] => Some []
  | (link_id, v) :: rest =>
      match edge_of_json v, edges_of_items rest with
      | Some e, Some m => Some ((link_id, e) :: m)
      | _, _ => None
      end
  end.

(** The first loop of the 200 branch:
    [self.link_index_to_edge[link_id] = tuple(link_tuple)]. *)
Fixpoint store_tuples (index : dict (list json)) (items : dict json)
  : result (dict (list json)) :=
  match items with
  | [] => Ok index
  | (link_id, link_tuple) :: rest =>
      t <- py_tuple link_tuple ;;
      store_tuples (dict_set link_id t index) rest
  end.

(** What one pass through the second loop raises, if anything: the loop
    header unpacks the stored tuple into six names, the body evaluates
    [dpid_a > 0 and dpid_b > 0] and, when that holds,
    [add_edge(int(dpid_a), int(dpid_b), ...)]. *)
Definition init_link (t : list json) : option exn :=
  match t with
  | [dpid_a; _; _; dpid_b; _; _] =>
      match as_number dpid_a with
      | None => Some TypeError
      | Some a =>
          if positive a then
            match as_number dpid_b with
            | None => Some TypeError
            | Some b =>
                if positive b then
                  match truncate a, truncate b with
                  | Raise e, _ => Some e
                  | Ok _, Raise e => Some e
                  | Ok _, Ok _ => None
                  end
                else None
            end
          else None
      end
  | _ => Some ValueError
  end.

(** The second loop: the first exception it raises. *)
Fixpoint init_links (index : dict (list json)) : option exn :=
  match index with
  | [] => None
  | (_, t) :: rest =>
      match init_link t with
      | Some e => Some e
      | None => init_links rest
      end
  end.

(** How the 200 branch ends on a JSON body.  [Loaded]: it returns [True],
    and the mapping held link tuples of the data model.  [LoadedUntyped]: it
    returns [True] with a stored tuple that is not one of the data model.
    [LoadRaised]: an exception that is not a [RequestException] leaves the
    method, and with it [run_simulation]. *)
Inductive loaded : Type :=
| Loaded (self' : EnergyManager)
| LoadedUntyped
| LoadRaised (e : exn).

(** The part of [get_topology_from_ryu] run on a 200 reply with the JSON
    body [data]: [data.get('topology', {})], [.items()], the two loops. *)
Definition load_topology (self : EnergyManager) (data : json) : loaded :=
  match data with
  | JObject members =>
      match match dict_get "topology" members with
            | Some topology_data => topology_data
            | None => JObject []
            end with
      | JObject items =>
          match store_tuples
                  (map (fun '(link_id, e) => (link_id, tuple_of_edge e))
                       (link_index_to_edge self))
                  items with
          | Raise e => LoadRaised e
          | Ok index =>
              match init_links index with
              | Some e => LoadRaised e
              | None =>
                  match edges_of_items items with
                  | Some topology_data =>
                      Loaded (load_topology self (Ryu.mkBody (Some topology_data)))
                  | None => LoadedUntyped
                  end
              end
          end
      | _ => LoadRaised AttributeError
      end
  | _ => LoadRaised AttributeError
  end.

(** One pass through the body of [while True]: the request raises a
    [RequestException], or yields a reply with its status and its body,
    [None] when the body is not JSON. *)
Inductive attempt : Type :=
| RequestException
| Replied (status_code : Z) (body : option json).

(** [get_topology_from_ryu] over the outcomes of its successive requests;
    [None]: still polling.  On a body that is not JSON [response.json()]
    raises a [JSONDecodeError], which is a [RequestException]. *)
Fixpoint get_topology_from_ryu (self : EnergyManager) (attempts : list attempt)
  : option loaded :=
  match attempts with
  | [] => None
  | RequestException :: rest => get_topology_from_ryu self rest
  | Replied status_code body :: rest =>
      if status_code =? 200
      then match body with
           | Some data => Some (load_topology self data)
           | None => get_topology_from_ryu self rest
           end
      else get_topology_from_ryu self rest
  end.

(** An attempt after which [get_topology_from_ryu] polls again. *)
Definition retrying (a : attempt) : bool :=
  match a with
  | RequestException => true
  | Replied status_code body =>
      negb (status_code =? 200) || match body with None => true | Some _ => false end
  end.

(** [EnergyAwareControllerAPI.get_topology], the reply as sent: the JSON
    object with the members ['topology'] and ['total_links'], or status 500
    with a plain-text body. *)
Definition get_topology (link_index_to_edge : dict edge) : attempt :=
  match link_index_to_edge with
  | _ :: _ =>
      Replied 200
        (Some (JObject
                 [ ("topology",
                    JObject (map (fun '(link_id, link_tuple) =>
                                    (link_id, JArray (tuple_of_edge link_tuple)))
                                 link_index_to_edge));
                   ("total_links",
                    JNumber (NInt (Z.of_nat (List.length link_index_to_edge)))) ]))
  | [] => Replied 500 None
  end.

(** The body is not a mapping with, if any, a mapping under ['topology']. *)
Definition not_a_mapping (data : json) : bool :=
  match data with
  | JObject members =>
      match dict_get "topology" members with
      | None | Some (JObject _) => false
      | Some _ => true
      end
  | _ => true
  end.

(** The entry is not a sequence of six items that starts with a number. *)
Definition bad_entry (v : json) : bool :=
  match py_tuple v with
  | Ok [dpid_a; _; _; _; _; _] =>
      match as_number dpid_a with Some _ => false | None => true end
  | _ => true
  end.

Section Float.
(** [float(v)] on a value of the reply: the finite number that it returns, or
    the exception that it raises ([TypeError] on [null], a list or a mapping,
    [ValueError] on a string that is no number).  The manager stores what
    [float()] returns without looking at it, so nothing in its code depends on
    how the conversion is done. *)
Variable py_float : json -> result Q.

(** [d.get(key)] *)
Definition member (key : string) (members : dict json) : json :=
  match dict_get key members with
  | Some v => v
  | None => JNull
  end.

(** [_get_predictions]: the items of the value that it returns, in the order
    in which a [for] loop goes through them, or the exception that leaves it.
    Only a [RequestException] is caught, which the [JSONDecodeError] of a body
    that is not JSON is; [.get] on a body that is no mapping raises
    [AttributeError], [len()] of a ['predictions'] member without a length
    raises [TypeError]. *)
Definition _get_predictions (f : attempt) : result (list json) :=
  match f with
  | RequestException => Ok []
  | Replied status_code body =>
      if status_code =? 200
      then match body with
           | None => Ok []
           | Some (JObject members) =>
               py_tuple match dict_get "predictions" members with
                        | Some predictions => predictions
                        | None => JArray []
                        end
           | Some _ => Raise AttributeError
           end
      else Ok []
  end.


(** [_update_predictions] on the entries as received: the loop stops at the
    first exception.  An identifier that is no string is no key of
    [link_states]. *)
Fixpoint _update_predictions (self : EnergyManager) (predictions : list json)
  : EnergyManager * option exn :=
  match predictions with
  | [] => (self, None)
  | pred :: rest =>
      match pred with
      | JObject members =>
          match member "link_id" members with
          | JArray _ | JObject _ => (self, Some TypeError)
          | JString link_id =>
              match dict_get link_id (link_states self) with
              | None => _update_predictions self rest
              | Some s =>
                  match match dict_get "bandwidth_utilization (ratio)" members with
                        | Some raw_util => py_float raw_util
                        | None => Ok 0%Q
                        end with
                  | Ok u =>
                      _update_predictions
                        (set_link_states self
                           (dict_set link_id (mkLinkState (active s) u) (link_states self)))
                        rest
                  | Raise e => (self, Some e)
                  end
              end
          | _ => _update_predictions self rest
          end
      | _ => (self, Some AttributeError)
      end
  end.

(** One pass through the body of the simulation loop, on what the forecast
    request of the hour comes to. *)
Definition simulated_hour (self : EnergyManager) (hour : Z) (f : attempt)
  : EnergyManager * option exn :=
  match _get_predictions f with
  | Raise e => (self, Some e)
  | Ok predictions =>
      match match predictions with
            | [] => (self, None)
            | _ :: _ => _update_predictions self predictions
            end with
      | (self1, None) =>
          match _link_management self1 with
          | (self2, None) => (_metrics_collector self2 hour, None)
          | stopped => stopped
          end
      | stopped => stopped
      end
  end.

(** The [while True] loop of [run_simulation] over the forecast requests of
    the successive hours. *)
Fixpoint simulation_loop (self : EnergyManager) (hour : Z) (fetched : list attempt)
  : EnergyManager * option exn :=
  match fetched with
  | [] => (self, None)
  | f :: rest =>
      match simulated_hour self hour f with
      | (self', None) => simulation_loop self' (hour + 1) rest
      | stopped => stopped
      end
  end.
End Float.
End Wire.




(** A reply of the controller's shape, as received. *)
Definition as_received (a : attempt) : Wire.attempt :=
  match a with
  | RequestException => Wire.RequestException
  | Replied (Ryu.Response status_code data) =>
      Wire.Replied status_code
        (Some (Wire.JObject
                 match Ryu.topology_field data with
                 | Some topology_data =>
                     [("topology",
                       Wire.JObject
                         (map (fun '(link_id, link_tuple) =>
                                 (link_id, Wire.JArray (Wire.tuple_of_edge link_tuple)))
                              topology_data))]
                 | None => []
                 end))
  end.

(** * Properties *)

(** ** The code on sample inputs *)

Example ryu_topology_size : List.length Ryu._build_topology = 39%nat.
Proof. vm_compute. reflexivity. Qed.

Example ryu_link_10 :
  dict_get "link_10" Ryu._build_topology
  = Some (mkEdge 9 1 "00:00:00:00:09:01" (-5) 1 "00:00:00:00:00:05").
Proof. vm_compute. reflexivity. Qed.

Example ryu_link_38 :
  dict_get "link_38" Ryu._build_topology
  = Some (mkEdge 2 6 "00:00:00:00:02:06" 9 6 "00:00:00:00:09:06").
Proof. vm_compute. reflexivity. Qed.

Example py_int_samples :
  py_int "26" = Some 26 /\ py_int " +07 " = Some 7 /\ py_int "-3" = Some (-3)
  /\ py_int "x" = None /\ py_int "" = None /\ py_int "+" = None.
Proof. repeat split; vm_compute; reflexivity. Qed.

Example split_samples :
  split_underscore "link_26" = ["link"; "26"]
  /\ split_underscore "uplink" = ["uplink"]
  /\ split_underscore "a__b" = ["a"; ""; "b"].
Proof. repeat split; vm_compute; reflexivity. Qed.

Example link_number_samples :
  link_number "link_26" = Ok 26 /\ link_number "uplink" = Raise IndexError
  /\ link_number "link_x" = Raise ValueError.
Proof. repeat split; vm_compute; reflexivity. Qed.

Example switch_graph_of_default_state :
  map (fun '(_, _, l) => l) (switch_graph default_state)
  = map Ryu.link_name [25; 26; 27; 28; 29; 30; 31; 32; 33; 34; 35; 36; 37; 38; 39].
Proof. vm_compute. reflexivity. Qed.

Example first_pass_on_default_state :
  map fst (filter (fun '(_, s) => negb (active s))
             (link_states (fst (_link_management default_state))))
  = map Ryu.link_name
      [1; 3; 5; 7; 9; 11; 13; 15; 17; 19; 21; 23; 25; 27; 29; 31; 33; 35; 37; 38; 39].
Proof. vm_compute. reflexivity. Qed.

(** ** Dictionaries *)

Section DictFacts.
Context {V : Type}.
Implicit Types (d : dict V) (k : string) (v : V).

Lemma dict_get_set_same d k v : dict_get k (dict_set k v d) = Some v.
Proof.
  induction d as [|[k' v'] d IH]; simpl.
  - now rewrite String.eqb_refl.
  - destruct (String.eqb k k') eqn:E; simpl.
    + now rewrite String.eqb_refl.
    + now rewrite E.
Qed.

Lemma dict_get_set_other d k k' v :
  k <> k' -> dict_get k' (dict_set k v d) = dict_get k' d.
Proof.
  intros Hne. induction d as [|[k0 v0] d IH]; simpl.
  - destruct (String.eqb k' k) eqn:E; [|reflexivity].
    apply String.eqb_eq in E. congruence.
  - destruct (String.eqb k k0) eqn:E; simpl.
    + apply String.eqb_eq in E. subst k0.
      destruct (String.eqb k' k) eqn:E'; [|reflexivity].
      apply String.eqb_eq in E'. congruence.
    + now rewrite IH.
Qed.

Lemma dict_keys_set_present d k v v0 :
  dict_get k d = Some v0 -> dict_keys (dict_set k v d) = dict_keys d.
Proof.
  unfold dict_keys. induction d as [|[k' v'] d IH]; simpl; [discriminate|].
  destruct (String.eqb k k') eqn:E; simpl; intros H.
  - apply String.eqb_eq in E. now subst.
  - now rewrite IH.
Qed.

Lemma dict_get_In d k v : dict_get k d = Some v -> In (k, v) d.
Proof.
  induction d as [|[k' v'] d IH]; simpl; [discriminate|].
  destruct (String.eqb k k') eqn:E; intros H.
  - apply String.eqb_eq in E. inversion H. subst. now left.
  - right. auto.
Qed.

Lemma dict_get_keys d k v : dict_get k d = Some v -> In k (dict_keys d).
Proof.
  intros H. apply dict_get_In in H. unfold dict_keys.
  change k with (fst (k, v)). now apply in_map.
Qed.

Lemma dict_keys_get d k : In k (dict_keys d) -> exists v, dict_get k d = Some v.
Proof.
  unfold dict_keys. induction d as [|[k' v'] d IH]; simpl; [tauto|].
  intros [H|H]; destruct (String.eqb k k') eqn:E; eauto.
  subst. now rewrite String.eqb_refl in E.
Qed.
End DictFacts.

Lemma str_in_In x xs : str_in x xs = true <-> In x xs.
Proof.
  unfold str_in. rewrite existsb_exists. split.
  - intros [y [Hy E]]. apply String.eqb_eq in E. now subst.
  - intros H. exists x. split; [assumption|apply String.eqb_refl].
Qed.

(** ** One link of the management loop *)

Lemma manage_link_outcome self link_id :
  link_outcome self link_id (manage_link self link_id).
Proof.
  unfold manage_link, _set_link_state.
  destruct (dict_get link_id (link_states self)) as [s|] eqn:Hget.
  - destruct (active s) eqn:Hact; simpl.
    + destruct (util_lt (utilization s) (sleep_threshold self)) eqn:Hlt.
      * destruct (_is_safe_to_sleep self link_id) as [[|]|e] eqn:Hsafe.
        -- now apply lo_sleep.
        -- now apply lo_unsafe with s.
        -- now apply lo_raise with s.
      * now apply lo_busy with s.
    + destruct (util_ge (utilization s) (sleep_threshold self)) eqn:Hge.
      * now apply lo_wake.
      * now apply lo_idle_asleep with s.
  - now apply lo_absent.
Qed.

Lemma util_lt_ge u t : util_lt u t = negb (util_ge u t).
Proof. reflexivity. Qed.

Lemma with_active_get_same self link_id up s :
  dict_get link_id (link_states (with_active self link_id up s))
  = Some (mkLinkState up (utilization s)).
Proof. apply dict_get_set_same. Qed.

Lemma with_active_get_other self link_id up s k :
  link_id <> k ->
  dict_get k (link_states (with_active self link_id up s))
  = dict_get k (link_states self).
Proof. intros H. now apply dict_get_set_other. Qed.

(** The loop body leaves everything but [link_states] alone, keeps the keys
    and their order, and touches no other link. *)
Lemma manage_link_frame self link_id :
  let self' := fst (manage_link self link_id) in
  link_index_to_edge self' = link_index_to_edge self
  /\ sleep_threshold self' = sleep_threshold self
  /\ metrics self' = metrics self
  /\ switch_graph self' = switch_graph self
  /\ dict_keys (link_states self') = dict_keys (link_states self).
Proof.
  destruct (manage_link_outcome self link_id); simpl; repeat split;
    try reflexivity; eapply dict_keys_set_present; eassumption.
Qed.

Lemma manage_link_get_other self link_id k :
  link_id <> k ->
  dict_get k (link_states (fst (manage_link self link_id)))
  = dict_get k (link_states self).
Proof.
  intros Hne.
  destruct (manage_link_outcome self link_id); cbn [fst]; try reflexivity;
    now apply with_active_get_other.
Qed.

(** No pass changes a utilization or drops a link. *)
Lemma manage_link_utilization self link_id k :
  option_map utilization (dict_get k (link_states (fst (manage_link self link_id))))
  = option_map utilization (dict_get k (link_states self)).
Proof.
  destruct (string_dec link_id k) as [->|Hne].
  - destruct (manage_link_outcome self k) as [ | s H | | | s H | | ]; cbn [fst];
      try reflexivity; rewrite with_active_get_same, H; reflexivity.
  - now rewrite manage_link_get_other.
Qed.

Lemma is_active_get self k :
  is_active self k = true <->
  exists s, dict_get k (link_states self) = Some s /\ active s = true.
Proof.
  unfold is_active. destruct (dict_get k (link_states self)) as [s|].
  - split; [eauto|]. now intros [s' [[= <-] H]].
  - split; [discriminate|]. now intros [s' [[=] _]].
Qed.

(** ** The whole loop *)

Lemma manage_links_frame ids : forall self,
  let self' := fst (manage_links self ids) in
  link_index_to_edge self' = link_index_to_edge self
  /\ sleep_threshold self' = sleep_threshold self
  /\ metrics self' = metrics self
  /\ switch_graph self' = switch_graph self
  /\ dict_keys (link_states self') = dict_keys (link_states self).
Proof.
  induction ids as [|k ids IH]; intros self; simpl; [tauto|].
  pose proof (manage_link_frame self k) as F. simpl in F.
  destruct (manage_link self k) as [self1 [e|]] eqn:E; simpl in *; [exact F|].
  specialize (IH self1). simpl in IH.
  destruct F as (F1 & F2 & F3 & F4 & F5), IH as (I1 & I2 & I3 & I4 & I5).
  repeat split; congruence.
Qed.

Lemma manage_links_utilization ids : forall self k,
  option_map utilization (dict_get k (link_states (fst (manage_links self ids))))
  = option_map utilization (dict_get k (link_states self)).
Proof.
  induction ids as [|j ids IH]; intros self k; simpl; [reflexivity|].
  pose proof (manage_link_utilization self j k) as U.
  destruct (manage_link self j) as [self1 [e|]] eqn:E; simpl in *; [exact U|].
  now rewrite IH.
Qed.

(** An invariant of every pass is an invariant of the loop. *)
Lemma manage_links_invariant (P : EnergyManager -> Prop) :
  (forall self k, P self -> P (fst (manage_link self k))) ->
  forall ids self, P self -> P (fst (manage_links self ids)).
Proof.
  intros Hstep. induction ids as [|k ids IH]; intros self HP; simpl; [assumption|].
  pose proof (Hstep self k HP) as H1.
  destruct (manage_link self k) as [self1 [e|]]; simpl in *; auto.
Qed.

(** ** Waking *)

Lemma link_state_eta (s : link_state) : mkLinkState (active s) (utilization s) = s.
Proof. now destruct s. Qed.

Lemma busy_manage_link link_id u self k :
  busy link_id u self -> busy link_id u (fst (manage_link self k)).
Proof.
  intros [Hget Hge]. unfold busy.
  destruct (manage_link_frame self k) as (_ & -> & _).
  split; [|assumption].
  destruct (string_dec k link_id) as [->|Hne].
  - destruct (manage_link_outcome self link_id) as
      [ | s H Ha | | | s H Ha Hlt | | ]; cbn [fst]; try assumption.
    + rewrite Hget in H. injection H as <-. discriminate.
    + rewrite Hget in H. injection H as <-. cbn [utilization] in Hlt.
      rewrite util_lt_ge, Hge in Hlt. discriminate.
  - now rewrite manage_link_get_other.
Qed.

Lemma manage_links_wakes link_id u : forall ids self self',
  In link_id ids ->
  (exists a, dict_get link_id (link_states self) = Some (mkLinkState a u)) ->
  util_ge u (sleep_threshold self) = true ->
  manage_links self ids = (self', None) ->
  busy link_id u self'.
Proof.
  induction ids as [|k ids IH]; intros self self' Hin [a Hget] Hge Hrun; [destruct Hin|].
  simpl in Hrun.
  pose proof (manage_link_frame self k) as (_ & Hthr & _).
  destruct (string_dec k link_id) as [->|Hne].
  - assert (Hb : busy link_id u (fst (manage_link self link_id))).
    { split; [|now rewrite Hthr]. clear Hrun Hthr.
      destruct (manage_link_outcome self link_id) as
        [ H | s H Ha _ | s H Ha Hn | s H Ha _ | s H Ha Hlt _ | s H Ha Hlt _ | s e H Ha Hlt _ ];
        cbn [fst]; rewrite Hget in H; try discriminate; injection H as <-;
        cbn [active utilization] in *.
      - exact (with_active_get_same self link_id true (mkLinkState a u)).
      - congruence.
      - now subst a.
      - rewrite util_lt_ge, Hge in Hlt. discriminate.
      - rewrite util_lt_ge, Hge in Hlt. discriminate.
      - rewrite util_lt_ge, Hge in Hlt. discriminate. }
    destruct (manage_link self link_id) as [self1 [e|]]; [discriminate|].
    cbn [fst] in Hb.
    replace self' with (fst (manage_links self1 ids)) by now rewrite Hrun.
    apply manage_links_invariant; [|assumption].
    intros; now apply busy_manage_link.
  - destruct Hin as [Hin|Hin]; [congruence|].
    pose proof (manage_link_get_other self k link_id Hne) as Hsame.
    destruct (manage_link self k) as [self1 [e|]]; [discriminate|].
    cbn [fst] in *.
    apply (IH self1); try assumption.
    + exists a. now rewrite Hsame.
    + now rewrite Hthr.
Qed.

(** C4 — wake monotonicity: a link whose utilization is at or above the sleep
    threshold when the per-cycle link-management step evaluates it is ACTIVE
    once that step has run, whether it was ACTIVE or SLEEPING before; its
    utilization is the one it was evaluated against. *)
Theorem wake_monotonicity (self self' : EnergyManager) (link_id : string) (s : link_state) :
  dict_get link_id (link_states self) = Some s ->
  (sleep_threshold self <= utilization s)%Q ->
  _link_management self = (self', None) ->
  dict_get link_id (link_states self') = Some (mkLinkState true (utilization s)).
Proof.
  intros Hget Hge Hrun.
  apply (manage_links_wakes link_id (utilization s)
           (dict_keys (link_states self)) self self').
  - eapply dict_get_keys; eassumption.
  - exists (active s). now rewrite link_state_eta.
  - now apply Qle_bool_iff.
  - exact Hrun.
Qed.

(** ** Prediction ingestion *)

Lemma apply_prediction_frame self pred :
  let self' := apply_prediction self pred in
  link_index_to_edge self' = link_index_to_edge self
  /\ sleep_threshold self' = sleep_threshold self
  /\ metrics self' = metrics self
  /\ switch_graph self' = switch_graph self
  /\ dict_keys (link_states self') = dict_keys (link_states self).
Proof.
  unfold apply_prediction.
  destruct (pred_link_id pred) as [l|]; [|cbn; tauto].
  destruct (dict_get l (link_states self)) as [s|] eqn:E; [|cbn; tauto].
  cbn. repeat split. eapply dict_keys_set_present; eassumption.
Qed.

Lemma update_predictions_frame predictions : forall self,
  let self' := _update_predictions self predictions in
  link_index_to_edge self' = link_index_to_edge self
  /\ sleep_threshold self' = sleep_threshold self
  /\ metrics self' = metrics self
  /\ switch_graph self' = switch_graph self
  /\ dict_keys (link_states self') = dict_keys (link_states self).
Proof.
  induction predictions as [|p ps IH]; intros self; cbn; [tauto|].
  destruct (apply_prediction_frame self p) as (F1 & F2 & F3 & F4 & F5).
  destruct (IH (apply_prediction self p)) as (I1 & I2 & I3 & I4 & I5).
  repeat split; etransitivity; eassumption.
Qed.

(** What one entry does to the state of [link_id]. *)
Lemma apply_prediction_get self pred link_id :
  dict_get link_id (link_states (apply_prediction self pred))
  = option_map
      (fun s => mkLinkState (active s)
                  (if names link_id pred then ratio_of pred else utilization s))
      (dict_get link_id (link_states self)).
Proof.
  unfold apply_prediction, names.
  destruct (pred_link_id pred) as [l|].
  - destruct (String.eqb l link_id) eqn:E.
    + apply String.eqb_eq in E. subst l.
      destruct (dict_get link_id (link_states self)) as [s|] eqn:G.
      * cbn. now rewrite dict_get_set_same.
      * now rewrite G.
    + apply String.eqb_neq in E.
      destruct (dict_get l (link_states self)) as [s0|] eqn:G0.
      * cbn. rewrite dict_get_set_other by assumption.
        destruct (dict_get link_id (link_states self)) as [s|]; cbn; [|reflexivity].
        now rewrite link_state_eta.
      * destruct (dict_get link_id (link_states self)) as [s|]; cbn; [|reflexivity].
        now rewrite link_state_eta.
  - destruct (dict_get link_id (link_states self)) as [s|]; cbn; [|reflexivity].
    now rewrite link_state_eta.
Qed.

Lemma update_predictions_get predictions : forall self link_id,
  dict_get link_id (link_states (_update_predictions self predictions))
  = option_map
      (fun s => mkLinkState (active s)
                  (match last_ratio link_id predictions with
                   | Some u => u
                   | None => utilization s
                   end))
      (dict_get link_id (link_states self)).
Proof.
  induction predictions as [|p ps IH]; intros self link_id; cbn [_update_predictions fold_left].
  - cbn. destruct (dict_get link_id (link_states self)) as [s|]; cbn; [|reflexivity].
    now rewrite link_state_eta.
  - change (fold_left apply_prediction ps (apply_prediction self p))
      with (_update_predictions (apply_prediction self p) ps).
    rewrite IH, apply_prediction_get. cbn [last_ratio].
    destruct (dict_get link_id (link_states self)) as [s|]; cbn; [|reflexivity].
    destruct (last_ratio link_id ps); [reflexivity|].
    now destruct (names link_id p).
Qed.

Lemma last_ratio_absent link_id predictions :
  (forall pred, In pred predictions -> names link_id pred = false) ->
  last_ratio link_id predictions = None.
Proof.
  induction predictions as [|p ps IH]; intros H; cbn; [reflexivity|].
  rewrite IH by (intros; apply H; now right).
  now rewrite (H p (or_introl eq_refl)).
Qed.

(** C6 — prediction ingestion: after a forecast is applied, a link of the
    topology carries the ratio of the last forecast entry that names it and
    keeps its previous utilization when no entry names it; its power state, the
    set and order of links and every other field of the manager are unchanged;
    an entry whose identifier is not in the topology can be removed from the
    forecast without changing the resulting manager. *)
Theorem prediction_ingestion (self : EnergyManager) (predictions : list prediction) :
  let self' := _update_predictions self predictions in
  (forall link_id,
      dict_get link_id (link_states self')
      = option_map
          (fun s => mkLinkState (active s)
                      (match last_ratio link_id predictions with
                       | Some u => u
                       | None => utilization s
                       end))
          (dict_get link_id (link_states self)))
  /\ (forall link_id,
         (forall pred, In pred predictions -> names link_id pred = false) ->
         dict_get link_id (link_states self') = dict_get link_id (link_states self))
  /\ (forall before pred after,
         predictions = (before ++ pred :: after)%list ->
         unknown_entry self pred ->
         self' = _update_predictions self (before ++ after)%list)
  /\ dict_keys (link_states self') = dict_keys (link_states self)
  /\ link_index_to_edge self' = link_index_to_edge self
  /\ sleep_threshold self' = sleep_threshold self
  /\ metrics self' = metrics self
  /\ switch_graph self' = switch_graph self.
Proof.
  cbn zeta. split; [|split; [|split]].
  - intros link_id. apply update_predictions_get.
  - intros link_id Habs. rewrite update_predictions_get, last_ratio_absent by assumption.
    destruct (dict_get link_id (link_states self)) as [s|]; cbn; [|reflexivity].
    now rewrite link_state_eta.
  - intros before pred after -> Hunk.
    unfold _update_predictions. rewrite !fold_left_app. cbn [fold_left].
    f_equal. fold (_update_predictions self before).
    unfold apply_prediction at 1.
    destruct (pred_link_id pred) as [l|] eqn:El; [|reflexivity].
    rewrite update_predictions_get, (Hunk l El). reflexivity.
  - destruct (update_predictions_frame predictions self) as (F1 & F2 & F3 & F4 & F5).
    tauto.
Qed.

(** ** Metrics *)

Lemma energy_fold (ls : dict link_state) : forall e a s,
  fold_left
    (fun '(total_energy, active_links, sleeping_links) '(_, state) =>
       if active state
       then (total_energy + 100, active_links + 1, sleeping_links)
       else (total_energy + 10, active_links, sleeping_links + 1))
    ls (e, a, s)
  = (e + 100 * count_active ls + 10 * count_sleeping ls,
     a + count_active ls, s + count_sleeping ls).
Proof.
  unfold count_active, count_sleeping.
  induction ls as [|[k st] ls IH]; intros e a s; cbn [fold_left filter].
  - cbn [List.length]. apply f_equal2; [apply f_equal2|]; lia.
  - destruct (active st); cbn [negb List.length]; rewrite IH, Nat2Z.inj_succ;
      (apply f_equal2; [apply f_equal2|]; lia).
Qed.

Lemma calculate_energy_consumption_eq self :
  calculate_energy_consumption self
  = (100 * count_active (link_states self) + 10 * count_sleeping (link_states self),
     count_active (link_states self), count_sleeping (link_states self)).
Proof. unfold calculate_energy_consumption. now rewrite energy_fold. Qed.

Lemma link_management_frame self :
  let self' := fst (_link_management self) in
  link_index_to_edge self' = link_index_to_edge self
  /\ sleep_threshold self' = sleep_threshold self
  /\ metrics self' = metrics self
  /\ switch_graph self' = switch_graph self
  /\ dict_keys (link_states self') = dict_keys (link_states self).
Proof. apply manage_links_frame. Qed.

Lemma metrics_collector_eq self hour :
  _metrics_collector self hour
  = {| switch_graph := switch_graph self;
       link_states := link_states self;
       link_index_to_edge := link_index_to_edge self;
       sleep_threshold := sleep_threshold self;
       metrics :=
         {| hourly_energy :=
              hourly_energy (metrics self)
              ++ [100 * count_active (link_states self)
                  + 10 * count_sleeping (link_states self)];
            active_links_history :=
              active_links_history (metrics self) ++ [count_active (link_states self)];
            timestamp := timestamp (metrics self) ++ [hour] |} |}%list.
Proof.
  unfold _metrics_collector. now rewrite calculate_energy_consumption_eq.
Qed.

Lemma simulated_hour_records self hour predictions self2 :
  simulated_hour self hour predictions = (self2, None) ->
  hourly_energy (metrics self2)
  = (hourly_energy (metrics self)
     ++ [100 * count_active (link_states self2) + 10 * count_sleeping (link_states self2)])%list
  /\ active_links_history (metrics self2)
     = (active_links_history (metrics self) ++ [count_active (link_states self2)])%list
  /\ timestamp (metrics self2) = (timestamp (metrics self) ++ [hour])%list.
Proof.
  intros Hrun. unfold simulated_hour in Hrun.
  set (self1 := match predictions with
                | [] => self
                | _ :: _ => _update_predictions self predictions
                end) in Hrun.
  assert (Hm1 : metrics self1 = metrics self).
  { subst self1. destruct predictions; [reflexivity|].
    apply update_predictions_frame. }
  destruct (link_management_frame self1) as (_ & _ & Hm2 & _).
  destruct (_link_management self1) as [self3 [e|]]; [discriminate|].
  injection Hrun as <-. rewrite metrics_collector_eq. cbn in *.
  rewrite Hm2, Hm1. repeat split.
Qed.

Lemma hours_from hour n :
  (hour :: map (fun i => hour + 1 + Z.of_nat i) (seq 0 n))
  = map (fun i => hour + Z.of_nat i) (seq 0 (S n)).
Proof.
  cbn [seq map]. rewrite <- seq_shift, map_map. f_equal; [lia|].
  apply map_ext. intros i. lia.
Qed.

Lemma simulation_loop_records fetched : forall self hour self',
  simulation_loop self hour fetched = (self', None) ->
  timestamp (metrics self')
  = (timestamp (metrics self)
     ++ map (fun i => hour + Z.of_nat i) (seq 0 (List.length fetched)))%list
  /\ List.length (hourly_energy (metrics self'))
     = (List.length (hourly_energy (metrics self)) + List.length fetched)%nat
  /\ List.length (active_links_history (metrics self'))
     = (List.length (active_links_history (metrics self)) + List.length fetched)%nat.
Proof.
  induction fetched as [|ps fetched IH]; intros self hour self' Hrun;
    cbn [simulation_loop] in Hrun.
  - injection Hrun as <-. cbn. rewrite app_nil_r. split; [reflexivity|lia].
  - destruct (simulated_hour self hour ps) as [self1 [e|]] eqn:E; [discriminate|].
    destruct (simulated_hour_records _ _ _ _ E) as (E1 & E2 & E3).
    destruct (IH _ _ _ Hrun) as (I1 & I2 & I3).
    rewrite I1, I2, I3, E1, E2, E3, !length_app. cbn [List.length].
    rewrite <- hours_from, <- app_assoc. cbn [app]. repeat split; lia.
Qed.


(** C7 — energy metrics: the energy computed for a link-state map is 100 per
    ACTIVE link plus 10 per SLEEPING link; the metrics collector appends that
    energy, the ACTIVE count and the cycle index, one element each, and changes
    nothing else; a pass of the simulation loop that completes records exactly
    one such triple, computed on the states the link-management step left, so
    that [n] completed hours add [n] records with consecutive cycle indices. *)
Theorem energy_metrics (self : EnergyManager) (hour : Z) :
  let energy_of (m : EnergyManager) :=
    100 * count_active (link_states m) + 10 * count_sleeping (link_states m) in
  calculate_energy_consumption self
  = (energy_of self, count_active (link_states self), count_sleeping (link_states self))
  /\ hourly_energy (metrics (_metrics_collector self hour))
     = (hourly_energy (metrics self) ++ [energy_of self])%list
  /\ active_links_history (metrics (_metrics_collector self hour))
     = (active_links_history (metrics self) ++ [count_active (link_states self)])%list
  /\ timestamp (metrics (_metrics_collector self hour))
     = (timestamp (metrics self) ++ [hour])%list
  /\ link_states (_metrics_collector self hour) = link_states self
  /\ (forall predictions self2,
         simulated_hour self hour predictions = (self2, None) ->
         hourly_energy (metrics self2)
         = (hourly_energy (metrics self) ++ [energy_of self2])%list
         /\ active_links_history (metrics self2)
            = (active_links_history (metrics self) ++ [count_active (link_states self2)])%list
         /\ timestamp (metrics self2) = (timestamp (metrics self) ++ [hour])%list)
  /\ (forall fetched self',
         simulation_loop self hour fetched = (self', None) ->
         timestamp (metrics self')
         = (timestamp (metrics self)
            ++ map (fun i => hour + Z.of_nat i) (seq 0 (List.length fetched)))%list
         /\ List.length (hourly_energy (metrics self'))
            = (List.length (hourly_energy (metrics self)) + List.length fetched)%nat
         /\ List.length (active_links_history (metrics self'))
            = (List.length (active_links_history (metrics self)) + List.length fetched)%nat).
Proof.
  cbn zeta.
  split; [apply calculate_energy_consumption_eq|].
  rewrite metrics_collector_eq. cbn. do 4 (split; [reflexivity|]).
  split.
  - intros predictions self2. apply simulated_hour_records.
  - intros fetched self'. apply simulation_loop_records.
Qed.

(** ** Topology acquisition *)

Lemma fold_set_const_get {V W : Type} (v : V) (l : list (string * W)) : forall d k,
  dict_get k (fold_left (fun m '(k', _) => dict_set k' v m) l d)
  = if str_in k (map fst l) then Some v else dict_get k d.
Proof.
  induction l as [|[k0 w] l IH]; intros d k; cbn [fold_left map fst]; [reflexivity|].
  rewrite IH. unfold str_in. cbn [existsb].
  fold (str_in k (map fst l)).
  destruct (str_in k (map fst l)); [now rewrite orb_true_r|].
  rewrite orb_false_r.
  destruct (String.eqb k k0) eqn:E.
  - apply String.eqb_eq in E. subst. apply dict_get_set_same.
  - apply String.eqb_neq in E. apply dict_get_set_other. congruence.
Qed.

(** The second loop of the 200 branch only fills [link_states] and the
    graph. *)
Lemma load_states_fold (l : dict edge) : forall s0 : EnergyManager,
  let s1 :=
    fold_left
      (fun (s : EnergyManager) '(link_id, e) =>
         {| switch_graph :=
              if (0 <? dpid_a e) && (0 <? dpid_b e)
              then add_edge (switch_graph s) (dpid_a e) (dpid_b e) link_id
              else switch_graph s;
            link_states := dict_set link_id (mkLinkState true 0) (link_states s);
            link_index_to_edge := link_index_to_edge s;
            sleep_threshold := sleep_threshold s;
            metrics := metrics s |})
      l s0 in
  link_states s1
  = fold_left (fun m '(k, _) => dict_set k (mkLinkState true 0) m) l (link_states s0)
  /\ link_index_to_edge s1 = link_index_to_edge s0
  /\ sleep_threshold s1 = sleep_threshold s0
  /\ metrics s1 = metrics s0.
Proof.
  induction l as [|[k e] l IH]; intros s0; cbn [fold_left]; [tauto|].
  match goal with |- context [fold_left _ l ?s] => specialize (IH s) end.
  cbn zeta in IH. cbn [link_states link_index_to_edge sleep_threshold metrics] in IH.
  exact IH.
Qed.

Lemma load_topology_fields self data :
  let self' := load_topology self data in
  link_states self'
  = fold_left (fun m '(k, _) => dict_set k (mkLinkState true 0) m)
      (link_index_to_edge self') (link_states self)
  /\ sleep_threshold self' = sleep_threshold self
  /\ metrics self' = metrics self.
Proof.
  unfold load_topology. cbv zeta.
  match goal with |- context [fold_left _ ?l ?s] =>
    destruct (load_states_fold l s) as (H1 & H2 & H3 & H4) end.
  cbv zeta in H1, H2, H3, H4. rewrite H1, H2, H3, H4. cbn. tauto.
Qed.

(** Right after the topology is loaded every link of the map is ACTIVE with
    utilization 0, and [link_states] has exactly the keys of the map. *)
Lemma started_get snapshot link_id :
  dict_get link_id (link_states (started snapshot))
  = if str_in link_id (dict_keys (link_index_to_edge (started snapshot)))
    then Some (mkLinkState true 0) else None.
Proof.
  unfold started.
  destruct (load_topology_fields init_manager (Ryu.mkBody (Some snapshot))) as (H1 & _).
  cbv zeta in H1. rewrite H1. unfold dict_keys.
  now rewrite fold_set_const_get.
Qed.

Lemma started_threshold snapshot : sleep_threshold (started snapshot) = 1 # 10.
Proof.
  unfold started.
  destruct (load_topology_fields init_manager (Ryu.mkBody (Some snapshot))) as (_ & H & _).
  exact H.
Qed.

(** *** Insertion order *)

Lemma dict_set_keys {V : Type} (d : dict V) k v :
  dict_keys (dict_set k v d)
  = if str_in k (dict_keys d) then dict_keys d else (dict_keys d ++ [k])%list.
Proof.
  unfold dict_keys, str_in. induction d as [|[k' v'] d IH]; cbn; [reflexivity|].
  destruct (String.eqb k k') eqn:E; cbn.
  - apply String.eqb_eq in E. now subst.
  - rewrite IH. now destruct (existsb (String.eqb k) (map fst d)).
Qed.

Lemma dict_set_nodup {V : Type} (d : dict V) k v :
  NoDup (dict_keys d) -> NoDup (dict_keys (dict_set k v d)).
Proof.
  intros H. rewrite dict_set_keys.
  destruct (str_in k (dict_keys d)) eqn:E; [assumption|].
  apply NoDup_app; [assumption|repeat constructor; auto|].
  intros x Hx [<-|[]]. apply str_in_In in Hx. congruence.
Qed.

Lemma fold_set_nodup {V : Type} (l : list (string * V)) : forall d,
  NoDup (dict_keys d) ->
  NoDup (dict_keys (fold_left (fun m '(k, v) => dict_set k v m) l d)).
Proof.
  induction l as [|[k v] l IH]; intros d H; cbn [fold_left]; [assumption|].
  now apply IH, dict_set_nodup.
Qed.

Lemma fold_set_const_keys {V W : Type} (v : V) (l : list (string * W)) : forall d,
  NoDup (dict_keys l) ->
  (forall k, In k (dict_keys l) -> ~ In k (dict_keys d)) ->
  dict_keys (fold_left (fun m '(k, _) => dict_set k v m) l d)
  = (dict_keys d ++ dict_keys l)%list.
Proof.
  induction l as [|[k w] l IH]; intros d Hnd Hfresh; cbn [fold_left].
  - cbn. now rewrite app_nil_r.
  - cbn [dict_keys map fst] in *. inversion Hnd as [|? ? Hk Hnd']; subst.
    assert (Hset : dict_keys (dict_set k v d) = (dict_keys d ++ [k])%list).
    { rewrite dict_set_keys. destruct (str_in k (dict_keys d)) eqn:E; [|reflexivity].
      apply str_in_In in E. destruct (Hfresh k (or_introl eq_refl) E). }
    fold (dict_keys l) in *. rewrite IH; [| assumption |].
    + rewrite Hset, <- app_assoc. reflexivity.
    + intros k' Hk' Hin. rewrite Hset in Hin. apply in_app_or in Hin.
      destruct Hin as [Hin|[<-|[]]]; [|contradiction].
      exact (Hfresh k' (or_intror Hk') Hin).
Qed.

Lemma load_topology_index self data :
  link_index_to_edge (load_topology self data)
  = fold_left (fun m '(k, e) => dict_set k e m)
      (match Ryu.topology_field data with Some t => t | None => [] end)
      (link_index_to_edge self).
Proof.
  unfold load_topology. cbv zeta.
  match goal with |- context [fold_left _ ?l ?s] =>
    destruct (load_states_fold l s) as (_ & H2 & _) end.
  cbv zeta in H2. rewrite H2. reflexivity.
Qed.

(** After topology build [link_states] lists the links in the insertion
    order of the topology map. *)
Lemma started_keys snapshot :
  dict_keys (link_states (started snapshot))
  = dict_keys (link_index_to_edge (started snapshot)).
Proof.
  unfold started.
  destruct (load_topology_fields init_manager (Ryu.mkBody (Some snapshot))) as (H1 & _).
  cbv zeta in H1. rewrite H1. rewrite fold_set_const_keys; [reflexivity| |auto].
  rewrite load_topology_index. apply fold_set_nodup. constructor.
Qed.

Lemma retrying_forever self attempts :
  forallb retrying attempts = true -> get_topology_from_ryu self attempts = None.
Proof.
  induction attempts as [|[|[status_code data]] rest IH]; cbn; intros H;
    [reflexivity|auto|].
  apply andb_prop in H. destruct H as [H1 H2].
  destruct (status_code =? 200); [discriminate|auto].
Qed.

Lemma returns_at_first_200 self failed data rest :
  forallb retrying failed = true ->
  get_topology_from_ryu self (failed ++ Replied (Ryu.Response 200 data) :: rest)%list
  = Some (load_topology self data, true).
Proof.
  induction failed as [|[|[status_code d]] failed IH]; cbn; intros H;
    [reflexivity|auto|].
  apply andb_prop in H. destruct H as [H1 H2].
  destruct (status_code =? 200); [discriminate|auto].
Qed.

(** *** The reply as received *)

Lemma wire_retrying_forever self attempts :
  forallb Wire.retrying attempts = true -> Wire.get_topology_from_ryu self attempts = None.
Proof.
  induction attempts as [|[|status_code [data|]] attempts IH];
    cbn [forallb Wire.get_topology_from_ryu Wire.retrying]; intros H.
  - reflexivity.
  - now apply IH.
  - apply andb_prop in H. destruct H as [H1 H2]. rewrite orb_false_r in H1.
    apply negb_true_iff in H1. rewrite H1. now apply IH.
  - apply andb_prop in H. destruct H as [_ H2].
    destruct (status_code =? 200); now apply IH.
Qed.

Lemma wire_returns_at_first_200 self failed data rest :
  forallb Wire.retrying failed = true ->
  Wire.get_topology_from_ryu self (failed ++ Wire.Replied 200 (Some data) :: rest)%list
  = Some (Wire.load_topology self data).
Proof.
  induction failed as [|[|status_code [d|]] failed IH];
    cbn [app forallb Wire.get_topology_from_ryu Wire.retrying]; intros H.
  - reflexivity.
  - now apply IH.
  - apply andb_prop in H. destruct H as [H1 H2]. rewrite orb_false_r in H1.
    apply negb_true_iff in H1. rewrite H1. now apply IH.
  - apply andb_prop in H. destruct H as [_ H2].
    destruct (status_code =? 200); now apply IH.
Qed.

Lemma init_link_tuple_of_edge e : Wire.init_link (Wire.tuple_of_edge e) = None.
Proof.
  unfold Wire.init_link, Wire.tuple_of_edge.
  cbn [Wire.as_number Wire.positive Wire.truncate].
  destruct (0 <? dpid_a e); [|reflexivity]. now destruct (0 <? dpid_b e).
Qed.

Lemma dict_set_values {V : Type} (P : V -> Prop) k v (d : dict V) :
  P v -> Forall (fun kv => P (snd kv)) d -> Forall (fun kv => P (snd kv)) (dict_set k v d).
Proof.
  intros Hv. induction d as [|[k' v'] d IH]; cbn [dict_set]; intros H.
  - constructor; [exact Hv|constructor].
  - inversion H as [|? ? H1 H2]; subst.
    destruct (String.eqb k k'); constructor; auto.
Qed.

Lemma store_tuples_served (m : dict edge) : forall index,
  Forall (fun kt => exists e, snd kt = Wire.tuple_of_edge e) index ->
  exists index',
    Wire.store_tuples index
      (map (fun '(link_id, link_tuple) => (link_id, Wire.JArray (Wire.tuple_of_edge link_tuple))) m)
    = Ok index'
    /\ Forall (fun kt => exists e, snd kt = Wire.tuple_of_edge e) index'.
Proof.
  induction m as [|[k e] m IH]; intros index H; cbn [map Wire.store_tuples].
  - eauto.
  - cbn [Wire.py_tuple bind]. apply IH.
    apply (dict_set_values (fun t => exists e, t = Wire.tuple_of_edge e)); eauto.
Qed.

Lemma init_links_served index :
  Forall (fun kt => exists e, snd kt = Wire.tuple_of_edge e) index ->
  Wire.init_links index = None.
Proof.
  induction 1 as [|[k t] index [e He] _ IH]; cbn [Wire.init_links]; [reflexivity|].
  cbn [snd] in He. subst t. now rewrite init_link_tuple_of_edge.
Qed.

Lemma edges_of_items_served (m : dict edge) :
  Wire.edges_of_items
    (map (fun '(link_id, link_tuple) => (link_id, Wire.JArray (Wire.tuple_of_edge link_tuple))) m)
  = Some m.
Proof.
  induction m as [|[k e] m IH]; cbn [map Wire.edges_of_items]; [reflexivity|].
  rewrite IH. now destruct e.
Qed.

Lemma stored_index_served self :
  Forall (fun kt => exists e, snd kt = Wire.tuple_of_edge e)
         (map (fun '(link_id, e) => (link_id, Wire.tuple_of_edge e))
              (link_index_to_edge self)).
Proof.
  apply Forall_forall. intros [k t] Hin. apply in_map_iff in Hin.
  destruct Hin as ([k' e] & [= <- <-] & _). now exists e.
Qed.

Lemma load_served self (m : dict edge) members :
  dict_get "topology" members
  = Some (Wire.JObject
            (map (fun '(link_id, link_tuple) =>
                    (link_id, Wire.JArray (Wire.tuple_of_edge link_tuple))) m)) ->
  Wire.load_topology self (Wire.JObject members)
  = Wire.Loaded (load_topology self (Ryu.mkBody (Some m))).
Proof.
  intros Hm. unfold Wire.load_topology. rewrite Hm.
  destruct (store_tuples_served m
              (map (fun '(link_id, e) => (link_id, Wire.tuple_of_edge e))
                   (link_index_to_edge self))) as (index & Hs & Hi).
  - apply stored_index_served.
  - rewrite Hs, (init_links_served _ Hi), edges_of_items_served. reflexivity.
Qed.

(** On replies of the controller's shape the manager does with the reply as
    received what [get_topology_from_ryu] says. *)
Lemma wire_agrees_on_served attempts : forall self,
  Wire.get_topology_from_ryu self (map as_received attempts)
  = option_map (fun r => Wire.Loaded (fst r)) (get_topology_from_ryu self attempts).
Proof.
  induction attempts as [|[|[status_code [t]]] attempts IH]; intros self;
    cbn [map as_received Wire.get_topology_from_ryu get_topology_from_ryu];
    [reflexivity|apply IH|].
  destruct (status_code =? 200); [|apply IH].
  cbn [option_map fst Ryu.topology_field]. f_equal.
  destruct t as [m|].
  - apply load_served. cbn [dict_get]. now rewrite String.eqb_refl.
  - unfold Wire.load_topology. cbn [dict_get Wire.store_tuples].
    now rewrite (init_links_served _ (stored_index_served self)).
Qed.

Lemma store_tuples_other items : forall index index' k,
  ~ In k (dict_keys items) ->
  Wire.store_tuples index items = Ok index' ->
  dict_get k index' = dict_get k index.
Proof.
  induction items as [|[k0 v0] items IH]; intros index index' k Hk;
    cbn [Wire.store_tuples].
  - now intros [= <-].
  - destruct (Wire.py_tuple v0) as [t0|e]; cbn [bind]; [|discriminate].
    intros H. cbn [dict_keys map fst] in Hk.
    rewrite (IH _ _ k (fun Hin => Hk (or_intror Hin)) H).
    apply dict_get_set_other. intros ->. apply Hk. now left.
Qed.

Lemma store_tuples_get items : forall index index' k v,
  NoDup (dict_keys items) ->
  In (k, v) items ->
  Wire.store_tuples index items = Ok index' ->
  exists t, Wire.py_tuple v = Ok t /\ dict_get k index' = Some t.
Proof.
  induction items as [|[k0 v0] items IH]; intros index index' k v Hnd Hin;
    [destruct Hin|].
  cbn [Wire.store_tuples]. cbn [dict_keys map fst] in Hnd.
  inversion Hnd as [|? ? Hfresh Hnd']; subst.
  destruct (Wire.py_tuple v0) as [t0|e] eqn:E; cbn [bind]; [|discriminate].
  intros H. destruct Hin as [[= -> ->]|Hin].
  - exists t0. split; [exact E|].
    rewrite (store_tuples_other _ _ _ k Hfresh H). apply dict_get_set_same.
  - exact (IH _ _ k v Hnd' Hin H).
Qed.

Lemma store_tuples_exn items : forall index e,
  Wire.store_tuples index items = Raise e -> e = TypeError.
Proof.
  induction items as [|[k0 v0] items IH]; intros index e; cbn [Wire.store_tuples];
    [discriminate|].
  destruct v0; cbn [Wire.py_tuple bind]; try (now intros [= <-]); apply IH.
Qed.

Lemma init_link_exn t e :
  Wire.init_link t = Some e -> e = TypeError \/ e = ValueError \/ e = OverflowError.
Proof.
  unfold Wire.init_link.
  destruct t as [|a [|p1 [|h1 [|b [|p2 [|h2 [|x t]]]]]]]; try (intros [= <-]; tauto).
  destruct (Wire.as_number a) as [na|]; [|intros [= <-]; tauto].
  destruct (Wire.positive na); [|discriminate].
  destruct (Wire.as_number b) as [nb|]; [|intros [= <-]; tauto].
  destruct (Wire.positive nb); [|discriminate].
  destruct na, nb; cbn [Wire.truncate]; try discriminate; intros [= <-]; tauto.
Qed.

Lemma init_links_exn index e :
  Wire.init_links index = Some e -> e = TypeError \/ e = ValueError \/ e = OverflowError.
Proof.
  induction index as [|[k t] index IH]; cbn [Wire.init_links]; [discriminate|].
  destruct (Wire.init_link t) as [e'|] eqn:E; [|exact IH].
  intros [= <-]. exact (init_link_exn _ _ E).
Qed.

Lemma init_links_raises index : forall k t e,
  dict_get k index = Some t ->
  Wire.init_link t = Some e ->
  exists e', Wire.init_links index = Some e'.
Proof.
  induction index as [|[k0 t0] index IH]; intros k t e; cbn [dict_get Wire.init_links];
    [discriminate|].
  destruct (String.eqb k k0).
  - intros [= ->] ->. eauto.
  - intros Hg Ht. destruct (Wire.init_link t0); [eauto|]. exact (IH _ _ _ Hg Ht).
Qed.

Lemma bad_entry_raises v t :
  Wire.bad_entry v = true -> Wire.py_tuple v = Ok t -> exists e, Wire.init_link t = Some e.
Proof.
  unfold Wire.bad_entry, Wire.init_link. intros H Ht. rewrite Ht in H.
  destruct t as [|a [|p1 [|h1 [|b [|p2 [|h2 [|x t]]]]]]]; eauto.
  destruct (Wire.as_number a); [discriminate|eauto].
Qed.

Lemma bad_entry_stops_load self members items :
  dict_get "topology" members = Some (Wire.JObject items) ->
  NoDup (dict_keys items) ->
  existsb (fun '(_, v) => Wire.bad_entry v) items = true ->
  exists e,
    Wire.load_topology self (Wire.JObject members) = Wire.LoadRaised e
    /\ (e = TypeError \/ e = ValueError \/ e = OverflowError).
Proof.
  intros Ht Hnd Hbad. unfold Wire.load_topology. rewrite Ht.
  destruct (Wire.store_tuples _ items) as [index|e] eqn:E.
  - apply existsb_exists in Hbad. destruct Hbad as ([k v] & Hin & Hv).
    destruct (store_tuples_get _ _ _ k v Hnd Hin E) as (t & Hpt & Hg).
    destruct (bad_entry_raises v t Hv Hpt) as [e He].
    destruct (init_links_raises _ _ _ _ Hg He) as [e' He'].
    rewrite He'. exists e'. split; [reflexivity|]. exact (init_links_exn _ _ He').
  - exists e. split; [reflexivity|]. left. exact (store_tuples_exn _ _ _ E).
Qed.

Lemma not_a_mapping_stops_load self data :
  Wire.not_a_mapping data = true ->
  Wire.load_topology self data = Wire.LoadRaised AttributeError.
Proof.
  unfold Wire.not_a_mapping, Wire.load_topology.
  destruct data as [| | | | |members]; try reflexivity.
  destruct (dict_get "topology" members) as [[| | | | |items]|];
    try reflexivity; discriminate.
Qed.

(** C8, as the code has it — topology acquisition has no failure outcome:
    it keeps polling, returns [True], or is left by an exception it does not
    catch.  It polls again while the request raises a request exception, is
    answered with a status other than 200, or is answered 200 with a body that
    is not JSON; the first 200 answer with a JSON body decides.  A body of the
    served shape is accepted whatever it holds: with an empty or absent
    topology mapping a fresh manager returns success with no links; the reply
    that the controller sends for a non-empty map is read back as that map,
    and on every reply of the controller's shape the reply as received is
    handled as [get_topology_from_ryu] on the typed reply says.  A
    body that is not a mapping, or whose ['topology'] member is not one, raises
    [AttributeError]; a topology mapping with an entry that is not a sequence
    of six items starting with a number raises [TypeError], [ValueError] or
    [OverflowError]; none of them is caught, so the manager stops instead of
    retrying.  The controller answers 500 while its own map is empty, so
    polling a controller with an empty map never returns success. *)
Theorem topology_acquisition (self : EnergyManager) :
  (forall attempts,
      forallb retrying attempts = true ->
      get_topology_from_ryu self attempts = None)
  /\ (forall failed data rest,
         forallb retrying failed = true ->
         get_topology_from_ryu self (failed ++ Replied (Ryu.Response 200 data) :: rest)%list
         = Some (load_topology self data, true))
  /\ (forall data,
         Ryu.topology_field data = Some [] \/ Ryu.topology_field data = None ->
         load_topology init_manager data = init_manager)
  /\ (forall n,
         get_topology_from_ryu self (repeat (Replied (Ryu.get_topology [])) n) = None)
  /\ (forall attempts,
         forallb Wire.retrying attempts = true ->
         Wire.get_topology_from_ryu self attempts = None)
  /\ (forall failed data rest,
         forallb Wire.retrying failed = true ->
         Wire.get_topology_from_ryu self
           (failed ++ Wire.Replied 200 (Some data) :: rest)%list
         = Some (Wire.load_topology self data))
  /\ (forall failed m rest,
         forallb Wire.retrying failed = true ->
         m <> [] ->
         Wire.get_topology_from_ryu self (failed ++ Wire.get_topology m :: rest)%list
         = Some (Wire.Loaded (load_topology self (Ryu.mkBody (Some m)))))
  /\ (forall n,
         Wire.get_topology_from_ryu self (repeat (Wire.get_topology []) n) = None)
  /\ (forall data,
         Wire.not_a_mapping data = true ->
         Wire.load_topology self data = Wire.LoadRaised AttributeError)
  /\ (forall members items,
         dict_get "topology" members = Some (Wire.JObject items) ->
         NoDup (dict_keys items) ->
         existsb (fun '(_, v) => Wire.bad_entry v) items = true ->
         exists e,
           Wire.load_topology self (Wire.JObject members) = Wire.LoadRaised e
           /\ (e = TypeError \/ e = ValueError \/ e = OverflowError))
  /\ (forall attempts,
         Wire.get_topology_from_ryu self (map as_received attempts)
         = option_map (fun r => Wire.Loaded (fst r))
             (get_topology_from_ryu self attempts)).
Proof.
  split; [|split; [|split; [|split; [|split; [|split; [|split; [|split; [|split;
    [|split]]]]]]]]].
  - intros attempts. apply retrying_forever.
  - intros failed data rest. apply returns_at_first_200.
  - intros data [H|H]; unfold load_topology; rewrite H; reflexivity.
  - intros n. apply retrying_forever. induction n; cbn; auto.
  - intros attempts. apply wire_retrying_forever.
  - intros failed data rest. apply wire_returns_at_first_200.
  - intros failed m rest Hf Hm. destruct m as [|x m]; [congruence|].
    unfold Wire.get_topology. rewrite (wire_returns_at_first_200 _ _ _ _ Hf).
    f_equal. apply load_served. cbn [dict_get]. now rewrite String.eqb_refl.
  - intros n. apply wire_retrying_forever. induction n; cbn; auto.
  - intros data. apply not_a_mapping_stops_load.
  - intros members items. apply bad_entry_stops_load.
  - intros attempts. apply wire_agrees_on_served.
Qed.

(** C8, the claim as written fails: a 200 answer with an empty topology
    mapping makes acquisition return success, with a manager that has no link;
    a mapping whose entry is not a link tuple can be accepted as well (here the
    ports and the far end are [null]); and a mapping whose entry is too short
    is not refused with a condition on which the caller could retry: the
    uncaught [ValueError] ends [run_simulation]. *)
Lemma empty_or_malformed_snapshot_not_refused :
  (exists self',
      get_topology_from_ryu init_manager
        [Replied (Ryu.Response 200 (Ryu.mkBody (Some [])))]
      = Some (self', true)
      /\ link_states self' = [] /\ link_index_to_edge self' = [])
  /\ Wire.get_topology_from_ryu init_manager
       [Wire.Replied 200 (Some (Wire.JObject [("topology", Wire.JObject [])]))]
     = Some (Wire.Loaded init_manager)
  /\ Wire.get_topology_from_ryu init_manager
       [Wire.Replied 200
          (Some (Wire.JObject
                   [("topology",
                     Wire.JObject
                       [("link_1",
                         Wire.JArray
                           [Wire.JNumber (Wire.NInt 0); Wire.JNull; Wire.JNull;
                            Wire.JNull; Wire.JNull; Wire.JNull])])]))]
     = Some Wire.LoadedUntyped
  /\ Wire.get_topology_from_ryu init_manager
       [Wire.Replied 200
          (Some (Wire.JObject
                   [("topology",
                     Wire.JObject
                       [("link_1",
                         Wire.JArray
                           [Wire.JNumber (Wire.NInt 4); Wire.JNumber (Wire.NInt 1)])])]))]
     = Some (Wire.LoadRaised ValueError).
Proof.
  split; [eexists; cbn; repeat split|].
  split; [vm_compute; reflexivity|].
  split; vm_compute; reflexivity.
Qed.

Lemma topology_acquisition_witness :
  get_topology_from_ryu init_manager
    [RequestException; Replied (Ryu.get_topology []);
     Replied (Ryu.get_topology Ryu._build_topology)]
  = Some (default_state, true)
  /\ get_topology_from_ryu init_manager [RequestException; Replied (Ryu.get_topology [])]
     = None
  /\ load_topology init_manager (Ryu.mkBody None) = init_manager
  /\ Wire.get_topology_from_ryu init_manager
       [Wire.RequestException; Wire.Replied 200 None; Wire.get_topology []]
     = None
  /\ Wire.get_topology_from_ryu init_manager
       ([Wire.Replied 200 None] ++ Wire.get_topology Ryu._build_topology :: [])%list
     = Some (Wire.Loaded (load_topology init_manager (Ryu.mkBody (Some Ryu._build_topology))))
  /\ Wire.load_topology init_manager (Wire.JArray []) = Wire.LoadRaised AttributeError
  /\ (exists e,
         Wire.load_topology init_manager
           (Wire.JObject
              [("topology",
                Wire.JObject [("link_1", Wire.JString "4,1,-1,1")])])
         = Wire.LoadRaised e
         /\ (e = TypeError \/ e = ValueError \/ e = OverflowError)).
Proof.
  destruct (topology_acquisition init_manager)
    as (H1 & H2 & H3 & _ & H5 & _ & H7 & _ & H9 & H10 & _).
  split; [|split; [|split; [|split; [|split; [|split]]]]].
  - exact (H2 [RequestException; Replied (Ryu.get_topology [])]
              (Ryu.mkBody (Some Ryu._build_topology)) [] eq_refl).
  - exact (H1 [RequestException; Replied (Ryu.get_topology [])] eq_refl).
  - exact (H3 (Ryu.mkBody None) (or_intror eq_refl)).
  - apply H5. vm_compute. reflexivity.
  - apply (H7 [Wire.Replied 200 None] Ryu._build_topology []).
    + vm_compute. reflexivity.
    + vm_compute. discriminate.
  - apply H9. vm_compute. reflexivity.
  - apply (H10 _ [("link_1", Wire.JString "4,1,-1,1")]).
    + vm_compute. reflexivity.
    + repeat constructor. intros [].
    + vm_compute. reflexivity.
Defined.

(** ** Runs *)

Lemma run_invariant (P : EnergyManager -> Prop) (evs : list event) :
  (forall self ev, In ev evs -> P self -> P (fst (step self ev))) ->
  forall self, P self -> P (fst (run self evs)).
Proof.
  induction evs as [|ev evs IH]; intros Hstep self HP; cbn [run]; [assumption|].
  pose proof (Hstep self ev (or_introl eq_refl) HP) as H1.
  destruct (step self ev) as [self1 [e|]]; cbn [fst] in *; [assumption|].
  apply IH; [|assumption].
  intros s ev' Hin. apply Hstep. now right.
Qed.

Lemma metrics_collector_frame self hour :
  let self' := _metrics_collector self hour in
  link_states self' = link_states self
  /\ link_index_to_edge self' = link_index_to_edge self
  /\ sleep_threshold self' = sleep_threshold self.
Proof.
  unfold _metrics_collector.
  destruct (calculate_energy_consumption self) as [[energy a] sl]. cbn. tauto.
Qed.

(** Every operation keeps the topology map, the threshold and the keys. *)
Lemma step_frame self ev :
  let self' := fst (step self ev) in
  link_index_to_edge self' = link_index_to_edge self
  /\ sleep_threshold self' = sleep_threshold self
  /\ dict_keys (link_states self') = dict_keys (link_states self).
Proof.
  destruct ev as [ps| |hour]; cbn [step fst].
  - destruct (update_predictions_frame ps self) as (F1 & F2 & _ & _ & F5). tauto.
  - destruct (link_management_frame self) as (F1 & F2 & _ & _ & F5). tauto.
  - destruct (metrics_collector_frame self hour) as (F1 & F2 & F3).
    cbv zeta in *. rewrite F1. tauto.
Qed.

(** Only a forecast changes a utilization. *)
Lemma step_utilization self ev link_id :
  (forall ps, ev <> Forecast ps) ->
  option_map utilization (dict_get link_id (link_states (fst (step self ev))))
  = option_map utilization (dict_get link_id (link_states self)).
Proof.
  intros Hev. destruct ev as [ps| |hour]; cbn [step fst].
  - now destruct (Hev ps).
  - apply manage_links_utilization.
  - destruct (metrics_collector_frame self hour) as (F1 & _).
    cbv zeta in F1. now rewrite F1.
Qed.

Lemma last_ratio_In link_id predictions u :
  last_ratio link_id predictions = Some u ->
  exists pred, In pred predictions /\ names link_id pred = true /\ u = ratio_of pred.
Proof.
  induction predictions as [|p ps IH]; cbn; [discriminate|].
  destruct (last_ratio link_id ps) as [u'|].
  - intros [= <-]. destruct (IH eq_refl) as (q & Hq & Hn & Hu). eauto.
  - destruct (names link_id p) eqn:E; [|discriminate].
    intros [= <-]. eauto.
Qed.

Lemma in_forecast_entries ps pred evs :
  In (Forecast ps) evs -> In pred ps -> In pred (forecast_entries evs).
Proof.
  intros H1 H2. unfold forecast_entries. apply in_flat_map.
  exists (Forecast ps). auto.
Qed.

(** ** Utilization *)

Lemma utilization_step (P : Q -> Prop) (evs : list event) :
  (forall pred, In pred (forecast_entries evs) -> P (ratio_of pred)) ->
  forall self ev, In ev evs ->
    (forall k s, dict_get k (link_states self) = Some s -> P (utilization s)) ->
    (forall k s, dict_get k (link_states (fst (step self ev))) = Some s -> P (utilization s)).
Proof.
  intros Hps self ev Hin HP k s' Hget.
  destruct ev as [ps| |hour].
  - cbn [step fst] in Hget. rewrite update_predictions_get in Hget.
    destruct (dict_get k (link_states self)) as [s|] eqn:G; [|discriminate].
    injection Hget as <-. cbn [utilization].
    destruct (last_ratio k ps) as [u|] eqn:L; [|eauto].
    destruct (last_ratio_In _ _ _ L) as (q & Hq & _ & ->).
    apply Hps. eapply in_forecast_entries; eassumption.
  - assert (U := step_utilization self Manage k ltac:(discriminate)).
    rewrite Hget in U.
    destruct (dict_get k (link_states self)) as [s|] eqn:G; [|discriminate].
    injection U as ->. eauto.
  - assert (U := step_utilization self (Collect hour) k ltac:(discriminate)).
    rewrite Hget in U.
    destruct (dict_get k (link_states self)) as [s|] eqn:G; [|discriminate].
    injection U as ->. eauto.
Qed.

Lemma run_utilization (P : Q -> Prop) (evs : list event) (self : EnergyManager) :
  (forall pred, In pred (forecast_entries evs) -> P (ratio_of pred)) ->
  (forall k s, dict_get k (link_states self) = Some s -> P (utilization s)) ->
  forall k s, dict_get k (link_states (fst (run self evs))) = Some s -> P (utilization s).
Proof.
  intros Hps H0.
  apply (run_invariant
           (fun m => forall k s, dict_get k (link_states m) = Some s -> P (utilization s)));
    [|assumption].
  intros m ev Hin. now apply utilization_step with evs.
Qed.

(** Without an entry that names it, a link keeps its state's utilization
    through a run. *)
Lemma run_unnamed link_id u (evs : list event) :
  (forall pred, In pred (forecast_entries evs) -> names link_id pred = false) ->
  forall self,
    (forall s, dict_get link_id (link_states self) = Some s -> utilization s = u) ->
    forall s, dict_get link_id (link_states (fst (run self evs))) = Some s ->
              utilization s = u.
Proof.
  intros Hps.
  apply (run_invariant
           (fun m => forall s, dict_get link_id (link_states m) = Some s -> utilization s = u)).
  intros m ev Hin Hm s' Hget.
  destruct ev as [ps| |hour].
  - cbn [step fst] in Hget. rewrite update_predictions_get in Hget.
    rewrite last_ratio_absent in Hget.
    + destruct (dict_get link_id (link_states m)) as [s|]; [|discriminate].
      injection Hget as <-. cbn. auto.
    + intros q Hq. apply Hps. eapply in_forecast_entries; eassumption.
  - assert (U := step_utilization m Manage link_id ltac:(discriminate)).
    rewrite Hget in U.
    destruct (dict_get link_id (link_states m)) as [s|] eqn:G; [|discriminate].
    injection U as ->. eauto.
  - assert (U := step_utilization m (Collect hour) link_id ltac:(discriminate)).
    rewrite Hget in U.
    destruct (dict_get link_id (link_states m)) as [s|] eqn:G; [|discriminate].
    injection U as ->. eauto.
Qed.

Lemma started_state snapshot link_id s :
  dict_get link_id (link_states (started snapshot)) = Some s ->
  s = mkLinkState true 0.
Proof.
  rewrite started_get.
  destruct (str_in link_id _); [now intros [= <-]|discriminate].
Qed.

(** C9, as the code has it — no operation clamps or checks a ratio: in every
    state reached from topology build, a link's utilization is 0 as long as
    no applied forecast entry names the link, and it lies within [0, 1]
    provided every ratio of the applied forecasts does. *)
Theorem utilization_range_and_default
    (snapshot : dict edge) (evs : list event) (self : EnergyManager) (r : option exn)
    (link_id : string) (s : link_state) :
  run (started snapshot) evs = (self, r) ->
  dict_get link_id (link_states self) = Some s ->
  ((forall pred, In pred (forecast_entries evs) -> names link_id pred = false) ->
   utilization s = 0%Q)
  /\ (forallb ratio_in_range (forecast_entries evs) = true ->
      (0 <= utilization s)%Q /\ (utilization s <= 1)%Q).
Proof.
  intros Hrun Hget.
  replace self with (fst (run (started snapshot) evs)) in Hget by now rewrite Hrun.
  split.
  - intros Hps. revert s Hget. apply run_unnamed; [assumption|].
    intros s0 H0. now rewrite (started_state _ _ _ H0).
  - intros Hps. rewrite forallb_forall in Hps.
    revert link_id s Hget.
    apply (run_utilization (fun u => (0 <= u)%Q /\ (u <= 1)%Q)).
    + intros q Hq. specialize (Hps q Hq). unfold ratio_in_range in Hps.
      apply andb_prop in Hps. destruct Hps as [H1 H2].
      split; now apply Qle_bool_iff.
    + intros k s0 H0. rewrite (started_state _ _ _ H0). cbn.
      split; [apply Qle_refl|discriminate].
Qed.

(** C9, the claim as written fails: a forecast ratio of 3/2 is stored as it
    comes. *)
Lemma utilization_above_one :
  exists self s,
    run default_state [Forecast [mkPrediction (Some "link_1") (Some (3 # 2))]] = (self, None)
    /\ dict_get "link_1" (link_states self) = Some s
    /\ ~ (utilization s <= 1)%Q.
Proof.
  eexists. eexists. split; [vm_compute; reflexivity|]. split; [vm_compute; reflexivity|].
  cbn. intros H. now apply H.
Qed.

Lemma utilization_range_and_default_witness :
  let forecast :=
    [mkPrediction (Some "link_2") (Some (1 # 20)); mkPrediction (Some "link_77") None] in
  let evs := [Forecast forecast; Manage; Collect 0] in
  let self := fst (run (started Ryu._build_topology) evs) in
  (run (started Ryu._build_topology) evs = (self, None)
   /\ dict_get "link_1" (link_states self) = Some (mkLinkState false 0)
   /\ dict_get "link_2" (link_states self) = Some (mkLinkState true (1 # 20)))
  /\ utilization (mkLinkState false 0) = 0%Q
  /\ (0 <= utilization (mkLinkState true (1 # 20)))%Q
  /\ (utilization (mkLinkState true (1 # 20)) <= 1)%Q.
Proof.
  cbv zeta.
  assert (H : run (started Ryu._build_topology)
                [Forecast [mkPrediction (Some "link_2") (Some (1 # 20));
                           mkPrediction (Some "link_77") None]; Manage; Collect 0]
              = (fst (run (started Ryu._build_topology)
                   [Forecast [mkPrediction (Some "link_2") (Some (1 # 20));
                              mkPrediction (Some "link_77") None]; Manage; Collect 0]), None))
    by (vm_compute; reflexivity).
  assert (H1 : dict_get "link_1" (link_states (fst (run (started Ryu._build_topology)
                   [Forecast [mkPrediction (Some "link_2") (Some (1 # 20));
                              mkPrediction (Some "link_77") None]; Manage; Collect 0])))
               = Some (mkLinkState false 0)) by (vm_compute; reflexivity).
  assert (H2 : dict_get "link_2" (link_states (fst (run (started Ryu._build_topology)
                   [Forecast [mkPrediction (Some "link_2") (Some (1 # 20));
                              mkPrediction (Some "link_77") None]; Manage; Collect 0])))
               = Some (mkLinkState true (1 # 20))) by (vm_compute; reflexivity).
  split; [auto|]. split.
  - apply (proj1 (utilization_range_and_default _ _ _ _ _ _ H H1)).
    intros pred Hin. cbn in Hin.
    destruct Hin as [<-|[<-|[]]]; reflexivity.
  - apply (proj2 (utilization_range_and_default _ _ _ _ _ _ H H2)).
    vm_compute; reflexivity.
Defined.

(** ** Power states along a run *)

Lemma update_predictions_active self predictions link_id :
  is_active (_update_predictions self predictions) link_id = is_active self link_id.
Proof.
  unfold is_active. rewrite update_predictions_get.
  now destruct (dict_get link_id (link_states self)).
Qed.

Lemma metrics_collector_active self hour link_id :
  is_active (_metrics_collector self hour) link_id = is_active self link_id.
Proof.
  unfold is_active.
  destruct (metrics_collector_frame self hour) as (F & _). cbv zeta in F.
  now rewrite F.
Qed.

(** A property of the power states that the loop body keeps is kept by every
    operation. *)
Lemma step_active_invariant (P : EnergyManager -> Prop) :
  (forall self self', link_index_to_edge self' = link_index_to_edge self ->
                      dict_keys (link_states self') = dict_keys (link_states self) ->
                      (forall k, is_active self' k = is_active self k) ->
                      P self -> P self') ->
  (forall self k, P self -> P (fst (manage_link self k))) ->
  forall self ev, P self -> P (fst (step self ev)).
Proof.
  intros Hsame Hbody self ev HP.
  destruct ev as [ps| |hour]; cbn [step fst].
  - destruct (update_predictions_frame ps self) as (F1 & _ & _ & _ & F5).
    apply (Hsame self); auto using update_predictions_active.
  - unfold _link_management. now apply manage_links_invariant.
  - destruct (metrics_collector_frame self hour) as (F1 & F2 & _). cbv zeta in *.
    apply (Hsame self); auto using metrics_collector_active.
    now rewrite F1.
Qed.

(** ** Fail-closed default *)

Lemma unclassified_evaluation self link_id :
  unclassified (link_index_to_edge self) link_id = true ->
  _is_safe_to_sleep self link_id
  = match dict_get link_id (link_index_to_edge self) with
    | None => Ok false
    | Some _ =>
        match link_number link_id with
        | Ok _ => Ok false
        | Raise e => Raise e
        end
    end.
Proof.
  unfold unclassified, is_host_access, is_core_mesh, is_agg_core, _is_safe_to_sleep.
  destruct (dict_get link_id (link_index_to_edge self)) as [e|]; [|reflexivity].
  intros H. apply andb_prop in H. destruct H as [H H3].
  apply andb_prop in H. destruct H as [H1 H2].
  apply negb_true_iff in H1, H2, H3. rewrite H1, H2.
  destruct (link_number link_id) as [n|err]; cbn [bind]; [|reflexivity].
  now rewrite H3.
Qed.

Lemma unclassified_not_safe self link_id :
  unclassified (link_index_to_edge self) link_id = true ->
  _is_safe_to_sleep self link_id <> Ok true.
Proof.
  intros H. rewrite (unclassified_evaluation _ _ H).
  destruct (dict_get link_id (link_index_to_edge self)); [|discriminate].
  destruct (link_number link_id); discriminate.
Qed.

Lemma unclassified_stays_active index link_id self k :
  unclassified index link_id = true ->
  link_index_to_edge self = index /\ is_active self link_id = true ->
  link_index_to_edge (fst (manage_link self k)) = index
  /\ is_active (fst (manage_link self k)) link_id = true.
Proof.
  intros Hu [Hi Ha]. destruct (manage_link_frame self k) as (F1 & _).
  split; [congruence|].
  destruct (string_dec k link_id) as [->|Hne].
  - destruct (manage_link_outcome self link_id) as
      [ | s H _ _ | | | s H _ _ Hsafe | | ]; cbn [fst]; try assumption.
    + unfold is_active. now rewrite with_active_get_same.
    + subst index. now destruct (unclassified_not_safe _ _ Hu).
  - unfold is_active in *. now rewrite manage_link_get_other.
Qed.

(** C3, as the code has it — fail-closed default: for a link that is not a
    host access link, not one of the core-mesh identifiers and whose
    identifier number is not in the aggregation range, the evaluator never
    answers true: it answers false whenever the number in the identifier can be
    read (and for a link missing from the topology map); such a link is ACTIVE
    after a link-management pass if it was ACTIVE before, and is ACTIVE in every
    state reached from topology build. *)
Theorem fail_closed (link_id : string) :
  (forall self,
      unclassified (link_index_to_edge self) link_id = true ->
      _is_safe_to_sleep self link_id <> Ok true
      /\ (forall n, link_number link_id = Ok n -> _is_safe_to_sleep self link_id = Ok false)
      /\ (dict_get link_id (link_index_to_edge self) = None ->
          _is_safe_to_sleep self link_id = Ok false))
  /\ (forall self,
         unclassified (link_index_to_edge self) link_id = true ->
         is_active self link_id = true ->
         is_active (fst (_link_management self)) link_id = true)
  /\ (forall snapshot evs self r,
         unclassified (link_index_to_edge (started snapshot)) link_id = true ->
         In link_id (dict_keys (link_index_to_edge (started snapshot))) ->
         run (started snapshot) evs = (self, r) ->
         is_active self link_id = true).
Proof.
  split; [|split].
  - intros self Hu. split; [now apply unclassified_not_safe|].
    rewrite (unclassified_evaluation _ _ Hu). split.
    + intros n Hn. rewrite Hn. now destruct (dict_get link_id (link_index_to_edge self)).
    + now intros ->.
  - intros self Hu Ha. unfold _link_management.
    apply (manage_links_invariant
             (fun m => link_index_to_edge m = link_index_to_edge self
                       /\ is_active m link_id = true)); [|auto].
    intros m k. now apply unclassified_stays_active.
  - intros snapshot evs self r Hu Hin Hrun.
    replace self with (fst (run (started snapshot) evs)) by now rewrite Hrun.
    apply (run_invariant
             (fun m => link_index_to_edge m = link_index_to_edge (started snapshot)
                       /\ is_active m link_id = true)).
    + intros m ev _.
      apply (step_active_invariant
               (fun m => link_index_to_edge m = link_index_to_edge (started snapshot)
                         /\ is_active m link_id = true)).
      * intros a b Hi _ Hact [H1 H2]. split; [congruence|]. now rewrite Hact.
      * intros a k. now apply unclassified_stays_active.
    + split; [reflexivity|]. unfold is_active. rewrite started_get.
      apply str_in_In in Hin. now rewrite Hin.
Qed.

(** C3, the claim as written fails: for an unclassified link whose identifier
    has no ['_'] the evaluator raises [IndexError] instead of answering
    false. *)
Lemma unreadable_id_raises :
  let self := started [("uplink", mkEdge 1 3 "00:00:00:00:01:03" 4 3 "00:00:00:00:04:03")] in
  unclassified (link_index_to_edge self) "uplink" = true
  /\ _is_safe_to_sleep self "uplink" = Raise IndexError
  /\ _is_safe_to_sleep self "uplink" <> Ok false.
Proof. cbv zeta. split; [|split]; vm_compute; [reflexivity|reflexivity|discriminate]. Qed.

Lemma fail_closed_witness :
  let snapshot :=
    [("link_40", mkEdge 1 3 "00:00:00:00:01:03" 4 3 "00:00:00:00:04:03");
     ("link_41", mkEdge 2 3 "00:00:00:00:02:03" 4 4 "00:00:00:00:04:04")] in
  _is_safe_to_sleep (started snapshot) "link_40" <> Ok true
  /\ _is_safe_to_sleep (started snapshot) "link_40" = Ok false
  /\ is_active (fst (_link_management (started snapshot))) "link_40" = true
  /\ is_active (fst (run (started snapshot) [Manage; Collect 0; Manage])) "link_40" = true
  /\ _is_safe_to_sleep (started snapshot) "link_99" = Ok false.
Proof.
  cbv zeta.
  destruct (fail_closed "link_99") as (H0 & _).
  destruct (fail_closed "link_40") as (H1 & H2 & H3).
  match goal with |- context [started ?s] => set (snapshot := s) end.
  assert (Hu : unclassified (link_index_to_edge (started snapshot)) "link_40" = true)
    by (vm_compute; reflexivity).
  destruct (H1 (started snapshot) Hu) as (Ha & Hb & _).
  split; [exact Ha|]. split; [apply (Hb 40); vm_compute; reflexivity|].
  split; [|split].
  - apply H2; [exact Hu|vm_compute; reflexivity].
  - apply (H3 snapshot [Manage; Collect 0; Manage] _
              (snd (run (started snapshot) [Manage; Collect 0; Manage])) Hu).
    + vm_compute. auto.
    + now destruct (run (started snapshot) [Manage; Collect 0; Manage]).
  - apply (H0 (started snapshot)); vm_compute; reflexivity.
Defined.

(** ** The two access links of a host *)

Lemma access_pair_sym index k x y : access_pair index k x y -> access_pair index k y x.
Proof. unfold access_pair. intros (H1 & H2 & H3 & H4 & H5). intuition. Qed.

(** For a link of such a pair the evaluator answers whether the other link
    is ACTIVE. *)
Lemma safe_iff_sibling_active k x y self sy :
  access_pair (link_index_to_edge self) k x y ->
  dict_get y (link_states self) = Some sy ->
  _is_safe_to_sleep self x = Ok (active sy).
Proof.
  intros (Hxy & Ht & (ex & Hx & Hdx) & _ & Hk) Hy.
  unfold _is_safe_to_sleep. rewrite Hx, Hdx.
  replace (- k <? 0) with true by (symmetry; apply Z.ltb_lt; lia).
  rewrite Z.opp_involutive. unfold _is_safe_to_sleep_host_link.
  assert (Eyx : String.eqb y x = false) by (apply String.eqb_neq; congruence).
  assert (Exy : String.eqb x y = false) by now apply String.eqb_neq.
  destruct Ht as [-> | ->]; unfold str_in; cbn [existsb any_other_active];
    rewrite ?String.eqb_refl, ?Exy, ?Eyx; cbn [orb negb];
    unfold subscript; rewrite Hy; cbn [bind]; now destruct (active sy).
Qed.

Section HostPair.
Variables (k : Z) (x y : string) (ux uy : Q).

Lemma both_idle_other self j :
  j <> x -> j <> y ->
  both_idle x y ux uy self -> both_idle x y ux uy (fst (manage_link self j)).
Proof.
  intros Hx Hy (H1 & H2 & H3 & H4). unfold both_idle.
  destruct (manage_link_frame self j) as (_ & -> & _).
  now rewrite !manage_link_get_other.
Qed.

Lemma both_idle_first self :
  access_pair (link_index_to_edge self) k x y ->
  both_idle x y ux uy self ->
  snd (manage_link self x) = None
  /\ one_asleep x y ux uy (fst (manage_link self x)).
Proof.
  intros Hp (H1 & H2 & H3 & H4).
  pose proof (safe_iff_sibling_active _ _ _ self _ Hp H2) as Hsafe. cbn [active] in Hsafe.
  destruct Hp as (Hxy & _).
  destruct (manage_link_outcome self x) as
    [ H | s H Ha _ | s H Ha _ | s H _ Hlt | s H _ _ _ | s H _ _ Hs | s e H _ _ Hs ];
    rewrite H1 in H; try discriminate; injection H as <-; cbn [active utilization] in *;
    try congruence.
  split; [reflexivity|]. cbn [fst]. unfold one_asleep.
  rewrite with_active_get_same, with_active_get_other by assumption.
  cbn. auto.
Qed.

Lemma one_asleep_kept self j :
  access_pair (link_index_to_edge self) k x y ->
  one_asleep x y ux uy self -> one_asleep x y ux uy (fst (manage_link self j)).
Proof.
  intros Hp (H1 & H2 & H3 & H4). unfold one_asleep.
  destruct (manage_link_frame self j) as (_ & -> & _).
  pose proof (safe_iff_sibling_active _ _ _ self _ (access_pair_sym _ _ _ _ Hp) H1) as Hsafe.
  cbn [active] in Hsafe.
  destruct Hp as (Hxy & _).
  destruct (string_dec j x) as [->|Hjx]; [|destruct (string_dec j y) as [->|Hjy]].
  - rewrite (manage_link_get_other self x y Hxy).
    destruct (manage_link_outcome self x) as
      [ H | s H _ Hge | s H _ _ | s H Ha _ | s H Ha _ _ | s H Ha _ _ | s e H Ha _ _ ];
      cbn [fst]; auto; rewrite H1 in H; injection H as <-; cbn [active utilization] in *;
      try discriminate.
    rewrite util_lt_ge, Hge in H3. discriminate.
  - rewrite (manage_link_get_other self y x (not_eq_sym Hxy)).
    destruct (manage_link_outcome self y) as
      [ H | s H Ha _ | s H Ha _ | s H _ Hlt | s H _ _ Hs | s H _ _ _ | s e H _ _ Hs ];
      cbn [fst]; auto; rewrite H2 in H; injection H as <-; cbn [active utilization] in *;
      congruence.
  - now rewrite !manage_link_get_other.
Qed.

Lemma first_link_sleeps : forall ids self self',
  access_pair (link_index_to_edge self) k x y ->
  both_idle x y ux uy self ->
  first_of x y ids = Some x ->
  manage_links self ids = (self', None) ->
  one_asleep x y ux uy self'.
Proof.
  induction ids as [|j ids IH]; intros self self' Hp Hb Hf Hrun; [discriminate|].
  cbn [first_of] in Hf. cbn [manage_links] in Hrun.
  destruct (String.eqb j x) eqn:Ejx.
  - apply String.eqb_eq in Ejx. subst j.
    destruct (both_idle_first self Hp Hb) as [Hn Ho].
    destruct (manage_link_frame self x) as (Hi & _).
    destruct (manage_link self x) as [self1 r]. cbn [fst snd] in *. subst r.
    replace self' with (fst (manage_links self1 ids)) by now rewrite Hrun.
    apply (manage_links_invariant
             (fun m => access_pair (link_index_to_edge m) k x y /\ one_asleep x y ux uy m)).
    + intros m j [Hpm Hom]. destruct (manage_link_frame m j) as (-> & _).
      split; [assumption|now apply one_asleep_kept].
    + split; [now rewrite Hi|assumption].
  - destruct (String.eqb j y) eqn:Ejy.
    + destruct Hp as (Hxy & _). congruence.
    + apply String.eqb_neq in Ejx, Ejy.
      pose proof (both_idle_other self j Ejx Ejy Hb) as Hb1.
      destruct (manage_link_frame self j) as (Hi & _).
      destruct (manage_link self j) as [self1 [e|]]; [discriminate|].
      cbn [fst] in *. apply (IH self1); try assumption. now rewrite Hi.
Qed.
End HostPair.

Lemma first_of_swap x y ids :
  x <> y -> first_of x y ids = first_of y x ids.
Proof.
  intros Hxy. induction ids as [|j ids IH]; cbn; [reflexivity|].
  destruct (String.eqb j x) eqn:Ex, (String.eqb j y) eqn:Ey; auto.
  apply String.eqb_eq in Ex, Ey. congruence.
Qed.

Lemma first_of_present x y ids :
  In x ids -> first_of x y ids = Some x \/ first_of x y ids = Some y.
Proof.
  induction ids as [|j ids IH]; cbn; [tauto|].
  intros [->|H].
  - rewrite String.eqb_refl. now left.
  - destruct (String.eqb j x); [now left|].
    destruct (String.eqb j y); [now right|auto].
Qed.

Lemma util_lt_iff u t : util_lt u t = true <-> (u < t)%Q.
Proof.
  unfold util_lt. rewrite negb_true_iff. split.
  - intros H. apply Qnot_le_lt. intros Hle.
    apply Qle_bool_iff in Hle. congruence.
  - intros H. destruct (Qle_bool t u) eqn:E; [|reflexivity].
    apply Qle_bool_iff in E. now destruct (Qlt_not_le _ _ H).
Qed.

(** ** Every host keeps an access link *)

Lemma any_other_active_true self j links :
  any_other_active self j links = Ok true ->
  exists other, In other links /\ other <> j /\ is_active self other = true.
Proof.
  induction links as [|o links IH]; cbn [any_other_active]; [discriminate|].
  destruct (String.eqb o j) eqn:E.
  - intros H. destruct (IH H) as (other & H1 & H2 & H3). exists other. cbn. auto.
  - apply String.eqb_neq in E. unfold subscript.
    destruct (dict_get o (link_states self)) as [s|] eqn:G; cbn [bind]; [|discriminate].
    destruct (active s) eqn:A.
    + intros _. exists o. cbn. repeat split; auto.
      unfold is_active. now rewrite G.
    + intros H. destruct (IH H) as (other & H1 & H2 & H3). exists other. cbn. auto.
Qed.

(** When the evaluator lets a host link sleep, an ACTIVE link to the same
    host remains. *)
Lemma safe_host_link_sibling self j e :
  hosts_match_table (link_index_to_edge self) = true ->
  keys_in_map self ->
  dict_get j (link_index_to_edge self) = Some e -> dpid_b e < 0 ->
  _is_safe_to_sleep self j = Ok true ->
  exists other e',
    other <> j
    /\ dict_get other (link_index_to_edge self) = Some e'
    /\ dpid_b e' = dpid_b e
    /\ is_active self other = true.
Proof.
  intros Hm Hk Hj Hneg Hsafe.
  unfold _is_safe_to_sleep in Hsafe. rewrite Hj in Hsafe.
  replace (dpid_b e <? 0) with true in Hsafe by (symmetry; now apply Z.ltb_lt).
  unfold _is_safe_to_sleep_host_link in Hsafe.
  unfold hosts_match_table in Hm. rewrite forallb_forall in Hm.
  specialize (Hm (j, e) (dict_get_In _ _ _ Hj)). cbn beta iota in Hm.
  destruct (dict_get (host_name (- dpid_b e)) host_to_links) as [links|]; [|discriminate].
  destruct (negb (str_in j links)); [discriminate|].
  destruct (any_other_active_true _ _ _ Hsafe) as (other & Hin & Hne & Hact).
  rewrite forallb_forall in Hm. specialize (Hm other Hin).
  apply is_active_get in Hact as Hact'. destruct Hact' as (s & Hs & _).
  apply dict_get_keys, Hk, dict_keys_get in Hs. destruct Hs as [e' He'].
  rewrite He' in Hm. apply Z.eqb_eq in Hm.
  exists other, e'. auto.
Qed.

Lemma hosts_attached_manage_link index self j :
  hosts_match_table index = true ->
  link_index_to_edge self = index /\ keys_in_map self /\ hosts_attached self ->
  let self' := fst (manage_link self j) in
  link_index_to_edge self' = index /\ keys_in_map self' /\ hosts_attached self'.
Proof.
  intros Hm (Hi & Hk & Ha). cbv zeta.
  destruct (manage_link_frame self j) as (Fi & _ & _ & _ & Fk).
  split; [congruence|]. split; [unfold keys_in_map; now rewrite Fi, Fk|].
  unfold hosts_attached. rewrite Fi. intros l e Hl Hneg.
  destruct (Ha l e Hl Hneg) as (l' & e' & Hl' & Hd & Hact).
  destruct (manage_link_outcome self j) as
    [ | s H _ _ | | | s H _ _ Hsafe | | ]; cbn [fst]; eauto.
  - exists l', e'. repeat split; auto.
    destruct (string_dec j l') as [->|Hne]; unfold is_active in *.
    + now rewrite with_active_get_same.
    + now rewrite with_active_get_other.
  - destruct (string_dec j l') as [->|Hne].
    + subst index.
      destruct (safe_host_link_sibling self l' e' Hm Hk Hl' ltac:(lia) Hsafe)
        as (other & e'' & Hne & Ho & Hd' & Hoa).
      exists other, e''. repeat split; [assumption|congruence|].
      unfold is_active in *. now rewrite with_active_get_other by congruence.
    + exists l', e'. repeat split; auto.
      unfold is_active in *. now rewrite with_active_get_other.
Qed.

Lemma hosts_attached_started snapshot :
  keys_in_map (started snapshot) /\ hosts_attached (started snapshot).
Proof.
  split.
  - intros l Hin. apply dict_keys_get in Hin. destruct Hin as [s Hs].
    rewrite started_get in Hs.
    destruct (str_in l _) eqn:E; [|discriminate]. now apply str_in_In.
  - intros l e Hl _. exists l, e. repeat split; [assumption|].
    unfold is_active. rewrite started_get.
    apply dict_get_keys, str_in_In in Hl. now rewrite Hl.
Qed.

(** C5, as the code has it — redundancy preservation for the pairs of the
    evaluator's table: when the two access links of a host are the pair that
    [host_to_links] lists for that host, both attached to it by the topology
    map, and both are ACTIVE with utilization below the threshold at the start
    of the link-management step, then after a step that completes exactly one
    of them is SLEEPING and the other is still ACTIVE; and when the links that
    the table lists for a host are, where the map has them, attached to that
    host, every host keeps an ACTIVE access link in every state reached from
    topology build. *)
Theorem redundancy_preservation :
  (forall self self' k x y sx sy,
      access_pair (link_index_to_edge self) k x y ->
      dict_get x (link_states self) = Some sx ->
      dict_get y (link_states self) = Some sy ->
      active sx = true -> active sy = true ->
      (utilization sx < sleep_threshold self)%Q ->
      (utilization sy < sleep_threshold self)%Q ->
      _link_management self = (self', None) ->
      (dict_get x (link_states self') = Some (mkLinkState false (utilization sx))
       /\ dict_get y (link_states self') = Some (mkLinkState true (utilization sy)))
      \/ (dict_get x (link_states self') = Some (mkLinkState true (utilization sx))
          /\ dict_get y (link_states self') = Some (mkLinkState false (utilization sy))))
  /\ (forall snapshot evs self r,
         hosts_match_table (link_index_to_edge (started snapshot)) = true ->
         run (started snapshot) evs = (self, r) ->
         forall l e,
           dict_get l (link_index_to_edge (started snapshot)) = Some e ->
           dpid_b e < 0 ->
           exists l' e',
             dict_get l' (link_index_to_edge (started snapshot)) = Some e'
             /\ dpid_b e' = dpid_b e
             /\ is_active self l' = true).
Proof.
  split.
  - intros self self' k x y [ax ux] [ay uy] Hp Hx Hy Hax Hay Hux Huy Hrun.
    cbn [active utilization] in *. subst ax ay.
    apply util_lt_iff in Hux, Huy.
    assert (Hb : both_idle x y ux uy self) by (unfold both_idle; auto).
    assert (Hb' : both_idle y x uy ux self) by (unfold both_idle; auto).
    pose proof Hp as (Hxy & _).
    destruct (first_of_present x y _ (dict_get_keys _ _ _ Hx)) as [Hf|Hf].
    + left.
      destruct (first_link_sleeps k x y ux uy _ self self' Hp Hb Hf Hrun) as (H1 & H2 & _).
      auto.
    + right. rewrite first_of_swap in Hf by assumption.
      destruct (first_link_sleeps k y x uy ux _ self self'
                  (access_pair_sym _ _ _ _ Hp) Hb' Hf Hrun) as (H1 & H2 & _).
      auto.
  - intros snapshot evs self r Hm Hrun.
    replace self with (fst (run (started snapshot) evs)) by now rewrite Hrun.
    set (index := link_index_to_edge (started snapshot)) in *.
    enough (H : link_index_to_edge (fst (run (started snapshot) evs)) = index
                /\ keys_in_map (fst (run (started snapshot) evs))
                /\ hosts_attached (fst (run (started snapshot) evs))).
    { destruct H as (Hi & _ & Ha). unfold hosts_attached in Ha. now rewrite Hi in Ha. }
    apply (run_invariant
             (fun m => link_index_to_edge m = index /\ keys_in_map m /\ hosts_attached m)).
    + intros m ev _.
      apply (step_active_invariant
               (fun m => link_index_to_edge m = index /\ keys_in_map m /\ hosts_attached m)).
      * intros a b Hi Hk Hact (H1 & H2 & H3).
        split; [congruence|]. split; [unfold keys_in_map; now rewrite Hi, Hk|].
        unfold hosts_attached. rewrite Hi. intros l e Hl Hneg.
        destruct (H3 l e Hl Hneg) as (l' & e' & Hl' & Hd & Ha).
        exists l', e'. now rewrite Hact.
      * intros a j. now apply hosts_attached_manage_link.
    + split; [reflexivity|]. apply hosts_attached_started.
Qed.

(** ** Determinism and processing order *)

Lemma any_other_active_ext a b j links :
  link_states a = link_states b ->
  any_other_active a j links = any_other_active b j links.
Proof.
  intros H. induction links as [|o links IH]; cbn [any_other_active]; [reflexivity|].
  now rewrite H, IH.
Qed.

Lemma agg_search_ext a b j items :
  link_states a = link_states b ->
  agg_search a j items = agg_search b j items.
Proof.
  intros H. induction items as [|[sw links] items IH]; cbn [agg_search]; [reflexivity|].
  now rewrite IH, (any_other_active_ext a b j links H).
Qed.

Lemma is_safe_to_sleep_ext a b j :
  same_control a b -> _is_safe_to_sleep a j = _is_safe_to_sleep b j.
Proof.
  intros (Hs & Hi & _).
  unfold _is_safe_to_sleep, _is_safe_to_sleep_host_link,
    _is_safe_to_sleep_aggregation_core_link.
  rewrite Hi. destruct (dict_get j (link_index_to_edge b)) as [e|]; [|reflexivity].
  destruct (dpid_b e <? 0).
  - destruct (dict_get _ host_to_links) as [links|]; [|reflexivity].
    now rewrite (any_other_active_ext a b j links Hs).
  - destruct (str_in j core_core_ids); [reflexivity|].
    destruct (link_number j) as [n|err]; cbn [bind]; [|reflexivity].
    now rewrite (agg_search_ext a b j _ Hs).
Qed.

Lemma manage_link_ext a b j :
  same_control a b ->
  same_control (fst (manage_link a j)) (fst (manage_link b j))
  /\ snd (manage_link a j) = snd (manage_link b j).
Proof.
  intros H. pose proof (is_safe_to_sleep_ext a b j H) as Hsafe.
  destruct H as (Hs & Hi & Ht).
  unfold manage_link, _set_link_state. rewrite Hs, Ht, Hsafe.
  destruct (dict_get j (link_states b)) as [s|]; [|now repeat split].
  destruct (negb (active s) && util_ge (utilization s) (sleep_threshold b)).
  - cbn. unfold same_control. cbn. auto.
  - destruct (active s && util_lt (utilization s) (sleep_threshold b));
      [|now repeat split].
    destruct (_is_safe_to_sleep b j) as [[|]|err]; [|now repeat split..].
    cbn. unfold same_control. cbn. auto.
Qed.

Lemma manage_links_ext ids : forall a b,
  same_control a b ->
  same_control (fst (manage_links a ids)) (fst (manage_links b ids))
  /\ snd (manage_links a ids) = snd (manage_links b ids).
Proof.
  induction ids as [|j ids IH]; intros a b H; cbn [manage_links]; [now split|].
  destruct (manage_link_ext a b j H) as [H1 H2].
  destruct (manage_link a j) as [a1 ra], (manage_link b j) as [b1 rb].
  cbn [fst snd] in *. subst rb. destruct ra; [now split|auto].
Qed.

Lemma update_predictions_ext predictions : forall a b,
  same_control a b ->
  same_control (_update_predictions a predictions) (_update_predictions b predictions).
Proof.
  induction predictions as [|p ps IH]; intros a b H; [exact H|].
  apply IH. destruct H as (Hs & Hi & Ht).
  unfold apply_prediction. destruct (pred_link_id p) as [l|]; [|now repeat split].
  rewrite Hs. destruct (dict_get l (link_states b)) as [s|]; [|now repeat split].
  unfold same_control. cbn. auto.
Qed.

(** C10, as the code has it — the link-management step is a function of the
    link-state map, the topology map and the threshold: two managers that agree
    on these and receive the same forecast end the step with identical
    link-state maps and the same outcome.  When the two access links of a host
    are the pair that [host_to_links] lists for that host, both attached to it
    by the topology map, and both are ACTIVE with utilization below the
    threshold, the link that goes to SLEEPING in a step that completes is the
    one that comes first in the insertion order of the link-state map, which in
    every state reached from topology build is the insertion order of the
    topology map; the other stays ACTIVE. *)
Theorem link_management_order :
  (forall a b predictions,
      same_control a b ->
      let a' := _link_management (_update_predictions a predictions) in
      let b' := _link_management (_update_predictions b predictions) in
      link_states (fst a') = link_states (fst b') /\ snd a' = snd b')
  /\ (forall self self' k x y sx sy,
         access_pair (link_index_to_edge self) k x y ->
         dict_get x (link_states self) = Some sx ->
         dict_get y (link_states self) = Some sy ->
         active sx = true -> active sy = true ->
         (utilization sx < sleep_threshold self)%Q ->
         (utilization sy < sleep_threshold self)%Q ->
         first_of x y (dict_keys (link_states self)) = Some x ->
         _link_management self = (self', None) ->
         dict_get x (link_states self') = Some (mkLinkState false (utilization sx))
         /\ dict_get y (link_states self') = Some (mkLinkState true (utilization sy)))
  /\ (forall snapshot evs self r,
         run (started snapshot) evs = (self, r) ->
         dict_keys (link_states self) = dict_keys (link_index_to_edge self)).
Proof.
  split; [|split].
  - intros a b predictions H. cbv zeta. unfold _link_management.
    pose proof (update_predictions_ext predictions a b H) as H1.
    destruct H1 as (Hs & Hi & Ht). rewrite Hs.
    destruct (manage_links_ext (dict_keys (link_states (_update_predictions b predictions)))
                _ _ (conj Hs (conj Hi Ht))) as [(Hs' & _) Hr].
    auto.
  - intros self self' k x y [ax ux] [ay uy] Hp Hx Hy Hax Hay Hux Huy Hf Hrun.
    cbn [active utilization] in *. subst ax ay.
    apply util_lt_iff in Hux, Huy.
    assert (Hb : both_idle x y ux uy self) by (unfold both_idle; auto).
    destruct (first_link_sleeps k x y ux uy _ self self' Hp Hb Hf Hrun) as (H1 & H2 & _).
    auto.
  - intros snapshot evs self r Hrun.
    replace self with (fst (run (started snapshot) evs)) by now rewrite Hrun.
    apply (run_invariant
             (fun m => dict_keys (link_states m) = dict_keys (link_index_to_edge m)));
      [|apply started_keys].
    intros m ev _ Hm. destruct (step_frame m ev) as (Fi & _ & Fk).
    cbv zeta in *. now rewrite Fi, Fk.
Qed.

(** ** Connectivity of the ACTIVE subgraph on the controller's topology *)

Lemma closed_under_connected es nodes u v :
  closed_under es nodes = true ->
  connected es u v ->
  existsb (Z.eqb u) nodes = true -> existsb (Z.eqb v) nodes = true.
Proof.
  intros Hc Hp Hu. unfold closed_under in Hc. rewrite forallb_forall in Hc.
  induction Hp as [|v w _ IH [Hin|Hin]]; [assumption| |];
    specialize (Hc _ Hin); cbn beta iota in Hc; apply eqb_prop in Hc; congruence.
Qed.

(** C1 — the connectivity invariant is broken on the controller's own
    topology by the first link-management pass (all utilizations still 0): the
    pass completes, puts link_9, link_38 and link_39 to sleep and leaves host 5
    attached only to switch 9, which has no ACTIVE link to any switch; host 5
    is then unreachable from each of the three core switches. *)
Theorem host_cut_off_after_first_cycle :
  let self := fst (run default_state [Manage]) in
  run default_state [Manage] = (self, None)
  /\ core_switches = [1; 2; 3]
  /\ dict_get "link_10" (link_index_to_edge self)
     = Some (mkEdge 9 1 "00:00:00:00:09:01" (-5) 1 "00:00:00:00:00:05")
  /\ map (fun l => is_active self l) ["link_9"; "link_10"; "link_38"; "link_39"]
     = [false; true; false; false]
  /\ (forall core, In core core_switches -> ~ connected (active_edges self) core (-5)).
Proof.
  cbv zeta. split; [vm_compute; reflexivity|]. split; [vm_compute; reflexivity|].
  split; [vm_compute; reflexivity|]. split; [vm_compute; reflexivity|].
  intros core Hcore Hpath.
  set (reached := [1; 2; 3; 4; 5; 6; 7; 8; -1; -2; -3; -4; -6; -7; -8; -9; -10]).
  assert (Hclosed : closed_under (active_edges (fst (run default_state [Manage]))) reached
                    = true) by (vm_compute; reflexivity).
  assert (Hin : existsb (Z.eqb core) reached = true).
  { replace core_switches with [1; 2; 3] in Hcore by (vm_compute; reflexivity).
    cbn in Hcore. destruct Hcore as [<-|[<-|[<-|[]]]]; reflexivity. }
  pose proof (closed_under_connected _ _ _ _ Hclosed Hpath Hin) as Hhost.
  vm_compute in Hhost. discriminate.
Qed.

(** The evaluator's core-mesh rule, as coded: the three listed identifiers
    are always safe when the map holds them as switch-to-switch links. *)
Lemma core_core_ids_always_safe self link_id e :
  dict_get link_id (link_index_to_edge self) = Some e ->
  0 <= dpid_b e ->
  is_core_mesh link_id = true ->
  _is_safe_to_sleep self link_id = Ok true.
Proof.
  intros He Hd Hc. unfold _is_safe_to_sleep. rewrite He.
  replace (dpid_b e <? 0) with false by (symmetry; apply Z.ltb_ge; lia).
  unfold is_core_mesh in Hc. now rewrite Hc.
Qed.

(** C2 — on the controller's topology the core-to-core links are link_25,
    link_26 and link_27, not the identifiers the evaluator lists: once link_26
    sleeps, the evaluator refuses the core-to-core link link_25. *)
Theorem core_link_refused :
  let forecast :=
    [mkPrediction (Some "link_25") (Some (1 # 2));
     mkPrediction (Some "link_26") (Some (1 # 20))] in
  let self := fst (run default_state [Forecast forecast; Manage]) in
  run default_state [Forecast forecast; Manage] = (self, None)
  /\ In (25, 1, 1, 2, 1) Ryu.core_links
  /\ dict_get "link_25" (link_index_to_edge self)
     = Some (mkEdge 1 1 "00:00:00:00:01:01" 2 1 "00:00:00:00:02:01")
  /\ is_active self "link_25" = true
  /\ is_active self "link_26" = false
  /\ _is_safe_to_sleep self "link_25" = Ok false.
Proof.
  cbv zeta.
  split; [vm_compute; reflexivity|]. split; [now left|].
  do 3 (split; [vm_compute; reflexivity|]). vm_compute; reflexivity.
Qed.

(** ** The theorems at concrete inputs *)

Lemma wake_monotonicity_witness :
  dict_get "link_1" (link_states woken_input) = Some (mkLinkState false (1 # 2))
  /\ dict_get "link_1" (link_states (fst (_link_management woken_input)))
     = Some (mkLinkState true (1 # 2)).
Proof.
  assert (H1 : dict_get "link_1" (link_states woken_input) = Some (mkLinkState false (1 # 2)))
    by (vm_compute; reflexivity).
  split; [exact H1|].
  apply (wake_monotonicity woken_input (fst (_link_management woken_input)) "link_1"
           (mkLinkState false (1 # 2)) H1).
  - apply Qle_bool_iff. vm_compute. reflexivity.
  - vm_compute. reflexivity.
Defined.

Lemma host_1_access_pair :
  access_pair (link_index_to_edge default_state) 1 "link_1" "link_2".
Proof.
  unfold access_pair. split; [discriminate|].
  split; [left; vm_compute; reflexivity|].
  split; [eexists; split; vm_compute; reflexivity|].
  split; [eexists; split; vm_compute; reflexivity|lia].
Defined.

Lemma redundancy_preservation_witness :
  (dict_get "link_1" (link_states (fst (_link_management default_state)))
   = Some (mkLinkState false 0)
   /\ dict_get "link_2" (link_states (fst (_link_management default_state)))
      = Some (mkLinkState true 0)
   \/ dict_get "link_1" (link_states (fst (_link_management default_state)))
      = Some (mkLinkState true 0)
      /\ dict_get "link_2" (link_states (fst (_link_management default_state)))
         = Some (mkLinkState false 0))
  /\ (exists l' e',
         dict_get l' (link_index_to_edge (started Ryu._build_topology)) = Some e'
         /\ dpid_b e' = -5
         /\ is_active (fst (run (started Ryu._build_topology) [Manage; Manage])) l' = true).
Proof.
  destruct redundancy_preservation as [H1 H2]. split.
  - apply (H1 default_state (fst (_link_management default_state)) 1 "link_1" "link_2"
              (mkLinkState true 0) (mkLinkState true 0) host_1_access_pair).
    + vm_compute. reflexivity.
    + vm_compute. reflexivity.
    + reflexivity.
    + reflexivity.
    + apply util_lt_iff. vm_compute. reflexivity.
    + apply util_lt_iff. vm_compute. reflexivity.
    + vm_compute. reflexivity.
  - apply (H2 Ryu._build_topology [Manage; Manage]
              (fst (run (started Ryu._build_topology) [Manage; Manage])) None
              ltac:(vm_compute; reflexivity) ltac:(vm_compute; reflexivity)
              "link_9" (mkEdge 7 2 "00:00:00:00:07:02" (-5) 1 "00:00:00:00:00:05")).
    + vm_compute. reflexivity.
    + cbn. lia.
Defined.

Lemma link_management_order_witness :
  (link_states (fst (_link_management (_update_predictions default_state [])))
   = link_states (fst (_link_management (_update_predictions (_metrics_collector default_state 0) [])))
   /\ snd (_link_management (_update_predictions default_state []))
      = snd (_link_management (_update_predictions (_metrics_collector default_state 0) [])))
  /\ (dict_get "link_1" (link_states (fst (_link_management default_state)))
      = Some (mkLinkState false 0)
      /\ dict_get "link_2" (link_states (fst (_link_management default_state)))
         = Some (mkLinkState true 0))
  /\ dict_keys (link_states (fst (run (started Ryu._build_topology) [Manage])))
     = dict_keys (link_index_to_edge (fst (run (started Ryu._build_topology) [Manage]))).
Proof.
  destruct link_management_order as (H1 & H2 & H3). split; [|split].
  - apply (H1 default_state (_metrics_collector default_state 0) []).
    unfold same_control. split; [|split]; vm_compute; reflexivity.
  - apply (H2 default_state (fst (_link_management default_state)) 1 "link_1" "link_2"
              (mkLinkState true 0) (mkLinkState true 0) host_1_access_pair).
    + vm_compute. reflexivity.
    + vm_compute. reflexivity.
    + reflexivity.
    + reflexivity.
    + apply util_lt_iff. vm_compute. reflexivity.
    + apply util_lt_iff. vm_compute. reflexivity.
    + vm_compute. reflexivity.
    + vm_compute. reflexivity.
  - apply (H3 Ryu._build_topology [Manage] _ None). vm_compute. reflexivity.
Defined.

Lemma energy_metrics_witness :
  calculate_energy_consumption (fst (_link_management default_state)) = (2010, 18, 21)
  /\ hourly_energy (metrics (fst (simulated_hour default_state 0 []))) = [2010]
  /\ active_links_history (metrics (fst (simulated_hour default_state 0 []))) = [18]
  /\ timestamp (metrics (fst (simulated_hour default_state 0 []))) = [0]
  /\ timestamp (metrics (fst (simulation_loop default_state 0
                                [[]; [mkPrediction (Some "link_1") (Some (1 # 2))]; []])))
     = [0; 1; 2].
Proof.
  split; [vm_compute; reflexivity|].
  destruct (energy_metrics default_state 0) as (_ & _ & _ & _ & _ & H & L).
  destruct (H [] (fst (simulated_hour default_state 0 [])) ltac:(vm_compute; reflexivity))
    as (E1 & E2 & E3).
  rewrite E1, E2, E3.
  split; [vm_compute; reflexivity|]. split; [vm_compute; reflexivity|].
  split; [vm_compute; reflexivity|].
  destruct (L [[]; [mkPrediction (Some "link_1") (Some (1 # 2))]; []]
              (fst (simulation_loop default_state 0
                      [[]; [mkPrediction (Some "link_1") (Some (1 # 2))]; []]))
              ltac:(vm_compute; reflexivity)) as (T & _).
  rewrite T. vm_compute. reflexivity.
Defined.

Lemma prediction_ingestion_witness :
  let forecast :=
    [mkPrediction (Some "link_2") (Some (1 # 20)); mkPrediction (Some "link_77") (Some (1 # 2))] in
  dict_get "link_1" (link_states (_update_predictions default_state forecast))
  = dict_get "link_1" (link_states default_state)
  /\ _update_predictions default_state forecast
     = _update_predictions default_state [mkPrediction (Some "link_2") (Some (1 # 20))].
Proof.
  cbv zeta.
  destruct (prediction_ingestion default_state
              [mkPrediction (Some "link_2") (Some (1 # 20));
               mkPrediction (Some "link_77") (Some (1 # 2))]) as (_ & H2 & H3 & _).
  split.
  - apply H2. intros pred Hin. cbn in Hin.
    destruct Hin as [<-|[<-|[]]]; reflexivity.
  - apply (H3 [mkPrediction (Some "link_2") (Some (1 # 20))]
              (mkPrediction (Some "link_77") (Some (1 # 2))) [] eq_refl).
    intros l [= <-]. vm_compute. reflexivity.
Defined.

(** C5, the claim as written fails for a host whose access links are not the
    pair that the evaluator's table lists for it.  Host 13, which the table
    does not list, has exactly the two access links link_40 and link_41, both
    ACTIVE with utilization 0: the pass completes and neither of them sleeps.
    And where the map attaches link_1 to host 1 and link_2 to host 2, link_1 is
    put to sleep on the strength of link_2, so that host 1 is left without an
    ACTIVE access link. *)
Lemma redundancy_needs_table_pair :
  let two :=
    started [("link_40", mkEdge 4 1 "00:00:00:00:04:01" (-13) 1 "00:00:00:00:00:0d");
             ("link_41", mkEdge 5 1 "00:00:00:00:05:01" (-13) 1 "00:00:00:00:00:0d")] in
  let crossed :=
    started [("link_1", mkEdge 4 1 "00:00:00:00:04:01" (-1) 1 "00:00:00:00:00:01");
             ("link_2", mkEdge 5 1 "00:00:00:00:05:01" (-2) 1 "00:00:00:00:00:02")] in
  (map fst (filter (fun '(_, e) => dpid_b e =? -13) (link_index_to_edge two))
   = ["link_40"; "link_41"]
   /\ link_states two
      = [("link_40", mkLinkState true 0); ("link_41", mkLinkState true 0)]
   /\ util_lt 0 (sleep_threshold two) = true
   /\ _link_management two = (two, None))
  /\ (map fst (filter (fun '(_, e) => dpid_b e =? -1) (link_index_to_edge crossed))
      = ["link_1"]
      /\ snd (_link_management crossed) = None
      /\ dict_get "link_1" (link_states (fst (_link_management crossed)))
         = Some (mkLinkState false 0)
      /\ filter (fun '(l, e) =>
                   (dpid_b e =? -1) && is_active (fst (_link_management crossed)) l)
                (link_index_to_edge crossed)
         = []).
Proof.
  cbv zeta.
  split; [split; [|split; [|split]]|split; [|split; [|split]]];
    vm_compute; reflexivity.
Qed.

(** C10, the claim as written fails for a host whose two access links are
    not the pair that the evaluator's table lists for it.  Here host 1 has the
    access links link_3 and link_1, in this order, both ACTIVE with utilization
    0; the table lists link_1 and link_2 for host 1, and link_2 is ACTIVE.  The
    pass leaves link_3, the earlier one, ACTIVE and puts link_1, the later one,
    to sleep. *)
Lemma later_link_sleeps :
  let self :=
    started [("link_3", mkEdge 4 2 "00:00:00:00:04:02" (-1) 1 "00:00:00:00:00:01");
             ("link_1", mkEdge 4 1 "00:00:00:00:04:01" (-1) 1 "00:00:00:00:00:01");
             ("link_2", mkEdge 5 1 "00:00:00:00:05:01" (-2) 1 "00:00:00:00:00:02")] in
  map fst (filter (fun '(_, e) => dpid_b e =? -1) (link_index_to_edge self))
  = ["link_3"; "link_1"]
  /\ first_of "link_3" "link_1" (dict_keys (link_states self)) = Some "link_3"
  /\ dict_get "link_3" (link_states self) = Some (mkLinkState true 0)
  /\ dict_get "link_1" (link_states self) = Some (mkLinkState true 0)
  /\ util_lt 0 (sleep_threshold self) = true
  /\ snd (_link_management self) = None
  /\ dict_get "link_3" (link_states (fst (_link_management self)))
     = Some (mkLinkState true 0)
  /\ dict_get "link_1" (link_states (fst (_link_management self)))
     = Some (mkLinkState false 0).
Proof.
  cbv zeta.
  split; [|split; [|split; [|split; [|split; [|split; [|split]]]]]];
    vm_compute; reflexivity.
Qed.

(** [int()] strips ASCII whitespace, NEL and the no-break space, and no
    separator FS..US: an identifier such as 'link_' + chr(31) + '33' has no
    readable number, and the evaluator raises [ValueError] on it. *)
Example separator_is_not_stripped :
  let link_id := "link_" ++ String (ascii_of_nat 31) "33" in
  let self := started [(link_id, mkEdge 1 3 "00:00:00:00:01:03" 6 3 "00:00:00:00:06:03")] in
  py_int (String (ascii_of_nat 31) "33") = None
  /\ py_int (String (ascii_of_nat 9) "33 ") = Some 33
  /\ py_int (String (ascii_of_nat 160) "33") = Some 33
  /\ link_number link_id = Raise ValueError
  /\ _is_safe_to_sleep self link_id = Raise ValueError
  /\ unconditional_link (link_index_to_edge self) link_id = false
  /\ evaluable (link_index_to_edge self) (dict_keys (link_states self)) link_id = false
  /\ snd (_link_management self) = Some ValueError.
Proof.
  cbv zeta.
  split; [|split; [|split; [|split; [|split; [|split; [|split]]]]]];
    vm_compute; reflexivity.
Qed.

(** ** No exception on the controller's topology *)

Lemma any_other_active_returns self j links :
  reads_ok (dict_keys (link_states self)) j links = true ->
  exists b, any_other_active self j links = Ok b.
Proof.
  unfold reads_ok. induction links as [|o links IH]; cbn [forallb any_other_active];
    [eauto|].
  intros H. apply andb_prop in H. destruct H as [H1 H2].
  destruct (String.eqb o j); [auto|]. cbn in H1.
  apply str_in_In, dict_keys_get in H1. destruct H1 as [s Hs].
  unfold subscript. rewrite Hs. cbn [bind]. destruct (active s); eauto.
Qed.

Lemma agg_search_returns self j items :
  forallb (fun '(_, links) => reads_ok (dict_keys (link_states self)) j links) items = true ->
  exists b, agg_search self j items = Ok b.
Proof.
  induction items as [|[sw links] items IH]; cbn [forallb agg_search]; [eauto|].
  intros H. apply andb_prop in H. destruct H as [H1 H2].
  destruct (str_in j links); [now apply any_other_active_returns|auto].
Qed.

Lemma evaluable_returns self j :
  evaluable (link_index_to_edge self) (dict_keys (link_states self)) j = true ->
  exists b, _is_safe_to_sleep self j = Ok b.
Proof.
  unfold evaluable, _is_safe_to_sleep, _is_safe_to_sleep_host_link,
    _is_safe_to_sleep_aggregation_core_link.
  destruct (dict_get j (link_index_to_edge self)) as [e|]; [|eauto].
  destruct (dpid_b e <? 0).
  - destruct (dict_get _ host_to_links) as [links|]; [|eauto].
    intros H. destruct (negb (str_in j links)); [eauto|].
    now apply any_other_active_returns.
  - destruct (str_in j core_core_ids); [eauto|].
    destruct (link_number j) as [n|err]; [|discriminate]. cbn [bind].
    destruct ((25 <=? n) && (n <=? 36)); [|eauto].
    apply agg_search_returns.
Qed.

Lemma manage_links_returns ids : forall self,
  forallb (evaluable (link_index_to_edge self) (dict_keys (link_states self))) ids = true ->
  snd (manage_links self ids) = None.
Proof.
  induction ids as [|j ids IH]; intros self H; cbn [manage_links]; [reflexivity|].
  cbn [forallb] in H. apply andb_prop in H. destruct H as [H1 H2].
  destruct (evaluable_returns self j H1) as [b Hb].
  destruct (manage_link_frame self j) as (Fi & _ & _ & _ & Fk).
  destruct (manage_link_outcome self j) as [ | | | | | | s e _ _ _ Hr ];
    cbn [fst] in *; try (apply IH; rewrite ?Fi, ?Fk; assumption).
  congruence.
Qed.

Lemma run_returns (evs : list event) : forall self,
  all_evaluable self -> snd (run self evs) = None /\ all_evaluable (fst (run self evs)).
Proof.
  induction evs as [|ev evs IH]; intros self H; cbn [run]; [now split|].
  assert (Hs : snd (step self ev) = None).
  { destruct ev; cbn [step snd]; try reflexivity. now apply manage_links_returns. }
  destruct (step_frame self ev) as (Fi & _ & Fk).
  destruct (step self ev) as [self1 r]. cbn [fst snd] in *. subst r.
  apply IH. unfold all_evaluable in *. now rewrite Fi, Fk.
Qed.

(** On the controller's topology no operation raises: every pass of the loop
    completes in every reachable state. *)
Lemma controller_topology_never_raises (evs : list event) :
  snd (run default_state evs) = None
  /\ snd (_link_management (fst (run default_state evs))) = None.
Proof.
  assert (H : all_evaluable default_state) by (vm_compute; reflexivity).
  destruct (run_returns evs default_state H) as [H1 H2].
  split; [assumption|]. now apply manage_links_returns.
Qed.

(** * Further properties of the code *)

(** ** Identifiers: the controller's naming against the manager's reading *)

Lemma strip_no_space cs :
  Forall (fun c => is_space c = false) cs -> strip cs = cs.
Proof.
  intros H. unfold strip.
  assert (D : forall l, Forall (fun c => is_space c = false) l -> drop_spaces l = l).
  { intros l Hl. destruct Hl as [|c l Hc _]; cbn; [reflexivity|now rewrite Hc]. }
  rewrite (D cs H), D, rev_involutive; [reflexivity|].
  apply Forall_rev. assumption.
Qed.

(** The value of a digit sequence read after [acc]. *)
Lemma digits_val_uint (d : Decimal.uint) : forall acc,
  exists v,
    digits_val acc (list_ascii_of_string (DecimalString.NilEmpty.string_of_uint d)) = Some v
    /\ (forall p, acc = Z.pos p -> v = Z.pos (Pos.of_uint_acc d p))
    /\ (acc = 0 -> v = Z.of_N (Pos.of_uint d)).
Proof.
  induction d as [|d IH|d IH|d IH|d IH|d IH|d IH|d IH|d IH|d IH|d IH]; intros acc;
    cbn [DecimalString.NilEmpty.string_of_uint list_ascii_of_string digits_val];
    [exists acc; repeat split; [now intros p ->|now intros ->]|..];
    match goal with
    | |- context [digit_val ?c] =>
        let dv := eval vm_compute in (digit_val c) in
        change (digit_val c) with dv; cbv iota
    end;
    match goal with
    | |- context [digits_val ?a _] =>
        destruct (IH a) as (v & Hv & Hp & H0); exists v; split; [exact Hv|split]
    end.
  all: try (intros p ->; apply Hp; lia).
  all: intros ->; cbn [Pos.of_uint]; first [apply H0; reflexivity | apply Hp; reflexivity].
Qed.

Lemma digits_no_space (d : Decimal.uint) :
  Forall (fun c => is_space c = false)
         (list_ascii_of_string (DecimalString.NilEmpty.string_of_uint d)).
Proof.
  induction d; cbn [DecimalString.NilEmpty.string_of_uint list_ascii_of_string];
    constructor; auto.
Qed.

Lemma unsigned_val_uint (d : Decimal.uint) :
  d <> Decimal.Nil ->
  unsigned_val (list_ascii_of_string (DecimalString.NilEmpty.string_of_uint d))
  = Some (Z.of_uint d).
Proof.
  intros Hd. destruct (digits_val_uint d 0) as (v & Hv & _ & H0).
  rewrite (H0 eq_refl) in Hv. unfold Z.of_uint.
  destruct d; [congruence|..]; exact Hv.
Qed.

Lemma digits_no_underscore (d : Decimal.uint) :
  Forall (fun c => Ascii.eqb c "_" = false)
         (list_ascii_of_string (DecimalString.NilEmpty.string_of_uint d)).
Proof.
  induction d; cbn [DecimalString.NilEmpty.string_of_uint list_ascii_of_string];
    constructor; auto.
Qed.

Lemma sign_dispatch_digit c cs v :
  digit_val c = Some v ->
  match c :: cs with
  | "+"%char :: t => unsigned_val t
  | "-"%char :: t => option_map Z.opp (unsigned_val t)
  | l => unsigned_val l
  end = unsigned_val (c :: cs).
Proof.
  destruct c as [[|] [|] [|] [|] [|] [|] [|] [|]]; vm_compute; try discriminate; reflexivity.
Qed.

Lemma first_digit (d : Decimal.uint) :
  d <> Decimal.Nil ->
  exists c cs v,
    list_ascii_of_string (DecimalString.NilEmpty.string_of_uint d) = c :: cs
    /\ digit_val c = Some v.
Proof.
  intros Hd. destruct d; [congruence|..];
    cbn [DecimalString.NilEmpty.string_of_uint list_ascii_of_string];
    do 3 eexists; (split; [reflexivity|vm_compute; reflexivity]).
Qed.

Lemma to_uint_nonnil p : Pos.to_uint p <> Decimal.Nil.
Proof.
  intros E. pose proof (DecimalPos.Unsigned.of_to p) as H. rewrite E in H. discriminate.
Qed.

Lemma of_to_uint p : Z.of_uint (Pos.to_uint p) = Z.pos p.
Proof. unfold Z.of_uint. now rewrite DecimalPos.Unsigned.of_to. Qed.

Lemma nilzero_nonnil (d : Decimal.uint) :
  d <> Decimal.Nil ->
  DecimalString.NilZero.string_of_uint d = DecimalString.NilEmpty.string_of_uint d.
Proof. destruct d; [congruence|reflexivity..]. Qed.

(** [int(str(n)) == n] *)
Lemma py_int_py_str (n : Z) : py_int (py_str n) = Some n.
Proof.
  unfold py_int, py_str. destruct n as [|p|p]; [reflexivity| |];
    cbn [Z.to_int DecimalString.NilZero.string_of_int];
    rewrite (nilzero_nonnil _ (to_uint_nonnil p)).
  - rewrite strip_no_space by apply digits_no_space.
    destruct (first_digit _ (to_uint_nonnil p)) as (c & cs & v & E & Hc).
    rewrite E, (sign_dispatch_digit c cs v Hc), <- E.
    rewrite (unsigned_val_uint _ (to_uint_nonnil p)). now rewrite of_to_uint.
  - cbn [list_ascii_of_string].
    rewrite strip_no_space by (constructor; [reflexivity|apply digits_no_space]).
    rewrite (unsigned_val_uint _ (to_uint_nonnil p)). cbn. now rewrite of_to_uint.
Qed.

Lemma py_str_injective (n m : Z) : py_str n = py_str m -> n = m.
Proof.
  intros E. pose proof (py_int_py_str n) as H. rewrite E, py_int_py_str in H. congruence.
Qed.

Lemma split_no_underscore (s : string) :
  Forall (fun c => Ascii.eqb c "_" = false) (list_ascii_of_string s) ->
  split_underscore s = [s].
Proof.
  induction s as [|c s IH]; cbn [list_ascii_of_string split_underscore]; [reflexivity|].
  intros H. inversion H as [|? ? Hc Hs]; subst. now rewrite Hc, IH.
Qed.

Lemma py_str_no_underscore (n : Z) :
  Forall (fun c => Ascii.eqb c "_" = false) (list_ascii_of_string (py_str n)).
Proof.
  unfold py_str. destruct n as [|p|p]; [repeat constructor| |];
    cbn [Z.to_int DecimalString.NilZero.string_of_int];
    rewrite (nilzero_nonnil _ (to_uint_nonnil p)).
  - apply digits_no_underscore.
  - cbn [list_ascii_of_string]. constructor; [reflexivity|apply digits_no_underscore].
Qed.

(** X1 — every identifier the controller forms as [f'link_{n}'] is read back
    by the manager's [int(link_id.split('_')[1])] as [n], without an exception;
    two different numbers never give the same identifier. *)
Theorem link_name_read_back (n : Z) :
  split_underscore (Ryu.link_name n) = ["link"; py_str n]
  /\ link_number (Ryu.link_name n) = Ok n
  /\ (forall m, Ryu.link_name n = Ryu.link_name m -> n = m).
Proof.
  assert (S : split_underscore (Ryu.link_name n) = ["link"; py_str n]).
  { unfold Ryu.link_name. cbn [append split_underscore].
    repeat (match goal with |- context [Ascii.eqb ?a ?b] =>
              let v := eval vm_compute in (Ascii.eqb a b) in
              change (Ascii.eqb a b) with v; cbv iota end).
    now rewrite (split_no_underscore _ (py_str_no_underscore n)). }
  split; [exact S|]. split.
  - unfold link_number. rewrite S. now rewrite py_int_py_str.
  - intros m E. unfold Ryu.link_name in E. cbn [append] in E.
    apply py_str_injective. congruence.
Qed.

(** ** The served map, as the manager holds it *)

Lemma dict_set_fresh {V : Type} (d : dict V) k v :
  ~ In k (dict_keys d) -> dict_set k v d = (d ++ [(k, v)])%list.
Proof.
  unfold dict_keys. induction d as [|[k' v'] d IH]; cbn; [reflexivity|].
  intros H. destruct (String.eqb k k') eqn:E.
  - apply String.eqb_eq in E. subst. destruct H. now left.
  - rewrite IH; [reflexivity|]. intros Hin. apply H. now right.
Qed.

Lemma fold_set_distinct {V W : Type} (f : string -> W -> V) (l : list (string * W)) :
  forall d,
    NoDup (dict_keys d ++ dict_keys l)%list ->
    fold_left (fun m '(k, w) => dict_set k (f k w) m) l d
    = (d ++ map (fun '(k, w) => (k, f k w)) l)%list.
Proof.
  induction l as [|[k w] l IH]; intros d H; cbn [fold_left map].
  - now rewrite app_nil_r.
  - cbn [dict_keys map fst] in H. fold (dict_keys l) in H.
    rewrite dict_set_fresh.
    + rewrite IH.
      * now rewrite <- app_assoc.
      * unfold dict_keys in *. rewrite map_app, <- app_assoc. exact H.
    + intros Hin. apply NoDup_remove_2 in H. apply H. apply in_or_app. now left.
Qed.

(** X2 — the map the controller serves is reproduced by the manager: when
    the polled controller holds a non-empty map, topology acquisition returns
    at its first answer with exactly that map, in the same order, and with one
    ACTIVE, utilization-0 state per link in that order. *)
Theorem served_topology_reproduced
    (m : dict edge) (failed rest : list attempt) :
  NoDup (dict_keys m) ->
  m <> [] ->
  forallb retrying failed = true ->
  exists self',
    get_topology_from_ryu init_manager (failed ++ Replied (Ryu.get_topology m) :: rest)%list
    = Some (self', true)
    /\ link_index_to_edge self' = m
    /\ link_states self' = map (fun '(k, _) => (k, mkLinkState true 0)) m
    /\ sleep_threshold self' = 1 # 10
    /\ metrics self' = mkMetrics [] [] [].
Proof.
  intros Hnd Hne Hfailed.
  assert (Hreply : Ryu.get_topology m = Ryu.Response 200 (Ryu.mkBody (Some m))).
  { destruct m; [congruence|reflexivity]. }
  rewrite Hreply, (returns_at_first_200 _ _ _ _ Hfailed).
  eexists. split; [reflexivity|].
  assert (Hi : link_index_to_edge (load_topology init_manager (Ryu.mkBody (Some m))) = m).
  { rewrite load_topology_index. cbn [Ryu.topology_field link_index_to_edge init_manager].
    rewrite (fold_set_distinct (fun _ e => e)); [|exact Hnd].
    cbn [app]. rewrite <- (map_id m) at 2. apply map_ext. now intros [k e]. }
  destruct (load_topology_fields init_manager (Ryu.mkBody (Some m))) as (Hs & Ht & Hm).
  cbv zeta in Hs, Ht, Hm. rewrite Hi in Hs.
  split; [exact Hi|]. split; [|split; assumption].
  rewrite Hs. cbn [link_states init_manager].
  exact (fold_set_distinct (fun _ _ => mkLinkState true 0) m [] Hnd).
Qed.

Lemma served_topology_reproduced_witness :
  exists self',
    get_topology_from_ryu init_manager
      ([RequestException] ++ Replied (Ryu.get_topology Ryu._build_topology) :: [])%list
    = Some (self', true)
    /\ link_index_to_edge self' = Ryu._build_topology
    /\ link_states self' = map (fun '(k, _) => (k, mkLinkState true 0)) Ryu._build_topology
    /\ sleep_threshold self' = 1 # 10
    /\ metrics self' = mkMetrics [] [] [].
Proof.
  apply (served_topology_reproduced Ryu._build_topology [RequestException] []).
  - replace (dict_keys Ryu._build_topology)
      with (nodup string_dec (dict_keys Ryu._build_topology))
      by (vm_compute; reflexivity).
    apply NoDup_nodup.
  - vm_compute. discriminate.
  - reflexivity.
Defined.

(** ** Setting a power state *)

Lemma dict_set_set {V : Type} (d : dict V) k v w :
  dict_set k v (dict_set k w d) = dict_set k v d.
Proof.
  induction d as [|[k' v'] d IH]; cbn.
  - now rewrite String.eqb_refl.
  - destruct (String.eqb k k') eqn:E; cbn.
    + now rewrite String.eqb_refl.
    + now rewrite E, IH.
Qed.

(** X3 — [_set_link_state] refuses a link it has no state for (answers
    [False], changes nothing); for a known link it answers [True], leaves the
    link with the requested power state and its utilization, and leaves every
    other link, the order of the links and the other fields alone; of two
    successive settings of one link only the last counts. *)
Theorem set_link_state_behaviour (self : EnergyManager) (link_id : string) (up : bool) :
  (dict_get link_id (link_states self) = None ->
   _set_link_state self link_id up = (self, false))
  /\ (forall s,
         dict_get link_id (link_states self) = Some s ->
         let self' := fst (_set_link_state self link_id up) in
         snd (_set_link_state self link_id up) = true
         /\ dict_get link_id (link_states self') = Some (mkLinkState up (utilization s))
         /\ (forall k, k <> link_id ->
                       dict_get k (link_states self') = dict_get k (link_states self))
         /\ dict_keys (link_states self') = dict_keys (link_states self)
         /\ link_index_to_edge self' = link_index_to_edge self
         /\ sleep_threshold self' = sleep_threshold self
         /\ metrics self' = metrics self)
  /\ (forall up',
         fst (_set_link_state (fst (_set_link_state self link_id up')) link_id up)
         = fst (_set_link_state self link_id up)).
Proof.
  split; [|split].
  - unfold _set_link_state. now intros ->.
  - intros s Hs. unfold _set_link_state. rewrite Hs. cbn [fst snd].
    split; [reflexivity|]. split; [apply dict_get_set_same|].
    split; [intros k Hk; apply dict_get_set_other; congruence|].
    split; [eapply dict_keys_set_present; eassumption|].
    cbn. auto.
  - intros up'. unfold _set_link_state.
    destruct (dict_get link_id (link_states self)) as [s|] eqn:E; cbn [fst].
    + cbn [link_states set_link_states]. rewrite dict_get_set_same. cbn [fst utilization].
      unfold set_link_states. cbn. now rewrite dict_set_set.
    + now rewrite E.
Qed.

Lemma set_link_state_behaviour_witness :
  _set_link_state default_state "link_77" false = (default_state, false)
  /\ dict_get "link_3" (link_states (fst (_set_link_state default_state "link_3" false)))
     = Some (mkLinkState false 0).
Proof.
  destruct (set_link_state_behaviour default_state "link_77" false) as (H1 & _).
  destruct (set_link_state_behaviour default_state "link_3" false) as (_ & H2 & _).
  split.
  - apply H1. vm_compute. reflexivity.
  - apply (H2 (mkLinkState true 0)). vm_compute. reflexivity.
Defined.

(** ** What a pass can change *)

Lemma legitimate_refl t s : legitimate_change t s s.
Proof. split; auto. Qed.

Lemma legitimate_manage_link k s t self j :
  sleep_threshold self = t
  /\ (exists s', dict_get k (link_states self) = Some s' /\ legitimate_change t s s') ->
  sleep_threshold (fst (manage_link self j)) = t
  /\ (exists s', dict_get k (link_states (fst (manage_link self j))) = Some s'
                 /\ legitimate_change t s s').
Proof.
  intros (Ht & s1 & Hget & Hu & Hl).
  destruct (manage_link_frame self j) as (_ & Fthr & _).
  split; [congruence|].
  destruct (string_dec j k) as [->|Hne];
    [|exists s1; rewrite manage_link_get_other by assumption; repeat split; assumption].
  destruct (manage_link_outcome self k) as
    [ | s2 H Ha Hge | | | s2 H Ha Hlt _ | | ]; cbn [fst];
    try (exists s1; repeat split; assumption).
  - rewrite Hget in H. injection H as <-.
    exists (mkLinkState true (utilization s1)). rewrite with_active_get_same.
    split; [reflexivity|]. split; [exact Hu|]. cbn [active utilization].
    rewrite Hu, Ht in Hge.
    destruct Hl as [Hl|[(H1 & H2 & _)|(H1 & H2 & H3)]].
    + right. left. rewrite <- Hl. auto.
    + congruence.
    + rewrite util_lt_ge, Hge in H3. discriminate.
  - rewrite Hget in H. injection H as <-.
    exists (mkLinkState false (utilization s1)). rewrite with_active_get_same.
    split; [reflexivity|]. split; [exact Hu|]. cbn [active utilization].
    rewrite Hu, Ht in Hlt.
    destruct Hl as [Hl|[(H1 & H2 & H3)|(H1 & H2 & _)]].
    + right. right. rewrite <- Hl. auto.
    + rewrite util_lt_ge, H3 in Hlt. discriminate.
    + congruence.
Qed.

(** X4 — a link-management pass, whether it completes or is left by an
    exception, changes nothing but power states: the topology map, the
    threshold, the metrics, the graph, the set and order of the links and every
    utilization are as before.  Each link differs from its state before the
    pass by at most one transition, a wake only with utilization at or above
    the threshold and a sleep only with utilization below it; a SLEEPING link
    with utilization below the threshold is left as it is. *)
Theorem pass_changes_only_power_states (self : EnergyManager) :
  let self' := fst (_link_management self) in
  link_index_to_edge self' = link_index_to_edge self
  /\ sleep_threshold self' = sleep_threshold self
  /\ metrics self' = metrics self
  /\ switch_graph self' = switch_graph self
  /\ dict_keys (link_states self') = dict_keys (link_states self)
  /\ (forall k s,
         dict_get k (link_states self) = Some s ->
         exists s',
           dict_get k (link_states self') = Some s'
           /\ legitimate_change (sleep_threshold self) s s')
  /\ (forall k s,
         dict_get k (link_states self) = Some s ->
         active s = false ->
         (utilization s < sleep_threshold self)%Q ->
         dict_get k (link_states self') = Some s).
Proof.
  cbv zeta.
  destruct (link_management_frame self) as (F1 & F2 & F3 & F4 & F5). cbv zeta in *.
  do 5 (split; [assumption|]).
  assert (L : forall k s,
    dict_get k (link_states self) = Some s ->
    exists s', dict_get k (link_states (fst (_link_management self))) = Some s'
               /\ legitimate_change (sleep_threshold self) s s').
  { intros k s Hs. unfold _link_management.
    apply (manage_links_invariant
             (fun m => sleep_threshold m = sleep_threshold self
                       /\ exists s', dict_get k (link_states m) = Some s'
                                     /\ legitimate_change (sleep_threshold self) s s')).
    - intros m j. apply legitimate_manage_link.
    - split; [reflexivity|]. exists s. split; [assumption|apply legitimate_refl]. }
  split; [exact L|].
  intros k s Hs Ha Hlt. destruct (L k s Hs) as (s' & Hs' & Hu & Hc).
  rewrite Hs'. f_equal. apply util_lt_iff in Hlt.
  destruct s as [a u], s' as [a' u']. cbn [active utilization] in *. subst.
  destruct Hc as [->|[(_ & _ & Hge)|(H1 & _)]]; [reflexivity| |discriminate].
  rewrite util_lt_ge, Hge in Hlt. discriminate.
Qed.

Lemma pass_changes_only_power_states_witness :
  dict_get "link_1" (link_states (fst (_link_management (fst (_link_management default_state)))))
  = Some (mkLinkState false 0).
Proof.
  destruct (pass_changes_only_power_states (fst (_link_management default_state)))
    as (_ & _ & _ & _ & _ & _ & H).
  apply H.
  - vm_compute. reflexivity.
  - reflexivity.
  - apply util_lt_iff. vm_compute. reflexivity.
Defined.

(** ** A pass that needs no evaluation *)

(** Every link has a utilization at or above the threshold. *)
Lemma all_busy_manage_link self j :
  (forall k s, dict_get k (link_states self) = Some s ->
               util_ge (utilization s) (sleep_threshold self) = true) ->
  snd (manage_link self j) = None
  /\ (forall k s, dict_get k (link_states (fst (manage_link self j))) = Some s ->
                  util_ge (utilization s) (sleep_threshold (fst (manage_link self j))) = true).
Proof.
  intros Hall. split.
  - destruct (manage_link_outcome self j) as [ | | | | | | s e H _ Hlt _ ]; try reflexivity.
    rewrite util_lt_ge, (Hall _ _ H) in Hlt. discriminate.
  - intros k s Hs. destruct (manage_link_frame self j) as (_ & -> & _).
    pose proof (manage_link_utilization self j k) as U. rewrite Hs in U.
    destruct (dict_get k (link_states self)) as [s0|] eqn:E; [|discriminate].
    injection U as ->. eauto.
Qed.

Lemma all_busy_manage_links ids : forall self,
  (forall k s, dict_get k (link_states self) = Some s ->
               util_ge (utilization s) (sleep_threshold self) = true) ->
  snd (manage_links self ids) = None.
Proof.
  induction ids as [|j ids IH]; intros self Hall; cbn [manage_links]; [reflexivity|].
  destruct (all_busy_manage_link self j Hall) as [H1 H2].
  destruct (manage_link self j) as [self1 r]. cbn [fst snd] in *. subst r.
  now apply IH.
Qed.

Lemma nodup_keys_get {V : Type} (d : dict V) k v :
  NoDup (dict_keys d) -> In (k, v) d -> dict_get k d = Some v.
Proof.
  unfold dict_keys. induction d as [|[k' v'] d IH]; cbn; [tauto|].
  intros Hnd [[= -> ->]|Hin].
  - now rewrite String.eqb_refl.
  - inversion Hnd as [|? ? Hk Hnd']; subst.
    destruct (String.eqb k k') eqn:E; [|auto].
    apply String.eqb_eq in E. subst. destruct Hk.
    change k' with (fst (k', v)). now apply in_map.
Qed.

Lemma count_all_active (ls : dict link_state) :
  (forall k s, In (k, s) ls -> active s = true) ->
  count_active ls = Z.of_nat (List.length ls) /\ count_sleeping ls = 0.
Proof.
  unfold count_active, count_sleeping.
  induction ls as [|[k s] ls IH]; intros H; cbn [filter List.length]; [now split|].
  rewrite (H k s (or_introl eq_refl)). cbn [negb List.length].
  destruct IH as [I1 I2]; [intros; eapply H; right; eassumption|].
  rewrite !Nat2Z.inj_succ, I1, I2. now split.
Qed.

(** X5 — when every link's utilization is at or above the threshold, the
    pass never consults the evaluator: it completes whatever the topology and
    the identifiers are, leaves every link ACTIVE with its utilization, and
    (the link identifiers being distinct) the energy computed afterwards is 100
    per link with no SLEEPING link. *)
Theorem all_busy_all_active (self : EnergyManager) :
  (forall k s, dict_get k (link_states self) = Some s ->
               (sleep_threshold self <= utilization s)%Q) ->
  let self' := fst (_link_management self) in
  snd (_link_management self) = None
  /\ (forall k s, dict_get k (link_states self) = Some s ->
                  dict_get k (link_states self') = Some (mkLinkState true (utilization s)))
  /\ (NoDup (dict_keys (link_states self)) ->
      calculate_energy_consumption self'
      = (100 * Z.of_nat (List.length (link_states self)),
         Z.of_nat (List.length (link_states self)), 0)).
Proof.
  intros Hall. cbv zeta.
  assert (Hall' : forall k s, dict_get k (link_states self) = Some s ->
                              util_ge (utilization s) (sleep_threshold self) = true).
  { intros k s Hs. apply Qle_bool_iff. eauto. }
  assert (Hnone : snd (_link_management self) = None)
    by now apply all_busy_manage_links.
  assert (Hact : forall k s, dict_get k (link_states self) = Some s ->
                   dict_get k (link_states (fst (_link_management self)))
                   = Some (mkLinkState true (utilization s))).
  { intros k s Hs.
    destruct (manage_links_wakes k (utilization s) (dict_keys (link_states self)) self
                (fst (_link_management self))) as [H _]; [| | | |exact H].
    - eapply dict_get_keys; eassumption.
    - exists (active s). now rewrite link_state_eta.
    - eauto.
    - unfold _link_management in *.
      destruct (manage_links self (dict_keys (link_states self))) as [m r].
      cbn in Hnone. now subst r. }
  split; [exact Hnone|]. split; [exact Hact|].
  intros Hnd. rewrite calculate_energy_consumption_eq.
  destruct (link_management_frame self) as (_ & _ & _ & _ & Fk). cbv zeta in Fk.
  assert (Hlen : List.length (link_states (fst (_link_management self)))
                 = List.length (link_states self)).
  { unfold dict_keys in Fk. apply (f_equal (@List.length string)) in Fk.
    now rewrite !length_map in Fk. }
  destruct (count_all_active (link_states (fst (_link_management self)))) as [C1 C2].
  { intros k s' Hin. rewrite <- Fk in Hnd.
    pose proof (nodup_keys_get _ _ _ Hnd Hin) as Hg.
    assert (Hk : In k (dict_keys (link_states self))).
    { rewrite <- Fk. eapply dict_get_keys; eassumption. }
    apply dict_keys_get in Hk. destruct Hk as [s Hs].
    rewrite (Hact k s Hs) in Hg. now injection Hg as <-. }
  rewrite C1, C2, Hlen. rewrite Z.mul_0_r, Z.add_0_r. reflexivity.
Qed.

Lemma all_busy_all_active_witness :
  let self :=
    _update_predictions (started [("uplink", mkEdge 1 3 "a" 4 3 "b");
                                  ("link_1", mkEdge 4 1 "c" (-1) 1 "d")])
      [mkPrediction (Some "uplink") (Some (1 # 2));
       mkPrediction (Some "link_1") (Some (1 # 5))] in
  snd (_link_management self) = None
  /\ dict_get "uplink" (link_states (fst (_link_management self)))
     = Some (mkLinkState true (1 # 2))
  /\ calculate_energy_consumption (fst (_link_management self)) = (200, 2, 0).
Proof.
  cbv zeta.
  match goal with |- snd (_link_management ?m) = _ /\ _ =>
    destruct (all_busy_all_active m) as (H1 & H2 & H3) end.
  - intros k s Hs. apply Qle_bool_iff.
    destruct (String.eqb k "uplink") eqn:E1; [apply String.eqb_eq in E1; subst k|];
      [vm_compute in Hs; injection Hs as <-; reflexivity|].
    destruct (String.eqb k "link_1") eqn:E2; [apply String.eqb_eq in E2; subst k|];
      [vm_compute in Hs; injection Hs as <-; reflexivity|].
    cbn in Hs. rewrite E1, E2 in Hs. discriminate.
  - split; [exact H1|]. split.
    + apply (H2 "uplink" (mkLinkState true (1 # 2))). vm_compute. reflexivity.
    + apply H3. repeat constructor; cbn; intuition discriminate.
Defined.

(** ** Energy figures and the logged summary *)

Lemma count_partition (ls : dict link_state) :
  count_active ls + count_sleeping ls = Z.of_nat (List.length ls)
  /\ 0 <= count_active ls /\ 0 <= count_sleeping ls.
Proof.
  unfold count_active, count_sleeping.
  induction ls as [|[k s] ls IH]; cbn [filter List.length]; [cbn; lia|].
  destruct (active s); cbn [negb List.length]; rewrite !Nat2Z.inj_succ; lia.
Qed.

(** X6 — the computed figures always add up: ACTIVE plus SLEEPING is the
    number of links, the energy is 10 per link plus 90 per ACTIVE link, and so
    it lies between 10 and 100 times the number of links, reaching the upper
    bound only with no SLEEPING link and the lower bound only with no ACTIVE
    link. *)
Theorem energy_figures_add_up (self : EnergyManager) :
  let n := Z.of_nat (List.length (link_states self)) in
  exists energy active_links sleeping_links,
    calculate_energy_consumption self = (energy, active_links, sleeping_links)
    /\ active_links + sleeping_links = n
    /\ 0 <= active_links /\ 0 <= sleeping_links
    /\ energy = 10 * n + 90 * active_links
    /\ 10 * n <= energy <= 100 * n
    /\ (energy = 100 * n <-> sleeping_links = 0)
    /\ (energy = 10 * n <-> active_links = 0).
Proof.
  cbv zeta. rewrite calculate_energy_consumption_eq.
  destruct (count_partition (link_states self)) as (H1 & H2 & H3).
  do 3 eexists. split; [reflexivity|]. repeat split; lia.
Qed.

Lemma last_item_app l x : last_item (l ++ [x]) = Ok x.
Proof. unfold last_item. now rewrite rev_app_distr. Qed.

(** X7 — [log_metrics], which [_metrics_collector] calls after appending,
    never fails there and reports the energy and ACTIVE count just recorded;
    on a manager without any record it raises [IndexError].  The SLEEPING
    figure it reports is 39 minus the ACTIVE count, which is the real number of
    SLEEPING links exactly when the topology has 39 links. *)
Theorem logged_summary (self : EnergyManager) (hour : Z) :
  let active_links := count_active (link_states self) in
  log_metrics (_metrics_collector self hour)
  = Ok (100 * active_links + 10 * count_sleeping (link_states self),
        active_links, 39 - active_links)
  /\ (39 - active_links = count_sleeping (link_states self)
      <-> List.length (link_states self) = 39%nat)
  /\ (hourly_energy (metrics self) = [] -> log_metrics self = Raise IndexError).
Proof.
  cbv zeta. split; [|split].
  - unfold log_metrics. rewrite metrics_collector_eq. cbn [metrics hourly_energy
      active_links_history]. rewrite !last_item_app. reflexivity.
  - destruct (count_partition (link_states self)) as (H1 & _). lia.
  - intros H. unfold log_metrics. now rewrite H.
Qed.

Lemma logged_summary_witness :
  log_metrics init_manager = Raise IndexError
  /\ log_metrics (_metrics_collector (fst (_link_management default_state)) 0)
     = Ok (2010, 18, 21).
Proof.
  split.
  - destruct (logged_summary init_manager 0) as (_ & _ & H). apply H. reflexivity.
  - destruct (logged_summary (fst (_link_management default_state)) 0) as (H & _).
    rewrite H. vm_compute. reflexivity.
Defined.

(** ** Export *)

Lemma write_rows_from (T : list Z) : forall (E A pT pE pA : list Z),
  List.length pE = List.length pT ->
  List.length pA = List.length pT ->
  write_rows (mkMetrics (pE ++ E) (pA ++ A) (pT ++ T)) (seq (List.length pT) (List.length T))
  = (map (fun '(t, (e, a)) => [py_str t; py_str e; py_str a]) (combine T (combine E A)),
     (List.length T <=? List.length E)%nat && (List.length T <=? List.length A)%nat).
Proof.
  induction T as [|t T IH]; intros E A pT pE pA HE HA; [reflexivity|].
  cbn [List.length seq write_rows timestamp hourly_energy active_links_history].
  rewrite nth_error_app2, Nat.sub_diag by lia. cbn [nth_error].
  rewrite (nth_error_app2 pE) by lia. rewrite HE, Nat.sub_diag.
  destruct E as [|e E]; [reflexivity|]. cbn [nth_error].
  rewrite (nth_error_app2 pA) by lia. rewrite HA, Nat.sub_diag.
  destruct A as [|a A]; cbn [nth_error].
  - cbn. now rewrite andb_false_r.
  - specialize (IH E A (pT ++ [t]) (pE ++ [e]) (pA ++ [a]))%list.
    rewrite !length_app in IH. cbn [List.length] in IH.
    rewrite <- !app_assoc in IH. cbn [app] in IH.
    replace (List.length pT + 1)%nat with (S (List.length pT)) in IH by lia.
    rewrite IH by lia. reflexivity.
Qed.

Lemma export_metrics_eq self :
  export_metrics self
  = (["Hour"; "Energy_W"; "Active_Links"] :: metric_rows (metrics self),
     (List.length (timestamp (metrics self)) <=? List.length (hourly_energy (metrics self)))%nat
     && (List.length (timestamp (metrics self))
         <=? List.length (active_links_history (metrics self)))%nat).
Proof.
  unfold export_metrics, metric_rows. destruct (metrics self) as [E A T].
  cbn [timestamp hourly_energy active_links_history].
  pose proof (write_rows_from T E A [] [] [] eq_refl eq_refl) as H.
  cbn [app List.length] in H. now rewrite H.
Qed.

Lemma export_writes_rows_helper self :
  fst (export_metrics self) = ["Hour"; "Energy_W"; "Active_Links"] :: metric_rows (metrics self)
  /\ snd (export_metrics self)
     = ((List.length (timestamp (metrics self))
         <=? List.length (hourly_energy (metrics self)))%nat
        && (List.length (timestamp (metrics self))
            <=? List.length (active_links_history (metrics self)))%nat)
  /\ List.length (metric_rows (metrics self))
     = Nat.min (List.length (timestamp (metrics self)))
         (Nat.min (List.length (hourly_energy (metrics self)))
                  (List.length (active_links_history (metrics self)))).
Proof.
  rewrite export_metrics_eq. cbn [fst snd].
  split; [reflexivity|]. split; [reflexivity|].
  unfold metric_rows. now rewrite length_map, !length_combine.
Qed.

(** X8 — [export_metrics] writes the header and then one row per index at
    which all three metric lists have an element, in order; it reports success
    exactly when neither the energy list nor the ACTIVE-count list is shorter
    than the list of cycle indices, and otherwise stops at the first missing
    element with the rows written so far.  Every field of a data row reads back
    with [int()] as the recorded number. *)
Theorem export_writes_recorded_rows (self : EnergyManager) :
  let m := metrics self in
  let recorded := combine (timestamp m) (combine (hourly_energy m) (active_links_history m)) in
  fst (export_metrics self) = ["Hour"; "Energy_W"; "Active_Links"] :: metric_rows m
  /\ snd (export_metrics self)
     = ((List.length (timestamp m) <=? List.length (hourly_energy m))%nat
        && (List.length (timestamp m) <=? List.length (active_links_history m))%nat)
  /\ List.length (metric_rows m)
     = Nat.min (List.length (timestamp m))
         (Nat.min (List.length (hourly_energy m)) (List.length (active_links_history m)))
  /\ map (map py_int) (metric_rows m)
     = map (fun '(t, (e, a)) => [Some t; Some e; Some a]) recorded.
Proof.
  cbv zeta. rewrite export_metrics_eq. cbn [fst snd].
  split; [reflexivity|]. split; [reflexivity|]. split.
  - unfold metric_rows. now rewrite length_map, !length_combine.
  - unfold metric_rows. rewrite map_map. apply map_ext.
    intros [t [e a]]. cbn [map]. now rewrite !py_int_py_str.
Qed.

Lemma metrics_parallel_step self ev :
  metrics_parallel self -> metrics_parallel (fst (step self ev)).
Proof.
  unfold metrics_parallel. intros [H1 H2]. destruct ev as [ps| |hour]; cbn [step fst].
  - destruct (update_predictions_frame ps self) as (_ & _ & -> & _). auto.
  - destruct (link_management_frame self) as (_ & _ & F & _). cbv zeta in F.
    rewrite F. auto.
  - rewrite metrics_collector_eq. cbn. rewrite !length_app. cbn. lia.
Qed.

(** X9 — in every state reached from topology build the three metric lists
    have the same length, so an export there never fails and writes the header
    plus one row per collected cycle. *)
Theorem export_never_fails_on_reached_states
    (snapshot : dict edge) (evs : list event) (self : EnergyManager) (r : option exn) :
  run (started snapshot) evs = (self, r) ->
  metrics_parallel self
  /\ snd (export_metrics self) = true
  /\ List.length (fst (export_metrics self)) = S (List.length (timestamp (metrics self))).
Proof.
  intros Hrun.
  assert (Hp : metrics_parallel self).
  { replace self with (fst (run (started snapshot) evs)) by now rewrite Hrun.
    apply (run_invariant metrics_parallel).
    - intros m ev _. apply metrics_parallel_step.
    - unfold metrics_parallel, started.
      destruct (load_topology_fields init_manager (Ryu.mkBody (Some snapshot)))
        as (_ & _ & Hm).
      cbv zeta in Hm. rewrite Hm. cbn. auto. }
  split; [exact Hp|]. destruct Hp as [H1 H2].
  destruct (export_writes_rows_helper self) as (E1 & E2 & E3).
  rewrite E1, E2, H1, H2, !Nat.leb_refl. split; [reflexivity|].
  cbn [List.length]. rewrite E3, H1, H2, !Nat.min_id. reflexivity.
Qed.

Lemma export_never_fails_on_reached_states_witness :
  let self := fst (run (started Ryu._build_topology) [Manage; Collect 0; Manage; Collect 1]) in
  snd (export_metrics self) = true
  /\ fst (export_metrics self)
     = [["Hour"; "Energy_W"; "Active_Links"]; ["0"; "2010"; "18"]; ["1"; "2010"; "18"]].
Proof.
  cbv zeta.
  destruct (export_never_fails_on_reached_states Ryu._build_topology
              [Manage; Collect 0; Manage; Collect 1]
              (fst (run (started Ryu._build_topology) [Manage; Collect 0; Manage; Collect 1]))
              None ltac:(vm_compute; reflexivity)) as (_ & H & _).
  split; [exact H|]. vm_compute. reflexivity.
Defined.

(** ** The export schedule of the simulation loop *)

Lemma simulated_hour_parallel self hour predictions self2 :
  simulated_hour self hour predictions = (self2, None) ->
  metrics_parallel self ->
  metrics_parallel self2
  /\ List.length (timestamp (metrics self2)) = S (List.length (timestamp (metrics self))).
Proof.
  intros Hrun [H1 H2].
  destruct (simulated_hour_records _ _ _ _ Hrun) as (E1 & E2 & E3).
  unfold metrics_parallel. rewrite E1, E2, E3, !length_app. cbn [List.length]. lia.
Qed.

(** X10 — the simulation loop writes a file exactly at the hours that are
    positive multiples of 6, after that hour's metrics are collected; with the
    metric lists in step at the start, each file is written without failure and
    holds the header plus one row for every cycle recorded so far, the current
    hour included (so the file written at hour 6 of a run started at hour 0 on
    a fresh manager has 8 lines). *)
Theorem export_schedule (fetched : list (list prediction)) :
  forall (self : EnergyManager) (hour : Z) (self' : EnergyManager),
    metrics_parallel self ->
    simulation_loop self hour fetched = (self', None) ->
    map fst (simulation_exports self hour fetched)
    = filter (fun h => (0 <? h) && (h mod 6 =? 0))
        (map (fun i => hour + Z.of_nat i) (seq 0 (List.length fetched)))
    /\ (forall h file,
           In (h, file) (simulation_exports self hour fetched) ->
           snd file = true
           /\ Z.of_nat (List.length (fst file))
              = 1 + Z.of_nat (List.length (timestamp (metrics self))) + (h - hour + 1)).
Proof.
  induction fetched as [|ps fetched IH]; intros self hour self' Hp Hrun.
  - split; [reflexivity|]. intros h file [].
  - cbn [simulation_loop] in Hrun. cbn [simulation_exports List.length].
    rewrite <- hours_from. cbn [filter].
    replace (hour + Z.of_nat 0) with hour by lia.
    destruct (simulated_hour self hour ps) as [self1 [e|]] eqn:E; [discriminate|].
    destruct (simulated_hour_parallel _ _ _ _ E Hp) as [Hp1 Hlen].
    destruct (IH self1 (hour + 1) self' Hp1 Hrun) as [I1 I2].
    assert (Hfile : snd (export_metrics self1) = true
                    /\ Z.of_nat (List.length (fst (export_metrics self1)))
                       = 1 + Z.of_nat (List.length (timestamp (metrics self))) + 1).
    { destruct (export_writes_rows_helper self1) as (E1 & E2 & E3).
      destruct Hp1 as [P1 P2].
      rewrite E1, E2, P1, P2, !Nat.leb_refl. split; [reflexivity|].
      cbn [List.length]. rewrite E3, P1, P2, !Nat.min_id, Hlen. lia. }
    split.
    + rewrite map_app, I1.
      destruct ((0 <? hour) && (hour mod 6 =? 0)); reflexivity.
    + intros h file Hin. apply in_app_or in Hin. destruct Hin as [Hin|Hin].
      * destruct ((0 <? hour) && (hour mod 6 =? 0)); [|destruct Hin].
        destruct Hin as [[= <- <-]|[]]. destruct Hfile as [F1 F2].
        split; [exact F1|]. rewrite F2. lia.
      * destruct (I2 h file Hin) as [F1 F2]. split; [exact F1|].
        rewrite F2, Hlen. lia.
Qed.

Lemma export_schedule_witness :
  let fetched := repeat ([] : list prediction) 13 in
  map (fun '(h, file) => (h, List.length (fst file), snd file))
      (simulation_exports default_state 0 fetched)
  = [(6, 8%nat, true); (12, 14%nat, true)]
  /\ map fst (simulation_exports default_state 0 fetched) = [6; 12].
Proof.
  cbv zeta.
  destruct (export_schedule (repeat [] 13) default_state 0
              (fst (simulation_loop default_state 0 (repeat [] 13)))) as [H _].
  - split; reflexivity.
  - vm_compute. reflexivity.
  - split; [vm_compute; reflexivity|]. rewrite H. vm_compute. reflexivity.
Defined.

(** ** A failed forecast fetch *)

(** X11 — [_get_predictions] yields the empty list when the request raises,
    when the status is not 200 and when a 200 reply has no ['predictions']
    member; the hour then goes on with the utilizations it had: the pass runs
    on the unchanged state and no utilization differs at the end of the hour. *)
Theorem failed_fetch_keeps_utilizations (self : EnergyManager) (hour : Z) (f : fetch) :
  f = FetchException
  \/ (exists status_code ps, f = Fetched status_code ps /\ status_code <> 200)
  \/ (exists status_code, f = Fetched status_code None) ->
  let after := fst (simulated_hour self hour (_get_predictions f)) in
  _get_predictions f = []
  /\ link_states after = link_states (fst (_link_management self))
  /\ (forall k, option_map utilization (dict_get k (link_states after))
                = option_map utilization (dict_get k (link_states self))).
Proof.
  intros Hf. cbv zeta.
  assert (He : _get_predictions f = []).
  { destruct Hf as [->|[(st & ps & -> & Hst)|(st & ->)]]; cbn; [reflexivity| |].
    - apply Z.eqb_neq in Hst. now rewrite Hst.
    - now destruct (st =? 200). }
  rewrite He. split; [reflexivity|].
  assert (Hs : link_states (fst (simulated_hour self hour []))
               = link_states (fst (_link_management self))).
  { unfold simulated_hour. destruct (_link_management self) as [m [e|]]; [reflexivity|].
    cbn [fst]. apply metrics_collector_frame. }
  split; [exact Hs|]. intros k. rewrite Hs. apply manage_links_utilization.
Qed.

Lemma failed_fetch_keeps_utilizations_witness :
  _get_predictions (Fetched 503 (Some [mkPrediction (Some "link_1") (Some (1 # 2))])) = []
  /\ option_map utilization
       (dict_get "link_1"
          (link_states
             (fst (simulated_hour default_state 0
                     (_get_predictions
                        (Fetched 503 (Some [mkPrediction (Some "link_1") (Some (1 # 2))])))))))
     = option_map utilization (dict_get "link_1" (link_states default_state)).
Proof.
  destruct (failed_fetch_keeps_utilizations default_state 0
              (Fetched 503 (Some [mkPrediction (Some "link_1") (Some (1 # 2))])))
    as (H1 & _ & H3).
  - right. left. exists 503, (Some [mkPrediction (Some "link_1") (Some (1 # 2))]).
    split; [reflexivity|discriminate].
  - split; [exact H1|apply H3].
Defined.

(** ** Links whose test is the state of a table sibling *)

Lemma host_link_answer k x y self :
  host_table_link (link_index_to_edge self) k x y ->
  _is_safe_to_sleep self x = sibling_answer self y.
Proof.
  intros (Hxy & Ht & (ex & Hx & Hdx) & Hk).
  unfold _is_safe_to_sleep, sibling_answer. rewrite Hx, Hdx.
  replace (- k <? 0) with true by (symmetry; apply Z.ltb_lt; lia).
  rewrite Z.opp_involutive. unfold _is_safe_to_sleep_host_link.
  assert (Eyx : String.eqb y x = false) by (apply String.eqb_neq; congruence).
  assert (Exy : String.eqb x y = false) by now apply String.eqb_neq.
  destruct Ht as [-> | ->]; unfold str_in; cbn [existsb any_other_active];
    rewrite ?String.eqb_refl, ?Exy, ?Eyx; cbn [orb negb];
    destruct (subscript (link_states self) y) as [s|e]; cbn [bind];
    try reflexivity; now destruct (active s).
Qed.

Lemma aggregation_link_answer x y self :
  aggregation_table_link (link_index_to_edge self) x y ->
  _is_safe_to_sleep self x = sibling_answer self y.
Proof.
  intros (Hxy & (sw & Ht) & (ex & Hx & Hdx)).
  unfold _is_safe_to_sleep, sibling_answer. rewrite Hx.
  replace (dpid_b ex <? 0) with false by (symmetry; apply Z.ltb_ge; lia).
  unfold agg_switch_to_core_links in Ht. cbn [In] in Ht.
  repeat match goal with
         | H : _ \/ _ |- _ => destruct H as [H|H]
         | H : False |- _ => destruct H
         | H : (_, _) = (_, _) |- _ => injection H as <- <- <-
         end;
    match goal with
    | |- context [link_number ?l] =>
        let v := eval vm_compute in (link_number l) in
        change (link_number l) with v
    end;
    match goal with
    | |- context [str_in ?l core_core_ids] =>
        let v := eval vm_compute in (str_in l core_core_ids) in
        change (str_in l core_core_ids) with v
    end;
    cbn [bind]; cbv iota;
    match goal with
    | |- context [(?a <=? ?b) && (?c <=? ?d)] =>
        let v := eval vm_compute in ((a <=? b) && (c <=? d)) in
        change ((a <=? b) && (c <=? d)) with v
    end;
    cbv iota; unfold _is_safe_to_sleep_aggregation_core_link, agg_switch_to_core_links;
    cbn [agg_search any_other_active str_in existsb String.eqb Ascii.eqb Bool.eqb orb andb];
    destruct (subscript (link_states self) _) as [s|e]; cbn [bind];
    try reflexivity; now destruct (active s).
Qed.

Lemma sibling_answer_true self y :
  sibling_answer self y = Ok true -> is_active self y = true.
Proof.
  unfold sibling_answer, subscript, is_active.
  destruct (dict_get y (link_states self)) as [s|]; cbn [bind]; [|discriminate].
  now intros [= ->].
Qed.

Lemma sibling_answer_missing self y :
  dict_get y (link_states self) = None -> sibling_answer self y = Raise (KeyError y).
Proof. unfold sibling_answer, subscript. now intros ->. Qed.

(** Two links each of which may sleep only while the other is ACTIVE are
    never both put to sleep. *)
Lemma siblings_keep_one index x y self j :
  x <> y ->
  (forall m, link_index_to_edge m = index ->
             _is_safe_to_sleep m x = sibling_answer m y
             /\ _is_safe_to_sleep m y = sibling_answer m x) ->
  link_index_to_edge self = index
  /\ (is_active self x = true \/ is_active self y = true) ->
  link_index_to_edge (fst (manage_link self j)) = index
  /\ (is_active (fst (manage_link self j)) x = true
      \/ is_active (fst (manage_link self j)) y = true).
Proof.
  intros Hxy Hsafe (Hi & Hact).
  destruct (manage_link_frame self j) as (Fi & _). split; [congruence|].
  destruct (Hsafe self Hi) as [Sx Sy].
  destruct (manage_link_outcome self j) as
    [ | s H _ _ | | | s H _ _ Hs | | ]; cbn [fst]; try assumption; unfold is_active.
  - destruct (string_dec j x) as [->|Hjx]; [left; now rewrite with_active_get_same|].
    destruct (string_dec j y) as [->|Hjy]; [right; now rewrite with_active_get_same|].
    now rewrite !with_active_get_other.
  - destruct (string_dec j x) as [->|Hjx].
    + right. rewrite with_active_get_other by assumption.
      rewrite Sx in Hs. exact (sibling_answer_true _ _ Hs).
    + destruct (string_dec j y) as [->|Hjy].
      * left. rewrite with_active_get_other by congruence.
        rewrite Sy in Hs. exact (sibling_answer_true _ _ Hs).
      * now rewrite !with_active_get_other.
Qed.

Lemma aggregation_pair_links index x y :
  aggregation_pair index x y ->
  aggregation_table_link index x y /\ aggregation_table_link index y x.
Proof.
  intros (Hxy & (sw & Ht) & Hx & Hy). split.
  - split; [assumption|]. split; [exists sw; assumption|assumption].
  - split; [congruence|]. split; [exists sw; tauto|assumption].
Qed.

(** X12 — a switch-to-switch link that the aggregation table lists is safe
    to sleep exactly when its table sibling is ACTIVE (the lookup of a sibling
    without a state raises [KeyError]); hence of a table pair both held by the
    topology map as switch-to-switch links at least one is ACTIVE in every
    state reached from topology build. *)
Theorem aggregation_pair_keeps_one_active :
  (forall self x y,
      aggregation_table_link (link_index_to_edge self) x y ->
      _is_safe_to_sleep self x = sibling_answer self y)
  /\ (forall snapshot x y evs self r,
         aggregation_pair (link_index_to_edge (started snapshot)) x y ->
         run (started snapshot) evs = (self, r) ->
         is_active self x = true \/ is_active self y = true).
Proof.
  split; [intros self x y; apply aggregation_link_answer|].
  intros snapshot x y evs self r Hp Hrun.
  replace self with (fst (run (started snapshot) evs)) by now rewrite Hrun.
  set (index := link_index_to_edge (started snapshot)) in *.
  pose proof Hp as (Hxy & _ & (ex & Hx & _) & _).
  destruct (aggregation_pair_links _ _ _ Hp) as [Lx Ly].
  enough (H : link_index_to_edge (fst (run (started snapshot) evs)) = index
              /\ (is_active (fst (run (started snapshot) evs)) x = true
                  \/ is_active (fst (run (started snapshot) evs)) y = true)) by apply H.
  apply (run_invariant
           (fun m => link_index_to_edge m = index
                     /\ (is_active m x = true \/ is_active m y = true))).
  - intros m ev _.
    apply (step_active_invariant
             (fun m => link_index_to_edge m = index
                       /\ (is_active m x = true \/ is_active m y = true))).
    + intros a b Hi _ Hact [H1 H2]. split; [congruence|]. now rewrite !Hact.
    + intros a j. apply siblings_keep_one; [assumption|].
      intros m0 Hm0. subst index. rewrite <- Hm0 in Lx, Ly.
      split; now apply aggregation_link_answer.
  - split; [reflexivity|]. left. unfold is_active. rewrite started_get.
    apply dict_get_keys, str_in_In in Hx. fold index. now rewrite Hx.
Qed.

Lemma link_29_30_pair :
  aggregation_pair (link_index_to_edge (started Ryu._build_topology)) "link_29" "link_30".
Proof.
  split; [discriminate|]. split; [exists 6; left; cbn; tauto|].
  split; eexists; (split; [vm_compute; reflexivity|cbn; lia]).
Defined.

Lemma aggregation_pair_keeps_one_active_witness :
  _is_safe_to_sleep default_state "link_29" = sibling_answer default_state "link_30"
  /\ (is_active (fst (run (started Ryu._build_topology) [Manage; Manage])) "link_29" = true
      \/ is_active (fst (run (started Ryu._build_topology) [Manage; Manage])) "link_30" = true).
Proof.
  destruct aggregation_pair_keeps_one_active as [H1 H2]. split.
  - apply H1. apply (aggregation_pair_links _ _ _ link_29_30_pair).
  - apply (H2 Ryu._build_topology "link_29" "link_30" [Manage; Manage] _ None
              link_29_30_pair).
    vm_compute. reflexivity.
Defined.

(** ** Links that never sleep, links that always may *)

Lemma never_safe_stays_active index link_id self k :
  (forall m, link_index_to_edge m = index -> _is_safe_to_sleep m link_id <> Ok true) ->
  link_index_to_edge self = index /\ is_active self link_id = true ->
  link_index_to_edge (fst (manage_link self k)) = index
  /\ is_active (fst (manage_link self k)) link_id = true.
Proof.
  intros Hu [Hi Ha]. destruct (manage_link_frame self k) as (F1 & _).
  split; [congruence|].
  destruct (string_dec k link_id) as [->|Hne].
  - destruct (manage_link_outcome self link_id) as
      [ | s H _ _ | | | s H _ _ Hsafe | | ]; cbn [fst]; try assumption.
    + unfold is_active. now rewrite with_active_get_same.
    + now destruct (Hu self Hi).
  - unfold is_active in *. now rewrite manage_link_get_other.
Qed.

Lemma unlisted_host_link_answer self link_id :
  unlisted_host_link (link_index_to_edge self) link_id = true ->
  _is_safe_to_sleep self link_id = Ok false.
Proof.
  unfold unlisted_host_link, _is_safe_to_sleep, _is_safe_to_sleep_host_link.
  destruct (dict_get link_id (link_index_to_edge self)) as [e|]; [|discriminate].
  intros H. apply andb_prop in H. destruct H as [H1 H2]. rewrite H1.
  destruct (dict_get (host_name (- dpid_b e)) host_to_links) as [links|]; [|reflexivity].
  now rewrite H2.
Qed.

(** X13 — a host link whose host has no entry in the evaluator's host table,
    or whose entry does not list the link, is never safe to sleep; it is ACTIVE
    in every state reached from topology build, whatever its utilization. *)
Theorem unlisted_host_link_never_sleeps (link_id : string) :
  (forall self,
      unlisted_host_link (link_index_to_edge self) link_id = true ->
      _is_safe_to_sleep self link_id = Ok false)
  /\ (forall snapshot evs self r,
         unlisted_host_link (link_index_to_edge (started snapshot)) link_id = true ->
         run (started snapshot) evs = (self, r) ->
         is_active self link_id = true).
Proof.
  split; [intros self; apply unlisted_host_link_answer|].
  intros snapshot evs self r Hu Hrun.
  replace self with (fst (run (started snapshot) evs)) by now rewrite Hrun.
  set (index := link_index_to_edge (started snapshot)) in *.
  enough (H : link_index_to_edge (fst (run (started snapshot) evs)) = index
              /\ is_active (fst (run (started snapshot) evs)) link_id = true) by apply H.
  apply (run_invariant
           (fun m => link_index_to_edge m = index /\ is_active m link_id = true)).
  - intros m ev _.
    apply (step_active_invariant
             (fun m => link_index_to_edge m = index /\ is_active m link_id = true)).
    + intros a b Hi _ Hact [H1 H2]. split; [congruence|]. now rewrite Hact.
    + intros a j. apply never_safe_stays_active.
      intros m0 Hm0. rewrite unlisted_host_link_answer; [discriminate|].
      now rewrite Hm0.
  - split; [reflexivity|]. unfold is_active. rewrite started_get. fold index.
    unfold unlisted_host_link in Hu.
    destruct (dict_get link_id index) as [e|] eqn:E; [|discriminate].
    apply dict_get_keys, str_in_In in E. now rewrite E.
Qed.

Lemma unlisted_host_link_never_sleeps_witness :
  let snapshot :=
    [("link_40", mkEdge 4 9 "a" (-13) 1 "b"); ("link_41", mkEdge 5 9 "c" (-13) 1 "d");
     ("link_2", mkEdge 5 1 "e" (-7) 1 "f")] in
  _is_safe_to_sleep (started snapshot) "link_40" = Ok false
  /\ is_active (fst (run (started snapshot) [Manage; Manage])) "link_41" = true
  /\ is_active (fst (run (started snapshot) [Manage; Manage])) "link_2" = true.
Proof.
  cbv zeta.
  match goal with |- context [started ?s] => set (snapshot := s) end.
  split; [|split].
  - apply (proj1 (unlisted_host_link_never_sleeps "link_40")). vm_compute. reflexivity.
  - apply (proj2 (unlisted_host_link_never_sleeps "link_41") snapshot [Manage; Manage] _
             (snd (run (started snapshot) [Manage; Manage]))).
    + vm_compute. reflexivity.
    + now destruct (run (started snapshot) [Manage; Manage]).
  - apply (proj2 (unlisted_host_link_never_sleeps "link_2") snapshot [Manage; Manage] _
             (snd (run (started snapshot) [Manage; Manage]))).
    + vm_compute. reflexivity.
    + now destruct (run (started snapshot) [Manage; Manage]).
Defined.

Lemma agg_search_unlisted self link_id items :
  forallb (fun '(_, links) => negb (str_in link_id links)) items = true ->
  agg_search self link_id items = Ok true.
Proof.
  induction items as [|[sw links] items IH]; cbn [forallb agg_search]; [reflexivity|].
  intros H. apply andb_prop in H. destruct H as [H1 H2].
  apply negb_true_iff in H1. rewrite H1. auto.
Qed.

Lemma unconditional_link_answer self link_id :
  unconditional_link (link_index_to_edge self) link_id = true ->
  _is_safe_to_sleep self link_id = Ok true.
Proof.
  unfold unconditional_link, unlisted_aggregation_link, _is_safe_to_sleep,
    _is_safe_to_sleep_aggregation_core_link, is_core_mesh, is_agg_core.
  destruct (dict_get link_id (link_index_to_edge self)) as [e|]; [|discriminate].
  intros H. apply orb_prop in H. destruct H as [H|H].
  - apply andb_prop in H. destruct H as [H1 H2].
    apply negb_true_iff in H1. now rewrite H1, H2.
  - apply andb_prop in H. destruct H as [H H4].
    apply andb_prop in H. destruct H as [H H3].
    apply andb_prop in H. destruct H as [H1 H2].
    apply negb_true_iff in H1, H2. rewrite H1, H2.
    destruct (link_number link_id) as [n|err]; [|discriminate]. cbn [bind].
    rewrite H3. now apply agg_search_unlisted.
Qed.

(** A link that is SLEEPING with utilization [u] below the threshold. *)
Lemma idle_asleep_manage_link link_id u self j :
  dict_get link_id (link_states self) = Some (mkLinkState false u)
  /\ util_lt u (sleep_threshold self) = true ->
  dict_get link_id (link_states (fst (manage_link self j))) = Some (mkLinkState false u)
  /\ util_lt u (sleep_threshold (fst (manage_link self j))) = true.
Proof.
  intros [Hg Hlt]. destruct (manage_link_frame self j) as (_ & -> & _).
  split; [|assumption].
  destruct (string_dec j link_id) as [->|Hne]; [|now rewrite manage_link_get_other].
  destruct (manage_link_outcome self link_id) as
    [ | s H Ha Hge | | | s H Ha _ _ | | ]; cbn [fst]; try assumption;
    rewrite Hg in H; injection H as <-; cbn [active utilization] in *.
  - rewrite util_lt_ge, Hge in Hlt. discriminate.
  - discriminate.
Qed.

Lemma manage_links_sleeps index link_id u : forall ids self self',
  (forall m, link_index_to_edge m = index -> _is_safe_to_sleep m link_id = Ok true) ->
  link_index_to_edge self = index ->
  In link_id ids ->
  (exists a, dict_get link_id (link_states self) = Some (mkLinkState a u)) ->
  util_lt u (sleep_threshold self) = true ->
  manage_links self ids = (self', None) ->
  dict_get link_id (link_states self') = Some (mkLinkState false u).
Proof.
  induction ids as [|k ids IH]; intros self self' Hsafe Hi Hin [a Hget] Hlt Hrun;
    [destruct Hin|].
  cbn [manage_links] in Hrun.
  destruct (manage_link_frame self k) as (Fi & Fthr & _).
  destruct (string_dec k link_id) as [->|Hne].
  - assert (Hb : dict_get link_id (link_states (fst (manage_link self link_id)))
                 = Some (mkLinkState false u)
                 /\ util_lt u (sleep_threshold (fst (manage_link self link_id))) = true).
    { split; [|now rewrite Fthr]. clear Hrun Fi Fthr.
      pose proof (Hsafe self Hi) as Hs.
      destruct (manage_link_outcome self link_id) as
        [ H | s H Ha Hge | s H Ha _ | s H Ha Hn | s H Ha _ _ | s H Ha _ Hu | s e H Ha _ Hr ];
        cbn [fst]; rewrite Hget in H; try discriminate; injection H as <-;
        cbn [active utilization] in *; try congruence.
      - rewrite util_lt_ge, Hge in Hlt. discriminate.
      - exact (with_active_get_same self link_id false (mkLinkState a u)). }
    destruct (manage_link self link_id) as [self1 [e|]]; [discriminate|].
    cbn [fst] in Hb.
    replace self' with (fst (manage_links self1 ids)) by now rewrite Hrun.
    apply (manage_links_invariant
             (fun m => dict_get link_id (link_states m) = Some (mkLinkState false u)
                       /\ util_lt u (sleep_threshold m) = true)); [|assumption].
    intros m j. apply idle_asleep_manage_link.
  - destruct Hin as [Hin|Hin]; [congruence|].
    pose proof (manage_link_get_other self k link_id Hne) as Hsame.
    destruct (manage_link self k) as [self1 [e|]]; [discriminate|].
    cbn [fst] in *. apply (IH self1); try assumption.
    + congruence.
    + exists a. now rewrite Hsame.
    + now rewrite Fthr.
Qed.

(** X14 — a switch-to-switch link that is one of the three core-mesh
    identifiers, or whose identifier number lies in 25..36 without the
    aggregation table listing it, is safe to sleep whatever the other links'
    states are; after every pass that completes, such a link is SLEEPING if its
    utilization is below the threshold. *)
Theorem unconditional_links_sleep_when_idle (link_id : string) :
  (forall self,
      unconditional_link (link_index_to_edge self) link_id = true ->
      _is_safe_to_sleep self link_id = Ok true)
  /\ (forall self self' s,
         unconditional_link (link_index_to_edge self) link_id = true ->
         dict_get link_id (link_states self) = Some s ->
         (utilization s < sleep_threshold self)%Q ->
         _link_management self = (self', None) ->
         dict_get link_id (link_states self') = Some (mkLinkState false (utilization s))).
Proof.
  split; [intros self; apply unconditional_link_answer|].
  intros self self' s Hu Hs Hlt Hrun.
  apply (manage_links_sleeps (link_index_to_edge self) link_id (utilization s)
           (dict_keys (link_states self)) self self').
  - intros m Hm. apply unconditional_link_answer. now rewrite Hm.
  - reflexivity.
  - eapply dict_get_keys; eassumption.
  - exists (active s). now rewrite link_state_eta.
  - now apply util_lt_iff.
  - exact Hrun.
Qed.

Lemma unconditional_links_sleep_when_idle_witness :
  let snapshot :=
    [("link_030", mkEdge 1 3 "a" 4 3 "b"); ("link_38", mkEdge 2 6 "c" 9 6 "d")] in
  _is_safe_to_sleep (started snapshot) "link_030" = Ok true
  /\ dict_get "link_030" (link_states (fst (_link_management (started snapshot))))
     = Some (mkLinkState false 0)
  /\ dict_get "link_38" (link_states (fst (_link_management (started snapshot))))
     = Some (mkLinkState false 0).
Proof.
  cbv zeta.
  match goal with |- context [started ?s] => set (snapshot := s) end.
  destruct (unconditional_links_sleep_when_idle "link_030") as [A1 A2].
  destruct (unconditional_links_sleep_when_idle "link_38") as [_ B2].
  split; [apply A1; vm_compute; reflexivity|]. split.
  - apply (A2 (started snapshot) _ (mkLinkState true 0)).
    + vm_compute. reflexivity.
    + vm_compute. reflexivity.
    + apply util_lt_iff. vm_compute. reflexivity.
    + vm_compute. reflexivity.
  - apply (B2 (started snapshot) _ (mkLinkState true 0)).
    + vm_compute. reflexivity.
    + vm_compute. reflexivity.
    + apply util_lt_iff. vm_compute. reflexivity.
    + vm_compute. reflexivity.
Defined.

(** ** A table sibling without a state *)

Lemma raising_link_stops_pass index link_id u e : forall ids self,
  (forall m, link_index_to_edge m = index ->
             dict_keys (link_states m) = dict_keys (link_states self) ->
             _is_safe_to_sleep m link_id = Raise e) ->
  link_index_to_edge self = index ->
  In link_id ids ->
  dict_get link_id (link_states self) = Some (mkLinkState true u) ->
  util_lt u (sleep_threshold self) = true ->
  snd (manage_links self ids) <> None.
Proof.
  induction ids as [|k ids IH]; intros self Hraise Hi Hin Hget Hlt; [destruct Hin|].
  cbn [manage_links].
  destruct (manage_link_frame self k) as (Fi & Fthr & _ & _ & Fk).
  destruct (string_dec k link_id) as [->|Hne].
  - pose proof (Hraise self Hi eq_refl) as Hr.
    destruct (manage_link_outcome self link_id) as
      [ H | s H Ha _ | s H Ha _ | s H _ Hn | s H _ _ Hs | s H _ _ Hs | s e' H _ _ _ ];
      rewrite Hget in H; try discriminate; injection H as <-;
      cbn [active utilization snd] in *; congruence.
  - destruct Hin as [Hin|Hin]; [congruence|].
    pose proof (manage_link_get_other self k link_id Hne) as Hsame.
    destruct (manage_link self k) as [self1 [e'|]]; [cbn; discriminate|].
    cbn [fst] in *. apply IH; try assumption.
    + intros m Hm Hk. apply Hraise; [assumption|congruence].
    + congruence.
    + congruence.
    + now rewrite Fthr.
Qed.

(** X15 — when a link that the host table or the aggregation table lists is
    evaluated while its table sibling has no state, the evaluator raises
    [KeyError] for the sibling; a pass that starts with such a link ACTIVE and
    below the threshold does not complete.  In particular the first pass after
    topology build is left by an exception whenever the served map holds one
    link of a table pair without the other. *)
Theorem missing_sibling_stops_pass (k : Z) (x y : string) :
  (forall self,
      host_table_link (link_index_to_edge self) k x y
      \/ aggregation_table_link (link_index_to_edge self) x y ->
      dict_get y (link_states self) = None ->
      _is_safe_to_sleep self x = Raise (KeyError y)
      /\ (forall s,
             dict_get x (link_states self) = Some s ->
             active s = true ->
             (utilization s < sleep_threshold self)%Q ->
             snd (_link_management self) <> None))
  /\ (forall snapshot,
         host_table_link (link_index_to_edge (started snapshot)) k x y
         \/ aggregation_table_link (link_index_to_edge (started snapshot)) x y ->
         dict_get y (link_index_to_edge (started snapshot)) = None ->
         snd (_link_management (started snapshot)) <> None).
Proof.
  assert (A : forall self,
    host_table_link (link_index_to_edge self) k x y
    \/ aggregation_table_link (link_index_to_edge self) x y ->
    _is_safe_to_sleep self x = sibling_answer self y).
  { intros self [H|H]; [eapply host_link_answer|apply aggregation_link_answer];
      eassumption. }
  assert (B : forall self,
    host_table_link (link_index_to_edge self) k x y
    \/ aggregation_table_link (link_index_to_edge self) x y ->
    dict_get y (link_states self) = None ->
    forall s, dict_get x (link_states self) = Some s ->
              active s = true ->
              (utilization s < sleep_threshold self)%Q ->
              snd (_link_management self) <> None).
  { intros self Hl Hy [a u] Hs Ha Hlt. cbn [active utilization] in *. subst a.
    apply (raising_link_stops_pass (link_index_to_edge self) x u (KeyError y)).
    - intros m Hm Hk. rewrite A by now rewrite Hm.
      apply sibling_answer_missing.
      destruct (dict_get y (link_states m)) as [sy|] eqn:E; [|reflexivity].
      apply dict_get_keys in E. rewrite Hk in E. apply dict_keys_get in E.
      destruct E as [v Hv]. congruence.
    - reflexivity.
    - eapply dict_get_keys; eassumption.
    - assumption.
    - now apply util_lt_iff. }
  split.
  - intros self Hl Hy. split; [|now apply B].
    rewrite A by assumption. now apply sibling_answer_missing.
  - intros snapshot Hl Hy.
    assert (Hx : In x (dict_keys (link_index_to_edge (started snapshot)))).
    { destruct Hl as [(_ & _ & (e & He & _) & _)|(_ & _ & (e & He & _))];
        eapply dict_get_keys; eassumption. }
    apply (B (started snapshot) Hl) with (s := mkLinkState true 0).
    + rewrite started_get.
      destruct (str_in y _) eqn:E; [|reflexivity].
      apply str_in_In, dict_keys_get in E. destruct E as [v Hv]. congruence.
    + rewrite started_get. apply str_in_In in Hx. now rewrite Hx.
    + reflexivity.
    + rewrite started_threshold. reflexivity.
Qed.

Lemma missing_sibling_stops_pass_witness :
  let snapshot := [("link_40", mkEdge 1 3 "a" 4 3 "b"); ("link_1", mkEdge 4 1 "c" (-1) 1 "d")] in
  _is_safe_to_sleep (started snapshot) "link_1" = Raise (KeyError "link_2")
  /\ snd (_link_management (started snapshot)) <> None.
Proof.
  cbv zeta.
  match goal with |- context [started ?s] => set (snapshot := s) end.
  assert (Hl : host_table_link (link_index_to_edge (started snapshot)) 1 "link_1" "link_2"
               \/ aggregation_table_link (link_index_to_edge (started snapshot))
                    "link_1" "link_2").
  { left. split; [discriminate|]. split; [left; vm_compute; reflexivity|].
    split; [eexists; split; vm_compute; reflexivity|lia]. }
  destruct (missing_sibling_stops_pass 1 "link_1" "link_2") as [H1 H2]. split.
  - apply (H1 (started snapshot) Hl). vm_compute. reflexivity.
  - apply (H2 snapshot Hl). vm_compute. reflexivity.
Defined.

(** ** The forecast service *)

Section PredictorFacts.
Import Predictor.

Lemma unique_In (l : list Z) x : In x (unique l) <-> In x l.
Proof.
  induction l as [|y l IH]; cbn [unique]; [tauto|].
  cbn [In]. rewrite filter_In, IH, negb_true_iff, Z.eqb_neq.
  destruct (Z.eq_dec y x); intuition congruence.
Qed.

Lemma unique_NoDup (l : list Z) : NoDup (unique l).
Proof.
  induction l as [|y l IH]; cbn [unique]; constructor.
  - rewrite filter_In, negb_true_iff, Z.eqb_neq. tauto.
  - now apply NoDup_filter.
Qed.

Lemma insert_sorted_In t l x : In x (insert_sorted t l) <-> x = t \/ In x l.
Proof.
  induction l as [|y l IH]; cbn [insert_sorted]; [cbn; intuition|].
  destruct (t <=? y); cbn [In]; [intuition|]. rewrite IH. intuition.
Qed.

Lemma insert_sorted_Sorted t l :
  Sorted.Sorted Z.lt l -> ~ In t l -> Sorted.Sorted Z.lt (insert_sorted t l).
Proof.
  induction l as [|y l IH]; intros Hs Hn; cbn [insert_sorted].
  - repeat constructor.
  - destruct (t <=? y) eqn:E.
    + apply Z.leb_le in E. constructor; [assumption|]. constructor.
      assert (t <> y) by (intros ->; apply Hn; now left). lia.
    + apply Z.leb_gt in E. inversion Hs as [|? ? Hs' Hh]; subst.
      constructor; [apply IH; [assumption|intros H; apply Hn; now right]|].
      destruct l as [|z l]; cbn [insert_sorted]; [now constructor|].
      inversion Hh; subst. destruct (t <=? z); now constructor.
Qed.

Lemma sorted_In (l : list Z) x : In x (sorted l) <-> In x l.
Proof.
  unfold sorted. induction l as [|y l IH]; cbn [fold_right]; [tauto|].
  rewrite insert_sorted_In, IH. cbn. intuition.
Qed.

Lemma sorted_Sorted (l : list Z) : NoDup l -> Sorted.Sorted Z.lt (sorted l).
Proof.
  unfold sorted. induction 1 as [|y l Hn Hnd IH]; cbn [fold_right]; [constructor|].
  apply insert_sorted_Sorted; [assumption|].
  fold (sorted l). now rewrite sorted_In.
Qed.

(** X16 — constructing the predictor fails with [IndexError] exactly on a
    dataset without rows (so the guard for zero hours in
    [get_next_hour_predictions] is never met on a constructed predictor);
    otherwise the predictor starts at hour index 0 with the distinct
    timestamps of the dataset in strictly increasing order, each of them being
    the timestamp of some row. *)
Theorem predictor_construction (dataset : list row) :
  (init dataset = Raise IndexError <-> dataset = [])
  /\ (forall p,
         init dataset = Ok p ->
         df p = dataset
         /\ current_hour_index p = 0%nat
         /\ (0 < total_hours p)%nat
         /\ Sorted.Sorted Z.lt (hourly_timestamps p)
         /\ (forall t, In t (hourly_timestamps p)
                       <-> exists r, In r dataset /\ row_timestamp r = t)
         /\ well_formed p).
Proof.
  assert (Hin : forall t, In t (sorted (unique (map row_timestamp dataset)))
                          <-> exists r, In r dataset /\ row_timestamp r = t).
  { intros t. rewrite sorted_In, unique_In, in_map_iff. firstorder. }
  unfold init. split.
  - split.
    + destruct dataset as [|r0 dataset']; [reflexivity|]. intros H.
      destruct (sorted (unique (map row_timestamp (r0 :: dataset')))) eqn:E;
        [|discriminate].
      assert (Hr : In (row_timestamp r0) []).
      { apply Hin. exists r0. split; [now left|reflexivity]. }
      destruct Hr.
    + now intros ->.
  - intros p Hp.
    destruct (sorted (unique (map row_timestamp dataset))) as [|t0 ts] eqn:E;
      [discriminate|].
    injection Hp as <-. cbn [df current_hour_index total_hours hourly_timestamps].
    split; [reflexivity|]. split; [reflexivity|]. split; [cbn; lia|].
    split; [rewrite <- E; apply sorted_Sorted, unique_NoDup|].
    split; [exact Hin|].
    unfold well_formed. cbn [df current_hour_index total_hours hourly_timestamps].
    split; [reflexivity|]. split; [cbn; lia|]. intros t Ht. now apply Hin.
Qed.

Lemma predictor_construction_witness :
  let dataset :=
    [mkRow 7 "link_1" (1 # 2); mkRow 3 "link_1" (1 # 20); mkRow 7 "link_2" (1 # 4)] in
  init [] = Raise IndexError
  /\ init dataset = Ok (mkPredictor dataset 0 [3; 7] 2)
  /\ well_formed (mkPredictor dataset 0 [3; 7] 2).
Proof.
  cbv zeta.
  split; [apply (proj1 (predictor_construction [])); reflexivity|].
  assert (E : init [mkRow 7 "link_1" (1 # 2); mkRow 3 "link_1" (1 # 20);
                    mkRow 7 "link_2" (1 # 4)]
              = Ok (mkPredictor [mkRow 7 "link_1" (1 # 2); mkRow 3 "link_1" (1 # 20);
                                 mkRow 7 "link_2" (1 # 4)] 0 [3; 7] 2))
    by (vm_compute; reflexivity).
  split; [exact E|].
  apply (proj2 (predictor_construction _) _ E).
Defined.

Lemma rows_at_nonempty p t :
  (exists r, In r (df p) /\ row_timestamp r = t) -> rows_at p t <> [].
Proof.
  intros (r & Hr & Ht) E.
  assert (H : In r (rows_at p t)).
  { unfold rows_at. apply filter_In. split; [assumption|]. now apply Z.eqb_eq. }
  rewrite E in H. destruct H.
Qed.

Lemma get_predictions_well_formed p :
  well_formed p ->
  exists t next,
    nth_error (hourly_timestamps p) (current_hour_index p) = Some t
    /\ nth_error (hourly_timestamps p) ((current_hour_index p + 1) mod total_hours p)
       = Some next
    /\ rows_at p t <> []
    /\ get_predictions p
       = (mkPredictor (df p) ((current_hour_index p + 1) mod total_hours p)
            (hourly_timestamps p) (total_hours p),
          Json (Some next) (rows_at p t)).
Proof.
  intros (Hlen & Hidx & Hrows).
  assert (Hpos : total_hours p <> 0%nat) by lia.
  assert (Hnext : ((current_hour_index p + 1) mod total_hours p < total_hours p)%nat)
    by now apply Nat.mod_upper_bound.
  destruct (nth_error (hourly_timestamps p) (current_hour_index p)) as [t|] eqn:Et;
    [|apply nth_error_None in Et; lia].
  destruct (nth_error (hourly_timestamps p)
              ((current_hour_index p + 1) mod total_hours p)) as [next|] eqn:En;
    [|apply nth_error_None in En; lia].
  exists t, next. split; [reflexivity|]. split; [reflexivity|].
  assert (Hne : rows_at p t <> []).
  { apply rows_at_nonempty, Hrows. eapply nth_error_In; eassumption. }
  split; [exact Hne|].
  unfold get_predictions, get_next_hour_predictions.
  apply Nat.eqb_neq in Hpos. rewrite Hpos, Et.
  fold (rows_at p t). cbn [hourly_timestamps current_hour_index].
  destruct (rows_at p t) as [|r rs]; [congruence|]. now rewrite En.
Qed.

(** X17 — a request to a well-formed predictor never ends in the 500 answer:
    it returns the non-empty batch of the rows whose timestamp is the one at
    the current hour index, in dataset order, and moves the index on by one,
    wrapping at the number of hours; the predictor stays well formed.  The
    ['timestamp'] member of the answer is read after the index has moved: it
    is the timestamp of the next hour, not that of the returned batch. *)
Theorem predictor_serves_current_hour (p : MockLSTMPredictor) :
  well_formed p ->
  exists t next,
    nth_error (hourly_timestamps p) (current_hour_index p) = Some t
    /\ nth_error (hourly_timestamps p) ((current_hour_index p + 1) mod total_hours p)
       = Some next
    /\ snd (get_predictions p) = Json (Some next) (rows_at p t)
    /\ rows_at p t <> []
    /\ (forall r, In r (rows_at p t) <-> In r (df p) /\ row_timestamp r = t)
    /\ current_hour_index (fst (get_predictions p))
       = ((current_hour_index p + 1) mod total_hours p)%nat
    /\ df (fst (get_predictions p)) = df p
    /\ hourly_timestamps (fst (get_predictions p)) = hourly_timestamps p
    /\ well_formed (fst (get_predictions p)).
Proof.
  intros Hwf. destruct (get_predictions_well_formed p Hwf) as (t & next & Ht & Hn & Hne & E).
  exists t, next. rewrite E. cbn [fst snd df hourly_timestamps current_hour_index].
  do 4 (split; [first [assumption|reflexivity]|]).
  split.
  { intros r. unfold rows_at. rewrite filter_In, Z.eqb_eq. tauto. }
  do 3 (split; [reflexivity|]).
  destruct Hwf as (Hlen & Hidx & Hrows). unfold well_formed.
  cbn [df hourly_timestamps current_hour_index total_hours].
  split; [assumption|]. split; [apply Nat.mod_upper_bound; lia|assumption].
Qed.
End PredictorFacts.

Section PredictorCycle.
Import Predictor.

Lemma predictor_serves_current_hour_witness :
  let dataset :=
    [mkRow 7 "link_1" (1 # 2); mkRow 3 "link_1" (1 # 20); mkRow 7 "link_2" (1 # 4)] in
  snd (get_predictions (mkPredictor dataset 1 [3; 7] 2))
  = Json (Some 3) [mkRow 7 "link_1" (1 # 2); mkRow 7 "link_2" (1 # 4)]
  /\ current_hour_index (fst (get_predictions (mkPredictor dataset 1 [3; 7] 2))) = 0%nat.
Proof.
  cbv zeta.
  destruct (predictor_serves_current_hour
              (mkPredictor [mkRow 7 "link_1" (1 # 2); mkRow 3 "link_1" (1 # 20);
                            mkRow 7 "link_2" (1 # 4)] 1 [3; 7] 2))
    as (t & next & Ht & Hn & Hs & _ & _ & Hi & _).
  - split; [reflexivity|]. split; [cbn; lia|].
    intros t [<-|[<-|[]]];
      [exists (mkRow 3 "link_1" (1 # 20))|exists (mkRow 7 "link_1" (1 # 2))];
      (split; [cbn; tauto|reflexivity]).
  - rewrite Hs, Hi. cbn in Ht, Hn. injection Ht as <-. injection Hn as <-.
    split; reflexivity.
Defined.

Lemma get_predictions_keeps_well_formed p :
  well_formed p -> well_formed (fst (get_predictions p)).
Proof.
  intros Hwf. destruct (get_predictions_well_formed p Hwf) as (t & next & _ & _ & _ & E).
  rewrite E. destruct Hwf as (Hlen & Hidx & Hrows). unfold well_formed.
  cbn [fst df hourly_timestamps current_hour_index total_hours].
  split; [assumption|]. split; [apply Nat.mod_upper_bound; lia|assumption].
Qed.

Lemma requests_shape (n : nat) : forall p,
  well_formed p ->
  fst (requests n p)
  = mkPredictor (df p) ((current_hour_index p + n) mod total_hours p)
      (hourly_timestamps p) (total_hours p)
  /\ (forall k, (k < n)%nat ->
        exists t next,
          nth_error (hourly_timestamps p) ((current_hour_index p + k) mod total_hours p)
          = Some t
          /\ nth_error (hourly_timestamps p)
               ((current_hour_index p + k + 1) mod total_hours p) = Some next
          /\ nth_error (snd (requests n p)) k = Some (Json (Some next) (rows_at p t))).
Proof.
  induction n as [|n IH]; intros p Hwf.
  - split; [|intros k Hk; lia]. cbn [requests fst]. rewrite Nat.add_0_r.
    destruct Hwf as (_ & Hidx & _). rewrite Nat.mod_small by assumption.
    now destruct p.
  - pose proof Hwf as (Hlen & Hidx & Hrows).
    destruct (get_predictions_well_formed p Hwf) as (t & next & Ht & Hn & Hne & E).
    pose proof (get_predictions_keeps_well_formed p Hwf) as Hwf1.
    cbn [requests]. rewrite E in *. cbn [fst] in Hwf1.
    specialize (IH _ Hwf1). destruct IH as [I1 I2].
    cbn [df hourly_timestamps current_hour_index total_hours] in I1, I2.
    destruct (requests n _) as [p2 rs]. cbn [fst snd] in *.
    split.
    + rewrite I1. f_equal. rewrite Nat.Div0.add_mod_idemp_l. f_equal. lia.
    + intros [|k] Hk.
      * exists t, next. rewrite Nat.add_0_r, Nat.mod_small by assumption.
        repeat split; assumption.
      * destruct (I2 k ltac:(lia)) as (t' & next' & H1 & H2 & H3).
        exists t', next'. cbn [nth_error].
        rewrite <- Nat.add_assoc, Nat.Div0.add_mod_idemp_l in H2.
        rewrite Nat.Div0.add_mod_idemp_l in H1.
        replace (current_hour_index p + S k)%nat
          with (current_hour_index p + 1 + k)%nat by lia.
        replace (current_hour_index p + 1 + k + 1)%nat
          with (current_hour_index p + 1 + (k + 1))%nat by lia.
        repeat split; assumption.
Qed.

(** X18 — successive requests go through the hours of the dataset in
    increasing order of timestamp and start over after the last one: the
    request number [k] (from 0) of a well-formed predictor at hour index [i]
    returns the rows of hour [(i + k) mod total_hours], and after
    [total_hours] requests the predictor is exactly as it was. *)
Theorem predictor_cycles (p : MockLSTMPredictor) (n : nat) :
  well_formed p ->
  current_hour_index (fst (requests n p))
  = ((current_hour_index p + n) mod total_hours p)%nat
  /\ (forall k, (k < n)%nat ->
        exists t next,
          nth_error (hourly_timestamps p) ((current_hour_index p + k) mod total_hours p)
          = Some t
          /\ nth_error (hourly_timestamps p)
               ((current_hour_index p + k + 1) mod total_hours p) = Some next
          /\ nth_error (snd (requests n p)) k = Some (Json (Some next) (rows_at p t)))
  /\ fst (requests (total_hours p) p) = p.
Proof.
  intros Hwf. destruct (requests_shape n p Hwf) as [H1 H2].
  split; [now rewrite H1|]. split; [exact H2|].
  destruct (requests_shape (total_hours p) p Hwf) as [H3 _]. rewrite H3.
  destruct Hwf as (_ & Hidx & _).
  replace ((current_hour_index p + total_hours p) mod total_hours p)%nat
    with (current_hour_index p); [now destruct p|].
  rewrite <- Nat.Div0.add_mod_idemp_r, Nat.Div0.mod_same, Nat.add_0_r.
  rewrite Nat.mod_small by lia. reflexivity.
Qed.

Lemma predictor_cycles_witness :
  let p :=
    mkPredictor [mkRow 7 "link_1" (1 # 2); mkRow 3 "link_1" (1 # 20);
                 mkRow 7 "link_2" (1 # 4)] 0 [3; 7] 2 in
  current_hour_index (fst (requests 5 p)) = 1%nat
  /\ fst (requests 2 p) = p.
Proof.
  cbv zeta.
  match goal with |- context [requests 5 ?q] => set (p := q) end.
  assert (Hwf : well_formed p).
  { split; [reflexivity|]. split; [cbn; lia|].
    intros t [<-|[<-|[]]];
      [exists (mkRow 3 "link_1" (1 # 20))|exists (mkRow 7 "link_1" (1 # 2))];
      (split; [cbn; tauto|reflexivity]). }
  destruct (predictor_cycles p 5 Hwf) as (H1 & _ & _).
  destruct (predictor_cycles p 2 Hwf) as (_ & _ & H3).
  split; [rewrite H1; reflexivity|exact H3].
Defined.
End PredictorCycle.

(** ** From the dataset to the decision *)

(** X19 — what the manager fetches from a well-formed predictor is never
    empty: it is the batch of the predictor's current hour, each row as a
    forecast entry; in the hour simulated with it every link keeps its state
    entry, and its utilization at the end of the hour is the ratio of the last
    row of the batch that names it, or its previous utilization when no row
    does. *)
Theorem hour_uses_dataset_ratios
    (p : Predictor.MockLSTMPredictor) (self : EnergyManager) (hour : Z) :
  Predictor.well_formed p ->
  let predictions := _get_predictions (forecast_of (snd (Predictor.get_predictions p))) in
  (exists t,
      nth_error (Predictor.hourly_timestamps p) (Predictor.current_hour_index p) = Some t
      /\ predictions = map Predictor.as_prediction (Predictor.rows_at p t))
  /\ predictions <> []
  /\ (forall k s,
         dict_get k (link_states self) = Some s ->
         exists s',
           dict_get k (link_states (fst (simulated_hour self hour predictions))) = Some s'
           /\ utilization s'
              = match last_ratio k predictions with
                | Some u => u
                | None => utilization s
                end).
Proof.
  intros Hwf. cbv zeta.
  destruct (get_predictions_well_formed p Hwf) as (t & next & Ht & _ & Hne & E).
  rewrite E. cbn [snd forecast_of _get_predictions Z.eqb Pos.eqb].
  split; [exists t; split; [assumption|reflexivity]|].
  split; [destruct (Predictor.rows_at p t); [congruence|discriminate]|].
  intros k s Hs.
  set (ps := map Predictor.as_prediction (Predictor.rows_at p t)).
  assert (Hps : ps <> []) by (subst ps; destruct (Predictor.rows_at p t);
                              [congruence|discriminate]).
  assert (Hl : link_states (fst (simulated_hour self hour ps))
               = link_states (fst (_link_management (_update_predictions self ps)))).
  { unfold simulated_hour. destruct ps as [|q qs]; [congruence|].
    destruct (_link_management _) as [m [e|]]; [reflexivity|].
    cbn [fst]. apply metrics_collector_frame. }
  rewrite Hl.
  pose proof (manage_links_utilization
                (dict_keys (link_states (_update_predictions self ps)))
                (_update_predictions self ps) k) as U.
  fold (_link_management (_update_predictions self ps)) in U.
  rewrite update_predictions_get, Hs in U. cbn [option_map utilization] in U.
  destruct (dict_get k (link_states (fst (_link_management (_update_predictions self ps)))))
    as [s'|]; [|discriminate].
  exists s'. split; [reflexivity|]. now injection U.
Qed.

Lemma hour_uses_dataset_ratios_witness :
  let p :=
    Predictor.mkPredictor
      [Predictor.mkRow 7 "link_1" (1 # 2); Predictor.mkRow 3 "link_1" (1 # 20);
       Predictor.mkRow 7 "link_2" (1 # 4)] 1 [3; 7] 2 in
  _get_predictions (forecast_of (snd (Predictor.get_predictions p))) <> []
  /\ dict_get "link_2"
       (link_states
          (fst (simulated_hour default_state 0
                  (_get_predictions (forecast_of (snd (Predictor.get_predictions p)))))))
     = Some (mkLinkState true (1 # 4)).
Proof.
  cbv zeta.
  match goal with |- context [Predictor.get_predictions ?q] => set (p := q) end.
  assert (Hwf : Predictor.well_formed p).
  { split; [reflexivity|]. split; [cbn; lia|].
    intros t [<-|[<-|[]]];
      [exists (Predictor.mkRow 3 "link_1" (1 # 20))
      |exists (Predictor.mkRow 7 "link_1" (1 # 2))];
      (split; [cbn; tauto|reflexivity]). }
  destruct (hour_uses_dataset_ratios p default_state 0 Hwf) as (_ & H2 & _).
  split; [exact H2|]. vm_compute. reflexivity.
Defined.

(** ** Topologies on which nothing raises *)

Lemma run_app (a b : list event) : forall self,
  run self (a ++ b)%list
  = match run self a with
    | (m, None) => run m b
    | stopped => stopped
    end.
Proof.
  induction a as [|ev a IH]; intros self; cbn [app run]; [reflexivity|].
  destruct (step self ev) as [m [e|]]; [reflexivity|apply IH].
Qed.













(** ** The switch graph *)

Lemma add_edge_links index g u v l e :
  graph_of_switch_links index g ->
  In (l, e) index -> dpid_a e = u -> dpid_b e = v -> 0 < u -> 0 < v ->
  graph_of_switch_links index (add_edge g u v l).
Proof.
  intros Hg Hin Ha Hb Hu Hv. unfold graph_of_switch_links in *.
  induction g as [|[[a0 b0] l0] g IH]; cbn [add_edge].
  - intros a b l' [[= <- <- <-]|[]]. repeat split; try assumption.
    exists e. auto.
  - assert (Hg' : forall a b l', In (a, b, l') g ->
                    0 < a /\ 0 < b
                    /\ exists e', In (l', e') index
                        /\ ((dpid_a e' = a /\ dpid_b e' = b)
                            \/ (dpid_a e' = b /\ dpid_b e' = a)))
      by (intros; apply Hg; now right).
    destruct (Hg a0 b0 l0 (or_introl eq_refl)) as (P1 & P2 & _).
    destruct ((a0 =? u) && (b0 =? v) || (a0 =? v) && (b0 =? u)) eqn:E.
    + intros a b l' [[= <- <- <-]|Hin']; [|now apply Hg'].
      repeat split; try assumption. exists e. split; [assumption|].
      apply orb_prop in E. destruct E as [E|E]; apply andb_prop in E;
        destruct E as [E1 E2]; apply Z.eqb_eq in E1, E2; subst; auto.
    + intros a b l' [[= <- <- <-]|Hin']; [now apply Hg; left|now apply IH].
Qed.

Lemma add_edge_adjacent g u v l : adjacent (add_edge g u v l) u v.
Proof.
  unfold adjacent. induction g as [|[[a0 b0] l0] g IH]; cbn [add_edge].
  - exists l. left. now left.
  - destruct ((a0 =? u) && (b0 =? v) || (a0 =? v) && (b0 =? u)) eqn:E.
    + exists l. apply orb_prop in E. destruct E as [E|E]; apply andb_prop in E;
        destruct E as [E1 E2]; apply Z.eqb_eq in E1, E2; subst; [left|right]; now left.
    + destruct IH as [l' [H|H]]; exists l'; [left|right]; now right.
Qed.

Lemma add_edge_keeps_adjacent g u v l x y :
  adjacent g x y -> adjacent (add_edge g u v l) x y.
Proof.
  unfold adjacent. induction g as [|[[a0 b0] l0] g IH]; cbn [add_edge].
  - intros [l' [[]|[]]].
  - intros [l' H].
    destruct ((a0 =? u) && (b0 =? v) || (a0 =? v) && (b0 =? u)) eqn:E.
    + destruct H as [[[= <- <- <-]|H]|[[= <- <- <-]|H]].
      * exists l. left. now left.
      * exists l'. left. now right.
      * exists l. right. now left.
      * exists l'. right. now right.
    + destruct H as [[[= <- <- <-]|H]|[[= <- <- <-]|H]].
      * exists l0. left. now left.
      * destruct IH as [l2 [H2|H2]]; [exists l'; now left| |]; exists l2;
          [left|right]; now right.
      * exists l0. right. now left.
      * destruct IH as [l2 [H2|H2]]; [exists l'; now right| |]; exists l2;
          [left|right]; now right.
Qed.

Lemma load_graph_fold index (l : dict edge) : forall s0 : EnergyManager,
  (forall x, In x l -> In x index) ->
  graph_of_switch_links index (switch_graph s0) ->
  let s1 :=
    fold_left
      (fun (s : EnergyManager) '(link_id, e) =>
         {| switch_graph :=
              if (0 <? dpid_a e) && (0 <? dpid_b e)
              then add_edge (switch_graph s) (dpid_a e) (dpid_b e) link_id
              else switch_graph s;
            link_states := dict_set link_id (mkLinkState true 0) (link_states s);
            link_index_to_edge := link_index_to_edge s;
            sleep_threshold := sleep_threshold s;
            metrics := metrics s |})
      l s0 in
  graph_of_switch_links index (switch_graph s1)
  /\ (forall k e, In (k, e) l -> 0 < dpid_a e -> 0 < dpid_b e ->
                  adjacent (switch_graph s1) (dpid_a e) (dpid_b e))
  /\ (forall u v, adjacent (switch_graph s0) u v -> adjacent (switch_graph s1) u v).
Proof.
  induction l as [|[k e] l IH]; intros s0 Hsub Hg; cbn [fold_left].
  - cbv zeta. split; [assumption|]. split; [intros ? ? []|auto].
  - match goal with |- context [fold_left _ l ?s] => specialize (IH s) end.
    cbv zeta in IH. cbn [switch_graph] in IH.
    destruct ((0 <? dpid_a e) && (0 <? dpid_b e)) eqn:E.
    + apply andb_prop in E. destruct E as [E1 E2]. apply Z.ltb_lt in E1, E2.
      destruct IH as (I1 & I2 & I3).
      * intros x Hx. apply Hsub. now right.
      * apply add_edge_links with e; auto. apply Hsub. now left.
      * cbv zeta. split; [exact I1|]. split.
        -- intros k' e' [[= -> ->]|Hin] Ha Hb; [|now apply (I2 k')].
           apply I3. apply add_edge_adjacent.
        -- intros u v Huv. apply I3. now apply add_edge_keeps_adjacent.
    + destruct IH as (I1 & I2 & I3).
      * intros x Hx. apply Hsub. now right.
      * assumption.
      * cbv zeta. split; [exact I1|]. split; [|exact I3].
        intros k' e' [[= -> ->]|Hin] Ha Hb; [|now apply (I2 k')].
        apply Z.ltb_lt in Ha, Hb. rewrite Ha, Hb in E. discriminate.
Qed.

(** X21 — the switch graph built at topology acquisition holds no host link:
    each of its edges joins two switches (positive datapath ids) and carries the
    identifier of a link of the map between these two switches; every
    switch-to-switch link of the map has its two ends joined by an edge (parallel
    links share one edge); and no later operation changes the graph. *)
Theorem switch_graph_holds_switch_links (snapshot : dict edge) :
  let self := started snapshot in
  graph_of_switch_links (link_index_to_edge self) (switch_graph self)
  /\ (forall k e,
         In (k, e) (link_index_to_edge self) -> 0 < dpid_a e -> 0 < dpid_b e ->
         adjacent (switch_graph self) (dpid_a e) (dpid_b e))
  /\ (forall evs, switch_graph (fst (run self evs)) = switch_graph self).
Proof.
  cbv zeta. split; [|split].
  - pose proof (load_topology_index init_manager (Ryu.mkBody (Some snapshot))) as Hi.
    unfold started. rewrite Hi. unfold load_topology. cbv zeta.
    match goal with |- context [fold_left _ ?l ?s] =>
      destruct (load_graph_fold l l s) as (H & _) end; auto.
    intros a b l [].
  - pose proof (load_topology_index init_manager (Ryu.mkBody (Some snapshot))) as Hi.
    unfold started. rewrite Hi. unfold load_topology. cbv zeta.
    match goal with |- context [fold_left _ ?l ?s] =>
      destruct (load_graph_fold l l s) as (_ & H & _) end; auto.
    intros a b l [].
  - intros evs.
    apply (run_invariant (fun m => switch_graph m = switch_graph (started snapshot)));
      [|reflexivity].
    intros m ev _ Hm. destruct ev as [ps| |hour]; cbn [step fst].
    + destruct (update_predictions_frame ps m) as (_ & _ & _ & F & _). congruence.
    + destruct (link_management_frame m) as (_ & _ & _ & F & _). cbv zeta in F. congruence.
    + rewrite metrics_collector_eq. exact Hm.
Qed.

Lemma switch_graph_holds_switch_links_witness :
  adjacent (switch_graph (started Ryu._build_topology)) 2 9
  /\ switch_graph (fst (run (started Ryu._build_topology) [Manage; Collect 0]))
     = switch_graph (started Ryu._build_topology).
Proof.
  destruct (switch_graph_holds_switch_links Ryu._build_topology) as (_ & H2 & H3).
  split; [|apply H3].
  apply (H2 "link_38" (mkEdge 2 6 "00:00:00:00:02:06" 9 6 "00:00:00:00:09:06")).
  - apply dict_get_In. vm_compute. reflexivity.
  - cbn. lia.
  - cbn. lia.
Defined.
